(** * Perceval: the Confluence historical-content backend

    A shallow embedding of [perceval/backends/core/confluence.py]: the
    [Confluence] backend (checkpoint resolution, summary pagination, the
    per-content version walk, item normalisation, identity and timestamp
    extraction) and its REST client [ConfluenceClient].

    Python values decoded from JSON are modelled by the inductive type
    [json]; exceptions by [exn]; generators by the finite record of what
    they do when they are iterated ([run]): the HTTP requests they issue
    and the values they yield, in program order, and how they end. *)

From Stdlib Require Import ZArith List String Ascii Bool Lia QArith.
From Stdlib Require Import DecimalString DecimalZ Sorted.
Import ListNotations.

Local Open Scope string_scope.
Local Open Scope Z_scope.

(* ================================================================== *)
(** ** Python values and the operations the backend applies to them *)

Module Py.

(** A value produced by [json.loads]. Numbers are integers (the fields
    the backend reads, ids and version numbers, are integral). A dict is
    an association list in insertion order; lookup takes the first
    binding of a key. *)
#[warnings="-register-all"]
Inductive json : Type :=
| JNull
| JBool (b : bool)
| JNum (n : Z)
| JStr (s : string)
| JArr (l : list json)
| JObj (kv : list (string * json)).

Definition dict := list (string * json).

(** Exceptions that reach the backend. [HTTPError] is
    [requests.exceptions.HTTPError] with its response status code;
    [TransportError] stands for every other failure of the transport.
    [Unsupported] marks a value on which this model does not define an
    operation ([str] of a list or of a dict). *)
Inductive exn : Type :=
| HTTPError (code : Z)
| TransportError (what : string)
| KeyError (key : string)
| TypeError
| IndexError
| InvalidDateError
| Unsupported.

(** How an evaluation ends: it returns, it raises, or (for a loop whose
    fuel ran out) it has not ended. *)
Inductive outcome (A : Type) : Type :=
| Return (a : A)
| Raise (e : exn)
| Diverge.
Arguments Return {A} a.
Arguments Raise {A} e.
Arguments Diverge {A}.

Definition bind {A B} (o : outcome A) (k : A -> outcome B) : outcome B :=
  match o with
  | Return a => k a
  | Raise e => Raise e
  | Diverge => Diverge
  end.

Fixpoint lookup (k : string) (d : dict) : option json :=
  match d with
  | [] => None
  | (k', v) :: d' => if String.eqb k k' then Some v else lookup k d'
  end.

(** [d[k] = v] on a dict: the binding is replaced in place, or appended. *)
Fixpoint assign (k : string) (v : json) (d : dict) : dict :=
  match d with
  | [] => [(k, v)]
  | (k', v') :: d' =>
      if String.eqb k k' then (k, v) :: d' else (k', v') :: assign k v d'
  end.

(** [j[k]] for a string key. *)
Definition getitem (j : json) (k : string) : outcome json :=
  match j with
  | JObj d => match lookup k d with
              | Some v => Return v
              | None => Raise (KeyError k)
              end
  | _ => Raise TypeError
  end.

(** [j[k] = v] for a string key. *)
Definition setitem (j : json) (k : string) (v : json) : outcome json :=
  match j with
  | JObj d => Return (JObj (assign k v d))
  | _ => Raise TypeError
  end.

Fixpoint is_substring (p s : string) : bool :=
  String.prefix p s ||
  match s with
  | EmptyString => false
  | String _ s' => is_substring p s'
  end.

Definition is_str (k : string) (j : json) : bool :=
  match j with
  | JStr s => String.eqb k s
  | _ => false
  end.

(** [k in j] for a string [k]: key membership on a dict, element
    membership on a list, substring on a string. *)
Definition contains (k : string) (j : json) : outcome bool :=
  match j with
  | JObj d => Return (match lookup k d with Some _ => true | None => false end)
  | JArr l => Return (existsb (is_str k) l)
  | JStr s => Return (is_substring k s)
  | _ => Raise TypeError
  end.

(** Truth value of a Python object. *)
Definition truthy (j : json) : bool :=
  match j with
  | JNull => false
  | JBool b => b
  | JNum n => negb (Z.eqb n 0)
  | JStr s => negb (String.eqb s "")
  | JArr l => match l with [] => false | _ => true end
  | JObj d => match d with [] => false | _ => true end
  end.

Fixpoint chars (s : string) : list json :=
  match s with
  | EmptyString => []
  | String c s' => JStr (String c EmptyString) :: chars s'
  end.

(** The elements a [for] loop visits. *)
Definition iterate (j : json) : outcome (list json) :=
  match j with
  | JArr l => Return l
  | JObj d => Return (map (fun kv => JStr (fst kv)) d)
  | JStr s => Return (chars s)
  | _ => Raise TypeError
  end.

(** [str(n)] for an integer. *)
Definition str_int (n : Z) : string := NilZero.string_of_int (Z.to_int n).

(** [str(j)] for a scalar. *)
Definition str (j : json) : outcome string :=
  match j with
  | JStr s => Return s
  | JNum n => Return (str_int n)
  | JBool true => Return "True"
  | JBool false => Return "False"
  | JNull => Return "None"
  | JArr _ | JObj _ => Raise Unsupported
  end.

(** [s.rstrip('/')]. *)
Fixpoint rstrip_slash (s : string) : string :=
  match s with
  | EmptyString => EmptyString
  | String c s' =>
      match rstrip_slash s' with
      | EmptyString => if Ascii.eqb c "/" then EmptyString else String c EmptyString
      | r => String c r
      end
  end.

(** An exception raised by a collaborator, or its result. *)
Definition of_sum {A} (x : exn + A) : outcome A :=
  match x with
  | inl e => Raise e
  | inr a => Return a
  end.

(** [a + b] where [a] is a string. *)
Definition concat_str (a : string) (j : json) : outcome string :=
  match j with
  | JStr s => Return (a ++ s)
  | _ => Raise TypeError
  end.

End Py.
Import Py.

Notation "x <- e ;; k" := (bind e (fun x => k))
  (at level 61, e at next level, right associativity).

(* ================================================================== *)
(** ** Dates ([datetime], [grimoirelab_toolkit.datetime]) *)

Module DT.

(** A timezone-aware [datetime]: the instant it denotes, in microseconds
    since 1970-01-01T00:00:00Z, and its offset east of UTC, in
    microseconds. *)
Record datetime : Type := { instant : Z; utcoffset : Z }.

(** What a caller may pass as [from_date]: a naive [datetime] (its wall
    clock, in microseconds since 1970-01-01T00:00:00) or an aware one. *)
Inductive date_arg : Type :=
| Naive (wall : Z)
| Aware (d : datetime).

Definition utc (i : Z) : datetime := {| instant := i; utcoffset := 0 |}.

(** Modelled from the spec: [DEFAULT_DATETIME] of [perceval/utils.py],
    which is not among the sources; the spec gives the full-harvest
    sentinel as the instant 1970-01-01T00:00:00Z. *)
Definition DEFAULT_DATETIME : date_arg := Aware (utc 0).

(** [datetime_to_utc]: a naive value is read as UTC, an aware one is
    moved to UTC (same instant). *)
Definition datetime_to_utc (ts : date_arg) : datetime :=
  match ts with
  | Naive wall => utc wall
  | Aware d => utc (instant d)
  end.

(** [a >= b] on aware values compares instants. *)
Definition ge (a b : datetime) : bool := instant b <=? instant a.

(** [d.timestamp()]: seconds since the epoch. *)
Definition timestamp (d : datetime) : Q := Qmake (instant d) 1000000.

(** Proleptic Gregorian date of a day number (days since 1970-01-01). *)
Definition civil_from_days (days : Z) : Z * Z * Z :=
  let z := days + 719468 in
  let era := z / 146097 in
  let doe := z - era * 146097 in
  let yoe := (doe - doe / 1460 + doe / 36524 - doe / 146096) / 365 in
  let doy := doe - (365 * yoe + yoe / 4 - yoe / 100) in
  let mp := (5 * doy + 2) / 153 in
  let d := doy - (153 * mp + 2) / 5 + 1 in
  let m := if mp <? 10 then mp + 3 else mp - 9 in
  let y := yoe + era * 400 + (if m <=? 2 then 1 else 0) in
  (y, m, d).

Definition pad2 (n : Z) : string :=
  if n <? 10 then "0" ++ str_int n else str_int n.

(** The whole minutes of the wall clock of [d]. *)
Definition wall_minutes (d : datetime) : Z :=
  (instant d + utcoffset d) / 60000000.

(** [d.strftime("%Y-%m-%d %H:%M")]. *)
Definition strftime_minutes (d : datetime) : string :=
  let mins := wall_minutes d in
  let '(y, m, dd) := civil_from_days (mins / 1440) in
  str_int y ++ "-" ++ pad2 m ++ "-" ++ pad2 dd ++ " " ++
  pad2 (mins mod 1440 / 60) ++ ":" ++ pad2 (mins mod 60).

End DT.
Import DT.

(* ================================================================== *)
(** ** Generators, as the record of one full iteration *)

Module Gen.

(** What an iteration does that the outside can see: a request sent
    through [HttpClient.fetch], or a value handed to the consumer. *)
Inductive event (Y : Type) : Type :=
| Request (url : string) (params : dict)
| Yield (y : Y).
Arguments Request {Y} url params.
Arguments Yield {Y} y.

#[projections(primitive)]
Record run (Y A : Type) : Type := Run { events : list (event Y); final : outcome A }.
Arguments Run {Y A} events final.
Arguments events {Y A} r.
Arguments final {Y A} r.

Definition lift {Y A} (o : outcome A) : run Y A := Run [] o.
Definition ret {Y A} (a : A) : run Y A := lift (Return a).
Definition yield {Y} (y : Y) : run Y unit := Run [Yield y] (Return tt).

(** Sequencing: the second part runs only when the first returned. *)
Definition seq {Y A B} (r : run Y A) (k : A -> run Y B) : run Y B :=
  match final r with
  | Return a => let r' := k a in Run (events r ++ events r') (final r')
  | Raise e => Run (events r) (Raise e)
  | Diverge => Run (events r) Diverge
  end.

(** [for x in l: body] over a list. *)
Fixpoint for_list {X Y} (l : list X) (body : X -> run Y unit) : run Y unit :=
  match l with
  | [] => ret tt
  | x :: l' => seq (body x) (fun _ => for_list l' body)
  end.

(** [for x in g: body] over a generator [g]: the requests of [g] stay in
    place, [body] runs at each yield, and [g] is not resumed once [body]
    has raised. *)
Fixpoint for_events {X Y} (evs : list (event X)) (fin : outcome unit)
    (body : X -> run Y unit) : run Y unit :=
  match evs with
  | [] => lift fin
  | Request u p :: evs' =>
      let r := for_events evs' fin body in
      Run (Request u p :: events r) (final r)
  | Yield x :: evs' => seq (body x) (fun _ => for_events evs' fin body)
  end.

Definition for_each {X Y} (g : run X unit) (body : X -> run Y unit) : run Y unit :=
  for_events (events g) (final g) body.

Fixpoint yields {Y} (evs : list (event Y)) : list Y :=
  match evs with
  | [] => []
  | Request _ _ :: evs' => yields evs'
  | Yield y :: evs' => y :: yields evs'
  end.

Fixpoint requests {Y} (evs : list (event Y)) : list (string * dict) :=
  match evs with
  | [] => []
  | Request u p :: evs' => (u, p) :: requests evs'
  | Yield _ :: evs' => requests evs'
  end.

Definition sent {Y} (rs : list (string * dict)) : list (event Y) :=
  map (fun r => Request (fst r) (snd r)) rs.

(** [[x for x in g]]: the generator is drained into a list; nothing is
    handed on until it is exhausted. *)
Definition collect {X Y} (g : run X unit) : run Y (list X) :=
  Run (sent (requests (events g)))
      (_ <- final g ;; Return (yields (events g))).

(** The version numbers asked for, read off the [version] parameter of
    the requests. *)
Definition asked_version (r : string * dict) : list Z :=
  match lookup "version" (snd r) with
  | Some (JNum v) => [v]
  | _ => []
  end.

Definition requested_versions {Y} (evs : list (event Y)) : list Z :=
  flat_map asked_version (requests evs).

End Gen.
Import Gen.

Notation "x <~ r ;; k" := (seq r (fun x => k))
  (at level 61, r at next level, right associativity).

(* ================================================================== *)
(** ** The REST client *)

Definition MAX_CONTENTS : Z := 200.

Module ConfluenceClient.

Section Client.

(** [HttpClient.fetch(url, payload)] ([perceval/client.py], not among
    the sources): the decoded body of the response, or the exception it
    raises. The body stands for both [r.text] and [r.json()]. The
    server answers a given request the same way throughout a harvest. *)
Variable client_fetch : string -> dict -> exn + json.

(** [grimoirelab_toolkit.uris.urijoin] on two strings. *)
Variable urijoin : string -> string -> string.

(** The attributes [base_url] (set by the constructor to its argument
    without trailing slashes) and [add_ancestors]. *)
Variable base_url : string.
Variable add_ancestors : bool.

(** The end of one round of [_call]: the [next] link of the response,
    when it has one. *)
Definition next_link (j : json) : outcome (option json) :=
  has_links <- contains "_links" j ;;
  if negb has_links then Return None else
  links <- getitem j "_links" ;;
  has_next <- contains "next" links ;;
  if negb has_next then Return None else
  next <- getitem links "next" ;;
  Return (Some next).

(** The [while True] loop of [_call]; [fuel] bounds its rounds. *)
Fixpoint _call_loop (fuel : nat) (u : string) (params : dict) : run json unit :=
  match fuel with
  | O => lift Diverge
  | S fuel' =>
      r <~ Run [Request u params] (of_sum (client_fetch u params)) ;;
      _ <~ yield r ;;
      n <~ lift (next_link r) ;;
      match n with
      | None => ret tt
      | Some next =>
          u' <~ lift (s <- str next ;; Return (urijoin base_url s)) ;;
          _call_loop fuel' u' []
      end
  end.

Definition _call (fuel : nat) (resource : string) (params : dict) : run json unit :=
  _call_loop fuel (base_url ++ "/rest/api/" ++ resource) params.

Definition VCQL (date : string) : string :=
  "lastModified>='" ++ date ++ "' order by lastModified".

(** The resource of the summary search. *)
Definition search_resource : string :=
  let resource := "content" ++ "/" ++ "search" in
  if add_ancestors then resource ++ "?expand=ancestors" else resource.

Definition contents (fuel : nat) (from_date : datetime) (offset : json)
    (max_contents : Z) : run json unit :=
  let resource := search_resource in
  let date := strftime_minutes from_date in
  let cql := VCQL date in
  let params := [("cql", JStr cql); ("limit", JNum max_contents)] in
  let params := if truthy offset then assign "start" offset params else params in
  for_each (_call fuel resource params) (fun response => yield response).

(** The parameters of the request for one version. *)
Definition version_params (version : Z) : dict :=
  [("version", JNum version);
   ("status", JStr "historical");
   ("expand", JStr "body.storage,history,version")].

Definition historical_content (fuel : nat) (content_id : json) (version : Z)
    : run json json :=
  id <~ lift (str content_id) ;;
  let resource := "content" ++ "/" ++ id in
  let params := version_params version in
  response <~ collect (_call fuel resource params) ;;
  match response with
  | r :: _ => ret r
  | [] => lift (Raise IndexError)
  end.

(** *** Vocabulary of the statements about the client *)

(** The URL and parameters of the first summary request. *)
Definition search_url : string := base_url ++ "/rest/api/" ++ search_resource.

Definition search_params (from_date : datetime) (offset : json) (max_contents : Z)
    : dict :=
  ([("cql", JStr (VCQL (strftime_minutes from_date))); ("limit", JNum max_contents)]
   ++ (if truthy offset then [("start", offset)] else []))%list.

(** The URL of the requests for the versions of a content. *)
Definition content_url (id : string) : string :=
  base_url ++ "/rest/api/" ++ "content" ++ "/" ++ id.

(** The request that follows a response carrying a [next] link. *)
Definition continuation (body : json) : option (string * dict) :=
  match next_link body with
  | Return (Some next) =>
      match str next with
      | Return s => Some (urijoin base_url s, [])
      | _ => None
      end
  | _ => None
  end.

(** The requests that follow the first one, given the pages received. *)
Fixpoint continuation_requests (pages : list json) : list (string * dict) :=
  match pages with
  | [] => []
  | body :: rest =>
      match continuation body with
      | Some r => r :: continuation_requests rest
      | None => []
      end
  end.

(** [pages_from u params pages]: the server answers the request
    [(u, params)] and the continuations that follow with [pages], the
    last of which carries no [next] link. *)
Inductive pages_from : string -> dict -> list json -> Prop :=
| pages_last u params body :
    client_fetch u params = inr body ->
    next_link body = Return None ->
    pages_from u params [body]
| pages_more u params body r rest :
    client_fetch u params = inr body ->
    continuation body = Some r ->
    pages_from (fst r) (snd r) rest ->
    pages_from u params (body :: rest).

(** The versions the server hands out for the numbers [vs]. *)
Definition fetched (fuel : nat) (cid : json) (vs : list Z) : list json :=
  flat_map (fun v => match final (historical_content fuel cid v) with
                     | Return hc => [hc]
                     | _ => []
                     end) vs.

End Client.

End ConfluenceClient.

(* ================================================================== *)
(** ** The backend *)

Definition CATEGORY_HISTORICAL_CONTENT : string := "historical content".

Module Confluence.

Section Backend.

Variable client_fetch : string -> dict -> exn + json.

(** [grimoirelab_toolkit.datetime.str_to_datetime], which returns an
    aware [datetime] or raises. *)
Variable str_to_datetime : json -> exn + datetime.

Variable urijoin : string -> string -> string.

(** The constructor arguments [url] and [add_ancestors]. *)
Variable url : string.
Variable self_add_ancestors : bool.

Definition origin : string := url.

(** The client of [_init_client]: [ConfluenceClient(self.url,
    self.add_ancestors)], whose constructor strips the trailing slashes
    of the URL. *)
Definition client_base_url : string := rstrip_slash url.

Local Abbreviation client_contents :=
  (ConfluenceClient.contents client_fetch urijoin client_base_url self_add_ancestors).
Local Abbreviation client_historical_content :=
  (ConfluenceClient.historical_content client_fetch urijoin client_base_url).

Definition add_ancestors (url_prefix : string) (item content : json) : outcome json :=
  has <- contains "ancestors" content ;;
  listed <- (if has then a <- getitem content "ancestors" ;; Return (truthy a)
             else Return false) ;;
  ancestors <-
    (if listed then
       a <- getitem content "ancestors" ;;
       l <- iterate a ;;
       fold_left
         (fun acc ancestor =>
            ancestors <- acc ;;
            links <- getitem ancestor "_links" ;;
            webui <- getitem links "webui" ;;
            s <- concat_str url_prefix webui ;;
            Return (ancestors ++ [JStr s])%list)
         l (Return [])
     else Return []) ;;
  match ancestors with
  | [] => Return item
  | _ => setitem item "ancestors" (JArr ancestors)
  end.

Definition metadata_id (item : json) : outcome string :=
  cid <- getitem item "id" ;;
  version <- getitem item "version" ;;
  cversion <- getitem version "number" ;;
  a <- str cid ;;
  b <- str cversion ;;
  Return (a ++ "#v" ++ b).

(** [str_to_datetime(hc['version']['when'])]. *)
Definition version_when (hc : json) : outcome datetime :=
  version <- getitem hc "version" ;;
  when <- getitem version "when" ;;
  of_sum (str_to_datetime when).

Definition metadata_updated_on (item : json) : outcome Q :=
  ts <- version_when item ;;
  Return (timestamp ts).

Definition metadata_category (item : json) : string := CATEGORY_HISTORICAL_CONTENT.

Definition parse_contents_summary (raw_json : json) : run json unit :=
  contents <~ lift (getitem raw_json "results") ;;
  l <~ lift (iterate contents) ;;
  for_list l (fun c => yield c).

Definition parse_historical_content (raw_json : json) : json := raw_json.

Definition fetch_contents_summary (fuel : nat) (from_date : datetime) : run json unit :=
  for_each (client_contents fuel from_date JNull MAX_CONTENTS) (fun page =>
    for_each (parse_contents_summary page) (fun cs => yield cs)).

(** The status codes the walk recovers from: [code in (404, 500)]. *)
Definition recoverable (code : Z) : bool := (code =? 404) || (code =? 500).

(** The arguments of the log line of a skipped version:
    [hc['id']] and [str(hc['version']['number'])]. *)
Definition skipped_log (hc : json) : outcome unit :=
  _ <- getitem hc "id" ;;
  version <- getitem hc "version" ;;
  _ <- getitem version "number" ;;
  Return tt.

(** [hc['history']['latest']]. *)
Definition history_latest (hc : json) : outcome json :=
  history <- getitem hc "history" ;;
  getitem history "latest".

(** The [while fetching] loop of [__fetch_historical_contents], entered
    with [fetching = True] at [version]; [n] bounds its rounds and [fuel]
    the rounds of each [_call]. *)
Fixpoint fetch_historical_contents_loop (fuel n : nat) (cid : json)
    (from_date : datetime) (version : Z) : run json unit :=
  match n with
  | O => lift Diverge
  | S n' =>
      let fetched := client_historical_content fuel cid version in
      match final fetched with
      | Raise (HTTPError code) =>
          if recoverable code
          then Run (events fetched) (Return tt)
          else Run (events fetched) (Raise (HTTPError code))
      | Raise e => Run (events fetched) (Raise e)
      | Diverge => Run (events fetched) Diverge
      | Return raw_hc =>
          _ <~ Run (events fetched) (Return tt) ;;
          let hc := parse_historical_content raw_hc in
          when <~ lift (version_when hc) ;;
          _ <~ (if ge when from_date then yield hc else lift (skipped_log hc)) ;;
          latest <~ lift (history_latest hc) ;;
          let fetching := negb (truthy latest) in
          if fetching
          then fetch_historical_contents_loop fuel n' cid from_date (version + 1)
          else ret tt
      end
  end.

Definition fetch_historical_contents (fuel : nat) (cid : json) (from_date : datetime)
    : run json unit :=
  fetch_historical_contents_loop fuel fuel cid from_date 1.

(** What [fetch_items] does with one historical content of [content]. *)
Definition normalize (content_url : string) (content hc : json) : outcome json :=
  hc <- setitem hc "content_url" (JStr content_url) ;;
  add_ancestors origin hc content.

(** [urijoin(self.origin, content['_links']['webui'])]. *)
Definition content_url_of (content : json) : outcome string :=
  links <- getitem content "_links" ;;
  webui <- getitem links "webui" ;;
  s <- str webui ;;
  Return (urijoin origin s).

(** The body of the loop of [fetch_items] over the content summaries.
    The dict [hc] it updates is the one the walk goes on reading; the
    keys it assigns are not those the walk reads afterwards. *)
Definition fetch_items_body (fuel : nat) (from_date : datetime) (content : json)
    : run json unit :=
  cid <~ lift (getitem content "id") ;;
  content_url <~ lift (content_url_of content) ;;
  let hcs := fetch_historical_contents fuel cid from_date in
  for_each hcs (fun hc =>
    hc <~ lift (normalize content_url content hc) ;;
    yield hc).

Definition fetch_items (fuel : nat) (from_date : datetime) : run json unit :=
  contents <~ collect (fetch_contents_summary fuel from_date) ;;
  for_list contents (fetch_items_body fuel from_date).

Definition fetch (fuel : nat) (from_date : option date_arg) : run json unit :=
  let from_date := match from_date with
                   | None => DEFAULT_DATETIME
                   | Some d => d
                   end in
  let from_date := datetime_to_utc from_date in
  fetch_items fuel from_date.

(** *** Vocabulary of the statements about the backend *)

(** The harvest as a flat-map over the summary generator itself, with no
    list in between: each summary is walked as soon as it is produced. *)
Definition fetch_items_lazy (fuel : nat) (from_date : datetime) : run json unit :=
  for_each (fetch_contents_summary fuel from_date) (fetch_items_body fuel from_date).

(** [hc] was updated at or after [from_date]. *)
Definition passes (from_date : datetime) (hc : json) : bool :=
  match version_when hc with
  | Return when => ge when from_date
  | _ => false
  end.

(** What one round of the walk emits: the fetched version, when it
    passes. *)
Definition round_emits (from_date : datetime) (fetched : outcome json)
    : list (event json) :=
  match fetched with
  | Return hc => if passes from_date hc then [Yield hc] else []
  | _ => []
  end.

(** [item['version']['number']]. *)
Definition version_number (item : json) : outcome json :=
  version <- getitem item "version" ;;
  getitem version "number".

(** The printed id of a summary: [str(content['id'])]. *)
Definition summary_id (content : json) : outcome string :=
  cid <- getitem content "id" ;;
  str cid.

(** The server answers each request of the walk of [cid] with the
    version asked for: the id prints as [cid] does and the version
    number is the one requested. *)
Definition echoes (fuel : nat) (cid : json) (from_date : datetime) : Prop :=
  forall v hc,
    In v (requested_versions (events (fetch_historical_contents fuel cid from_date))) ->
    final (client_historical_content fuel cid v) = Return hc ->
    (exists id, getitem hc "id" = Return id /\ str id = str cid) /\
    version_number hc = Return (JNum v).

(** The walk of content [id] is bound to stop at version [v]: the
    server flags it as the latest, or answers it with a status the walk
    recovers from. *)
Definition flagged_latest (id : string) (v : Z) : Prop :=
  exists body latest,
    client_fetch (ConfluenceClient.content_url client_base_url id)
                 (ConfluenceClient.version_params v) = inr body /\
    history_latest body = Return latest /\ truthy latest = true.

Definition fails_recoverably (id : string) (v : Z) : Prop :=
  exists code,
    client_fetch (ConfluenceClient.content_url client_base_url id)
                 (ConfluenceClient.version_params v) = inl (HTTPError code) /\
    recoverable code = true.

(** The response to the request for version [v] carries no [next] link. *)
Definition single_request (id : string) (v : Z) : Prop :=
  forall body next,
    client_fetch (ConfluenceClient.content_url client_base_url id)
                 (ConfluenceClient.version_params v) = inr body ->
    ConfluenceClient.next_link body <> Return (Some next).

End Backend.

End Confluence.

(* ================================================================== *)
(** ** Concrete collaborators, for running the backend on examples *)

Module Demo.

Fixpoint lstrip_slash (s : string) : string :=
  match s with
  | String c s' => if Ascii.eqb c "/" then lstrip_slash s' else s
  | EmptyString => EmptyString
  end.

(** [urijoin(a, b)]: both parts without their outer slashes, joined by
    one slash. *)
Definition urijoin (a b : string) : string :=
  (lstrip_slash (rstrip_slash a) ++ "/" ++ lstrip_slash (rstrip_slash b))%string.

Definition is_digit (c : ascii) : bool :=
  ((48 <=? nat_of_ascii c) && (nat_of_ascii c <=? 57))%nat.

Definition digit (c : ascii) : Z := Z.of_nat (nat_of_ascii c) - 48.

(** Exactly [n] decimal digits at the head of [s]. *)
Fixpoint digits (n : nat) (acc : Z) (s : string) : option (Z * string) :=
  match n, s with
  | O, _ => Some (acc, s)
  | S n', String c s' =>
      if is_digit c then digits n' (10 * acc + digit c) s' else None
  | S _, EmptyString => None
  end.

Definition expect (c : ascii) (s : string) : option string :=
  match s with
  | String c' s' => if Ascii.eqb c c' then Some s' else None
  | EmptyString => None
  end.

(** A fraction of a second, as microseconds: up to [n] digits, each
    worth [unit] then a tenth of it. *)
Fixpoint fraction (n : nat) (unit acc : Z) (s : string) : Z * string :=
  match n, s with
  | S n', String c s' =>
      if is_digit c then fraction n' (unit / 10) (acc + digit c * unit) s'
      else (acc, s)
  | _, _ => (acc, s)
  end.

Definition days_from_civil (y m d : Z) : Z :=
  let y' := if m <=? 2 then y - 1 else y in
  let era := y' / 400 in
  let yoe := y' - era * 400 in
  let doy := (153 * (if 2 <? m then m - 3 else m + 9) + 2) / 5 + d - 1 in
  let doe := yoe * 365 + yoe / 4 - yoe / 100 + doy in
  era * 146097 + doe - 719468.

Definition opt_bind {A B} (o : option A) (k : A -> option B) : option B :=
  match o with
  | Some a => k a
  | None => None
  end.

(** The zone suffix: [Z], or a sign, hours, a colon and minutes. *)
Definition zone (s : string) : option Z :=
  match s with
  | "Z"%string => Some 0
  | String c s' =>
      let sign := if Ascii.eqb c "+" then Some 1
                  else if Ascii.eqb c "-" then Some (-1) else None in
      opt_bind sign (fun sg =>
      opt_bind (digits 2 0 s') (fun '(h, s1) =>
      opt_bind (expect ":" s1) (fun s2 =>
      opt_bind (digits 2 0 s2) (fun '(m, s3) =>
      match s3 with
      | EmptyString => Some (sg * (h * 60 + m) * 60000000)
      | _ => None
      end))))
  | EmptyString => None
  end.

(** Timestamps of the form [2016-06-14T15:03:52.000+02:00]. *)
Definition parse_iso8601 (s : string) : option datetime :=
  opt_bind (digits 4 0 s) (fun '(y, s) =>
  opt_bind (expect "-" s) (fun s =>
  opt_bind (digits 2 0 s) (fun '(mo, s) =>
  opt_bind (expect "-" s) (fun s =>
  opt_bind (digits 2 0 s) (fun '(d, s) =>
  opt_bind (expect "T" s) (fun s =>
  opt_bind (digits 2 0 s) (fun '(h, s) =>
  opt_bind (expect ":" s) (fun s =>
  opt_bind (digits 2 0 s) (fun '(mi, s) =>
  opt_bind (expect ":" s) (fun s =>
  opt_bind (digits 2 0 s) (fun '(sec, s) =>
  let '(us, s) := match expect "." s with
                  | Some s' => fraction 6 100000 0 s'
                  | None => (0, s)
                  end in
  opt_bind (zone s) (fun off =>
  let wall := (((days_from_civil y mo d * 24 + h) * 60 + mi) * 60 + sec)
              * 1000000 + us in
  Some {| instant := wall - off; utcoffset := off |})))))))))))).

(** A [str_to_datetime] for such timestamps. *)
Definition str_to_datetime (j : json) : exn + datetime :=
  match j with
  | JStr s => match parse_iso8601 s with
              | Some d => inr d
              | None => inl InvalidDateError
              end
  | _ => inl InvalidDateError
  end.

(** A server given by a table: a response for a URL and the [version]
    parameter of the request; anything else is not found. *)
Definition version_param (params : dict) : option Z :=
  match lookup "version" params with
  | Some (JNum v) => Some v
  | _ => None
  end.

Definition same_version (a b : option Z) : bool :=
  match a, b with
  | Some x, Some y => x =? y
  | None, None => true
  | _, _ => false
  end.

Fixpoint serve (table : list (string * option Z * (exn + json)))
    (u : string) (params : dict) : exn + json :=
  match table with
  | [] => inl (HTTPError 404)
  | (u', v, r) :: table' =>
      if String.eqb u u' && same_version (version_param params) v then r
      else serve table' u params
  end.

Definition summary (id webui : string) (more : dict) : json :=
  JObj ([("id", JStr id); ("_links", JObj [("webui", JStr webui)])] ++ more).

Definition page (results : list json) (links : dict) : json :=
  JObj [("results", JArr results); ("_links", JObj links)].

Definition snapshot (id : string) (number : Z) (when : string) (latest : bool) : json :=
  JObj [("id", JStr id);
        ("version", JObj [("number", JNum number); ("when", JStr when)]);
        ("history", JObj [("latest", JBool latest)]);
        ("_links", JObj [("self", JStr "/rest/api/content")])].

Definition wiki : string := "https://wiki.example.org/".
Definition api (path : string) : string :=
  ("https://wiki.example.org/rest/api/" ++ path)%string.

Definition v (id : string) (number : Z) (when : string) (latest : bool)
    : string * option Z * (exn + json) :=
  (api ("content/" ++ id), Some number, inr (snapshot id number when latest)).

(** Five contents on three summary pages of sizes 2, 2 and 1. Content
    103 loses its second version, the fifth version of 104 answers 500,
    and the summary of 105 lists two ancestors. *)
Definition page1 : json :=
  page [summary "101" "/display/A" []; summary "102" "/display/B" []]
       [("next", JStr "/rest/api/content/search?start=2")].

Definition page2 : json :=
  page [summary "103" "/display/C" []; summary "104" "/display/D" []]
       [("next", JStr "/rest/api/content/search?start=4")].

Definition summary105 : json :=
  summary "105" "/display/E"
    [("ancestors",
      JArr [JObj [("_links", JObj [("webui", JStr "/display/Root")])];
            JObj [("_links", JObj [("webui", JStr "/display/Top")])]])].

Definition page3 : json :=
  page [summary105] [("base", JStr "https://wiki.example.org")].

Definition wiki_table : list (string * option Z * (exn + json)) :=
  [ (api "content/search", None, inr page1);
    (api "content/search?start=2", None, inr page2);
    (api "content/search?start=4", None, inr page3);
    v "101" 1 "2016-01-10T09:00:00.000Z" false;
    v "101" 2 "2016-03-01T12:30:15.000+01:00" false;
    v "101" 3 "2016-06-14T15:03:52.000Z" true;
    v "102" 1 "2016-07-01T00:00:30.000Z" true;
    v "103" 1 "2016-07-02T08:00:00.000Z" false;
    v "104" 1 "2016-02-01T08:00:00.000Z" false;
    v "104" 2 "2016-07-03T08:00:00.000Z" false;
    v "104" 3 "2016-07-04T08:00:00.000Z" false;
    v "104" 4 "2016-07-05T08:00:00.000Z" false;
    (api "content/104", Some 5, inl (HTTPError 500));
    v "105" 1 "2016-07-06T08:00:00.000Z" true ].

Definition wiki_fetch := serve wiki_table.

(** 2016-06-01T00:00:00Z. *)
Definition june_2016 : datetime := utc 1464739200000000.

Definition harvest (add_ancestors : bool) (fuel : nat) (from_date : option date_arg)
    : run json unit :=
  Confluence.fetch wiki_fetch str_to_datetime urijoin wiki add_ancestors fuel from_date.

(** A server whose answer for version 1 of content 7 is paginated
    without end: its [next] link leads to a page that links to itself.
    Version 2 is the latest. *)
Definition endless_first : json :=
  JObj [("id", JStr "7");
        ("version", JObj [("number", JNum 1);
                          ("when", JStr "2016-07-01T08:00:00.000Z")]);
        ("history", JObj [("latest", JBool false)]);
        ("_links", JObj [("next", JStr "/rest/api/content/7/more")])].

Definition endless_more : json :=
  JObj [("_links", JObj [("next", JStr "/rest/api/content/7/more")])].

Definition endless_table : list (string * option Z * (exn + json)) :=
  [ (api "content/7", Some 1, inr endless_first);
    (api "content/7/more", None, inr endless_more);
    v "7" 2 "2016-07-02T08:00:00.000Z" true ].

Definition endless_fetch := serve endless_table.

(** A server on which content 7 is listed on two summary pages, as
    happens when it is edited while the summaries are being paged. *)
Definition relisting_table : list (string * option Z * (exn + json)) :=
  [ (api "content/search", None,
     inr (page [summary "7" "/display/G" []; summary "8" "/display/H" []]
               [("next", JStr "/rest/api/content/search?start=2")]));
    (api "content/search?start=2", None,
     inr (page [summary "7" "/display/G" []] []));
    v "7" 1 "2016-07-01T08:00:00.000Z" true;
    v "8" 1 "2016-07-01T09:00:00.000Z" true ].

Definition relisting_fetch := serve relisting_table.

End Demo.


(* ================================================================== *)
(** ** A chain of pages that breaks *)

Module Broken.

Section Chain.

Variable client_fetch : string -> dict -> exn + json.
Variable urijoin : string -> string -> string.
Variable base_url : string.

(** [pages_then_fail u params pages e]: the server answers the request
    [(u, params)] and the continuations that follow with [pages], each
    of which carries a [next] link, and the request after the last of
    them raises [e]. *)
Inductive pages_then_fail : string -> dict -> list json -> exn -> Prop :=
| fails_now u params e :
    client_fetch u params = inl e ->
    pages_then_fail u params [] e
| fails_later u params body r rest e :
    client_fetch u params = inr body ->
    ConfluenceClient.continuation urijoin base_url body = Some r ->
    pages_then_fail (fst r) (snd r) rest e ->
    pages_then_fail u params (body :: rest) e.

End Chain.

End Broken.

(* ================================================================== *)
(** ** The Discourse client ([perceval/backends/discourse.py]) *)

Module Seq.

(** [len(j)]. *)
Definition len (j : json) : outcome Z :=
  match j with
  | JArr l => Return (Z.of_nat (List.length l))
  | JObj d => Return (Z.of_nat (List.length d))
  | JStr s => Return (Z.of_nat (String.length s))
  | _ => Raise TypeError
  end.

(** The integer a value stands for in a comparison with an integer or
    as a slice bound; [True] and [False] are 1 and 0. *)
Definition as_int (j : json) : outcome Z :=
  match j with
  | JNum n => Return n
  | JBool b => Return (if b then 1 else 0)
  | _ => Raise TypeError
  end.

(** The first index of the slice [l[c:]] of a sequence of length [n]. *)
Definition slice_start (n c : Z) : nat :=
  Z.to_nat (if c <? 0 then Z.max (n + c) 0 else Z.min c n).

(** [j[c:]], as the list of its elements. Slicing a dict is not
    defined by this model. *)
Definition slice_from (j : json) (c : Z) : outcome (list json) :=
  match j with
  | JArr l => Return (skipn (slice_start (Z.of_nat (List.length l)) c) l)
  | JStr s => Return (skipn (slice_start (Z.of_nat (String.length s)) c) (chars s))
  | JObj _ => Raise Unsupported
  | _ => Raise TypeError
  end.

End Seq.

Module DiscourseClient.

Section Client.

(** [requests.get(url, params)] followed by [raise_for_status()] and
    [json()]: the decoded body of the response, or the exception
    raised. *)
Variable http_get : string -> dict -> exn + json.

(** [str_to_datetime] and [urljoin] of [perceval/utils.py], which is
    not among the sources. *)
Variable str_to_datetime : json -> exn + datetime.
Variable urljoin : list string -> string.

(** The attributes [url] and [token]. *)
Variable url : string.
Variable token : json.

Definition build_base_url (item_type : string) (item_id : json) : outcome string :=
  id <- str item_id ;;
  let id_json := id ++ ".json" in
  Return (urljoin [url; item_type; id_json]).

Definition build_payload (page : json) : dict :=
  [("page", page); ("api_key", token)].

(** One request and its decoded answer. *)
Definition get {Y} (u : string) (payload : dict) : run Y json :=
  Run [Request u payload] (of_sum (http_get u payload)).

(** [str_to_datetime(item[field])]. *)
Definition when_of (item : json) (field : string) : outcome datetime :=
  ts <- getitem item field ;;
  of_sum (str_to_datetime ts).

(** The loop of [get_topics_id_list] over the topics of one page. *)
Definition page_topic_ids (from_date : datetime) (data : json) : run json unit :=
  topics <~ lift (topic_list <- getitem data "topic_list" ;;
                  topics <- getitem topic_list "topics" ;;
                  iterate topics) ;;
  for_list topics (fun topic =>
    when <~ lift (when_of topic "last_posted_at") ;;
    if ge when from_date
    then id <~ lift (getitem topic "id") ;; yield id
    else ret tt).

(** The [while 'more_topics_url' in data['topic_list']] loop, entered
    with the last page received and its number. *)
Fixpoint more_topics (fuel : nat) (from_date : datetime) (data : json) (page : Z)
    : run json unit :=
  match fuel with
  | O => lift Diverge
  | S fuel' =>
      more <~ lift (topic_list <- getitem data "topic_list" ;;
                    contains "more_topics_url" topic_list) ;;
      if more then
        let page := page + 1 in
        data <~ get (url ++ "/latest.json") (build_payload (JNum page)) ;;
        _ <~ page_topic_ids from_date data ;;
        more_topics fuel' from_date data page
      else ret tt
  end.

Definition get_topics_id_list (fuel : nat) (from_date : datetime) : run json unit :=
  let url := urljoin [url; "latest.json"] in
  let payload := build_payload JNull in
  data <~ get url payload ;;
  _ <~ page_topic_ids from_date data ;;
  let page := 0 in
  more_topics fuel from_date data page.

(** The loop of [get_posts] over the posts that come with the topic. *)
Definition chunk_posts (from_date : datetime) (category_id : json) (posts : list json)
    : run json unit :=
  for_list posts (fun post =>
    when <~ lift (when_of post "updated_at") ;;
    if ge when from_date
    then post <~ lift (setitem post "_category_id" category_id) ;; yield post
    else ret tt).

(** The loop of [get_posts] over the ids of the posts beyond the chunk,
    which it leaves at the first post older than [from_date]. *)
Fixpoint late_posts (from_date : datetime) (category_id : json) (ids : list json)
    : run json unit :=
  match ids with
  | [] => ret tt
  | post_id :: ids' =>
      u <~ lift (build_base_url "posts" post_id) ;;
      data_post <~ get u (build_payload JNull) ;;
      when <~ lift (when_of data_post "updated_at") ;;
      if ge when from_date then
        data_post <~ lift (setitem data_post "_category_id" category_id) ;;
        _ <~ yield data_post ;;
        late_posts from_date category_id ids'
      else ret tt
  end.

(** The body of the loop of [get_posts] over the topic ids. The posts
    are yielded as documents; [json.dumps] and the [json.loads] of the
    consumer cancel out. *)
Definition topic_posts (from_date : datetime) (topic_id : json) : run json unit :=
  u <~ lift (build_base_url "t" topic_id) ;;
  data <~ get u (build_payload JNull) ;;
  category_id <~ lift (getitem data "category_id") ;;
  chunk_size <~ lift (getitem data "chunk_size") ;;
  posts_stream <~ lift (post_stream <- getitem data "post_stream" ;;
                        getitem post_stream "stream") ;;
  posts <~ lift (post_stream <- getitem data "post_stream" ;;
                 posts <- getitem post_stream "posts" ;;
                 iterate posts) ;;
  _ <~ chunk_posts from_date category_id posts ;;
  n <~ lift (Seq.len posts_stream) ;;
  c <~ lift (Seq.as_int chunk_size) ;;
  if c <? n then
    posts_stream_ids <~ lift (Seq.slice_from posts_stream c) ;;
    late_posts from_date category_id (rev posts_stream_ids)
  else ret tt.

Definition get_posts (fuel : nat) (from_date : datetime) : run json unit :=
  let topics_id_list := get_topics_id_list fuel from_date in
  for_each topics_id_list (topic_posts from_date).

(** *** Vocabulary of the statements *)

(** The request for one page of topics after the first. *)
Definition page_request (page : nat) : string * dict :=
  (url ++ "/latest.json", build_payload (JNum (Z.of_nat page))).

(** The date under [field] is read and is not before [from_date]. *)
Definition fresh (from_date : datetime) (field : string) (item : json) : bool :=
  match when_of item field with
  | Return when => ge when from_date
  | _ => false
  end.

(** The post with the category of its topic added. *)
Definition labelled (category_id : json) (post : json) : json :=
  match post with
  | JObj d => JObj (assign "_category_id" category_id d)
  | _ => post
  end.

End Client.

End DiscourseClient.

Module Discourse.

Section Backend.

Variable str_to_datetime : json -> exn + datetime.

Definition metadata_id (item : json) : outcome string :=
  id <- getitem item "id" ;;
  str id.

Definition metadata_updated_on (item : json) : outcome Q :=
  ts <- getitem item "updated_at" ;;
  ts <- of_sum (str_to_datetime ts) ;;
  Return (timestamp ts).

End Backend.

End Discourse.

(* ================================================================== *)
(** ** Further example servers *)

Module Samples.

(** A wiki on which the answer for version 1 of content 9 links to a
    further page that cannot be fetched, and on which version 1 of
    content 11 comes without an [id]. *)
Definition broken_first : json :=
  JObj [("id", JStr "9");
        ("version", JObj [("number", JNum 1);
                          ("when", JStr "2016-07-01T08:00:00.000Z")]);
        ("history", JObj [("latest", JBool true)]);
        ("_links", JObj [("next", JStr "/rest/api/content/9/more")])].

Definition anonymous : json :=
  JObj [("version", JObj [("number", JNum 1);
                          ("when", JStr "2016-02-01T08:00:00.000Z")]);
        ("history", JObj [("latest", JBool true)])].

Definition broken_table : list (string * option Z * (exn + json)) :=
  [ (Demo.api "content/9", Some 1, inr broken_first);
    (Demo.api "content/11", Some 1, inr anonymous) ].

Definition broken_fetch := Demo.serve broken_table.

(** A server that has nothing. *)
Definition no_fetch := Demo.serve [].

(** Two snapshots of one version of content 101 that differ in their
    other fields. *)
Definition twin1 : json := Demo.snapshot "101" 3 "2016-06-14T15:03:52.000Z" true.
Definition twin2 : json := Demo.snapshot "101" 3 "2016-06-15T10:00:00.000Z" false.

(** The first item of the harvest of the example wiki since June 2016. *)
Definition first_item : json :=
  nth 0 (yields (events
           (Confluence.fetch_items Demo.wiki_fetch Demo.str_to_datetime Demo.urijoin
              Demo.wiki false 10%nat Demo.june_2016)))
      JNull.

(** *** A Discourse board *)

Definition forum : string := "https://forum.example.org".

Fixpoint join_slash (parts : list string) : string :=
  match parts with
  | [] => ""
  | [p] => p
  | p :: ps => p ++ "/" ++ join_slash ps
  end.

Definition urljoin (parts : list string) : string := join_slash parts.

Definition same_page (a : option json) (b : option Z) : bool :=
  match a, b with
  | Some JNull, None => true
  | Some (JNum x), Some y => x =? y
  | _, _ => false
  end.

(** A board given by a table: a response for a URL and the [page]
    parameter of the request; anything else is not found. *)
Fixpoint board (table : list (string * option Z * (exn + json)))
    (u : string) (payload : dict) : exn + json :=
  match table with
  | [] => inl (HTTPError 404)
  | (u', p, r) :: table' =>
      if String.eqb u u' && same_page (lookup "page" payload) p then r
      else board table' u payload
  end.

Definition topic (id : Z) (last_posted_at : string) : json :=
  JObj [("id", JNum id); ("last_posted_at", JStr last_posted_at)].

Definition post (id : Z) (updated_at : string) : json :=
  JObj [("id", JNum id); ("updated_at", JStr updated_at)].

Definition topics_page (topics : list json) (more : dict) : json :=
  JObj [("topic_list", JObj (("topics", JArr topics) :: more))].

Definition thread (category_id chunk_size : Z) (stream : list Z) (posts : list json)
    : json :=
  JObj [("category_id", JNum category_id);
        ("chunk_size", JNum chunk_size);
        ("post_stream", JObj [("stream", JArr (map JNum stream));
                              ("posts", JArr posts)])].

(** Three topics on two pages. Topic 1 has four posts, two of which
    come with the topic; of the other two the last is recent and the one
    before it is not. Topic 2 was last posted to in 2015. Topic 3 has one
    post. *)
Definition forum_table : list (string * option Z * (exn + json)) :=
  [ ("https://forum.example.org/latest.json", None,
     inr (topics_page [topic 1 "2016-07-05T10:00:00.000Z";
                       topic 2 "2015-03-01T10:00:00.000Z"]
            [("more_topics_url", JStr "/latest?page=1")]));
    ("https://forum.example.org/latest.json", Some 1,
     inr (topics_page [topic 3 "2016-07-06T10:00:00.000Z"] []));
    ("https://forum.example.org/t/1.json", None,
     inr (thread 5 2 [10; 11; 12; 13]
            [post 10 "2016-01-05T10:00:00.000Z"; post 11 "2016-07-01T10:00:00.000Z"]));
    ("https://forum.example.org/posts/13.json", None,
     inr (post 13 "2016-07-05T10:00:00.000Z"));
    ("https://forum.example.org/posts/12.json", None,
     inr (post 12 "2016-03-05T10:00:00.000Z"));
    ("https://forum.example.org/t/3.json", None,
     inr (thread 8 20 [30] [post 30 "2016-07-06T10:00:00.000Z"])) ].

Definition forum_get := board forum_table.

Definition forum_posts (fuel : nat) (from_date : datetime) : run json unit :=
  DiscourseClient.get_posts forum_get Demo.str_to_datetime urljoin forum JNull
    fuel from_date.

End Samples.

(* ================================================================== *)
(** ** The CSV backend ([perceval/backends/core/csv.py]) *)

Definition CATEGORY_ENTRY : string := "csv-entry".

Module CSV.

(** [s.split(',')]: the fields between the commas, one more than there
    are commas. *)
Fixpoint split_comma (s : string) : list string :=
  match s with
  | EmptyString => [EmptyString]
  | String c s' =>
      if Ascii.eqb c "," then EmptyString :: split_comma s'
      else match split_comma s' with
           | field :: fields => String c field :: fields
           | [] => [String c EmptyString]
           end
  end.

(** A value of the dict built for a row: a string, or the float that
    [timestamp()] returns. *)
Inductive cell : Type :=
| Text (s : string)
| Stamp (t : Q).

(** The dict built for a row, in insertion order. *)
Definition entry := list (string * cell).

Fixpoint lookup (k : string) (d : entry) : option cell :=
  match d with
  | [] => None
  | (k', v) :: d' => if String.eqb k k' then Some v else lookup k d'
  end.

(** [d[k] = v]: the binding is replaced in place, or appended. *)
Fixpoint assign (k : string) (v : cell) (d : entry) : entry :=
  match d with
  | [] => [(k, v)]
  | (k', v') :: d' =>
      if String.eqb k k' then (k, v) :: d' else (k', v') :: assign k v d'
  end.

(** [k in d]. *)
Definition mem (k : string) (d : entry) : bool :=
  match lookup k d with
  | Some _ => true
  | None => false
  end.

(** The truth value of a float: zero is false. *)
Definition nonzero (t : Q) : bool := negb (Qnum t =? 0).

Section Backend.

(** [datetime.datetime.strptime(date, format).timestamp()], or the
    exception raised on the way. *)
Variable strptime_timestamp : string -> string -> exn + Q.

(** [s.strip()]. *)
Variable strip : string -> string.

(** [base64.b64encode(s.encode())], as the text between the quotes of
    its [str]. *)
Variable b64encode : string -> string.

(** The attributes of the backend, as [__init__] stores them. *)
Variable csv_header : string.
Variable date_formats : string.
Variable skip_header : bool.
Variable id_columns : string.
Variable date_column : string.

(** The timestamp of [date] by the first format that parses it;
    [None] when no format does. *)
Fixpoint dateToTs (date : string) (formats : list string) : option Q :=
  match formats with
  | [] => None
  | head :: tail =>
      match strptime_timestamp date head with
      | inr ts => Some ts
      | inl _ => dateToTs date tail
      end
  end.

(** [CSVClient.parse_entries], on the rows that [csv.reader] gives,
    from row number [i] on. *)
Fixpoint parse_entries_from (i : nat) (rows : list (list string)) : list (list string) :=
  match rows with
  | [] => []
  | row :: rows' =>
      if skip_header && (i =? 0)%nat then parse_entries_from (S i) rows'
      else row :: parse_entries_from (S i) rows'
  end.

Definition parse_entries (rows : list (list string)) : list (list string) :=
  parse_entries_from 0 rows.

(** The loop of [fetch_items] over the columns of the header, from
    column number [i] on. *)
Fixpoint columns_loop (i : nat) (columns : list string) (item : list string)
    (row : entry) : outcome entry :=
  match columns with
  | [] => Return row
  | column :: columns' =>
      match nth_error item i with
      | None => Raise IndexError
      | Some raw =>
          let value := strip raw in
          let row :=
            if String.eqb column date_column then
              match dateToTs value (split_comma date_formats) with
              | Some timestamp =>
                  if nonzero timestamp then assign "timestamp" (Stamp timestamp) row
                  else row
              | None => row
              end
            else row in
          columns_loop (S i) columns' item (assign (strip column) (Text value) row)
      end
  end.

(** The dict built for one row. *)
Definition row_entry (item : list string) : outcome entry :=
  columns_loop 0 (split_comma csv_header) item
    (assign "_id_columns" (Text id_columns) []).

(** The loop of [fetch_items] over the entries. *)
Definition fetch_entries (entries : list (list string)) : run entry unit :=
  for_list entries (fun item =>
    row <~ lift (row_entry item) ;;
    if mem "timestamp" row then yield row else ret tt).

(** [fetch_items], on the rows that [csv.reader] gives for the file. *)
Definition fetch_items (rows : list (list string)) : run entry unit :=
  let entries := parse_entries rows in
  fetch_entries entries.

(** The loop of [metadata_id] over the id columns. *)
Fixpoint id_string (columns : list string) (item : entry) (acc : string)
    : outcome string :=
  match columns with
  | [] => Return acc
  | column :: columns' =>
      match lookup column item with
      | None => Raise (KeyError column)
      | Some (Text v) => id_string columns' item (acc ++ v ++ "-")
      | Some (Stamp _) => Raise TypeError
      end
  end.

(** [metadata_id]. A float has no [split]: the [AttributeError] of an
    item whose [_id_columns] is one is not among the exceptions of this
    model. *)
Definition metadata_id (item : entry) : outcome string :=
  match lookup "_id_columns" item with
  | None => Raise (KeyError "_id_columns")
  | Some (Text columns) =>
      joined <- id_string (split_comma columns) item "" ;;
      Return ("b'" ++ b64encode joined ++ "'")
  | Some (Stamp _) => Raise Unsupported
  end.

Definition metadata_category (item : entry) : string := CATEGORY_ENTRY.

Definition metadata_updated_on (item : entry) : outcome cell :=
  match lookup "timestamp" item with
  | Some v => Return v
  | None => Raise (KeyError "timestamp")
  end.

(** *** Vocabulary of the statements *)

(** The format cannot read the date. *)
Definition rejects (date format : string) : Prop :=
  exists e, strptime_timestamp date format = inl e.

(** The row has a field for every column of the header. *)
Definition covers_header (item : list string) : Prop :=
  (List.length (split_comma csv_header) <= List.length item)%nat.

(** The keys of the header: its columns, stripped. *)
Definition header_keys : list string := map strip (split_comma csv_header).

(** What the date column of a row gives for [timestamp]. *)
Definition parsed_stamp (raw : string) : option cell :=
  match dateToTs (strip raw) (split_comma date_formats) with
  | Some t => if nonzero t then Some (Stamp t) else None
  | None => None
  end.

End Backend.

End CSV.

(* ================================================================== *)
(** ** Concrete collaborators and rows for the CSV backend *)

Module Sheet.

Definition is_space (c : ascii) : bool :=
  let n := nat_of_ascii c in
  ((n =? 32) || ((9 <=? n) && (n <=? 13)))%nat.

Fixpoint lstrip (s : string) : string :=
  match s with
  | String c s' => if is_space c then lstrip s' else s
  | EmptyString => EmptyString
  end.

Fixpoint rstrip (s : string) : string :=
  match s with
  | EmptyString => EmptyString
  | String c s' =>
      match rstrip s' with
      | EmptyString => if is_space c then EmptyString else String c EmptyString
      | r => String c r
      end
  end.

(** [s.strip()] for ASCII text. *)
Definition strip (s : string) : string := rstrip (lstrip s).

(** Seconds since the epoch of midnight of a day, for a machine whose
    local time is UTC. *)
Definition midnight (y m d : Z) : Q := inject_Z (Demo.days_from_civil y m d * 86400).

Definition at_end (s : string) (t : Q) : exn + Q :=
  match s with
  | EmptyString => inr t
  | _ => inl InvalidDateError
  end.

(** [strptime] and [timestamp] for the formats [%Y-%m-%d] and
    [%d/%m/%Y]; whatever is raised is swallowed by [dateToTs], and
    [InvalidDateError] stands for it. *)
Definition strptime_timestamp (date format : string) : exn + Q :=
  if String.eqb format "%Y-%m-%d" then
    match Demo.opt_bind (Demo.digits 4 0 date) (fun '(y, s) =>
          Demo.opt_bind (Demo.expect "-" s) (fun s =>
          Demo.opt_bind (Demo.digits 2 0 s) (fun '(m, s) =>
          Demo.opt_bind (Demo.expect "-" s) (fun s =>
          Demo.opt_bind (Demo.digits 2 0 s) (fun '(d, s) =>
          Some (s, midnight y m d)))))) with
    | Some (s, t) => at_end s t
    | None => inl InvalidDateError
    end
  else if String.eqb format "%d/%m/%Y" then
    match Demo.opt_bind (Demo.digits 2 0 date) (fun '(d, s) =>
          Demo.opt_bind (Demo.expect "/" s) (fun s =>
          Demo.opt_bind (Demo.digits 2 0 s) (fun '(m, s) =>
          Demo.opt_bind (Demo.expect "/" s) (fun s =>
          Demo.opt_bind (Demo.digits 4 0 s) (fun '(y, s) =>
          Some (s, midnight y m d)))))) with
    | Some (s, t) => at_end s t
    | None => inl InvalidDateError
    end
  else inl InvalidDateError.

Definition alphabet : string :=
  "ABCDEFGHIJKLMNOPQRSTUVWXYZabcdefghijklmnopqrstuvwxyz0123456789+/".

Definition sextet (n : nat) : ascii :=
  match String.get n alphabet with
  | Some c => c
  | None => "="%char
  end.

Fixpoint b64 (bytes : list nat) : string :=
  match bytes with
  | [] => EmptyString
  | [a] =>
      String (sextet (a / 4)) (String (sextet (a mod 4 * 16)) "==")
  | [a; b] =>
      String (sextet (a / 4)) (String (sextet (a mod 4 * 16 + b / 16))
        (String (sextet (b mod 16 * 4)) "="))
  | a :: b :: c :: rest =>
      String (sextet (a / 4)) (String (sextet (a mod 4 * 16 + b / 16))
        (String (sextet (b mod 16 * 4 + c / 64)) (String (sextet (c mod 64))
          (b64 rest))))
  end%nat.

(** Base 64 of the bytes of a string. *)
Definition b64encode (s : string) : string :=
  b64 (map nat_of_ascii (list_ascii_of_string s)).

(** A sheet of three columns, the second spelled with a space after
    the comma. *)
Definition header : string := "id, name,date".
Definition formats : string := "%Y-%m-%d,%d/%m/%Y".

Definition alice : list string := ["1"; " alice "; "2016-07-01"]%string.
Definition bob : list string := ["2"; "bob"; "01/08/2016"]%string.
Definition carol : list string := ["3"; "carol"; "never"]%string.
Definition dave : list string := ["4"; "dave"]%string.

Definition fetch_entries (csv_header id_columns date_column : string)
    (entries : list (list string)) : run CSV.entry unit :=
  CSV.fetch_entries strptime_timestamp strip csv_header formats id_columns date_column
    entries.

(** Two items that differ in where a dash stands. *)
Definition dash_left : CSV.entry :=
  [("_id_columns", CSV.Text "a,b"); ("a", CSV.Text "x-"); ("b", CSV.Text "y")]%string.
Definition dash_right : CSV.entry :=
  [("_id_columns", CSV.Text "a,b"); ("a", CSV.Text "x"); ("b", CSV.Text "-y")]%string.

End Sheet.

(* ================================================================== *)
(** ** Python values: lookups, assignments, totality *)

Lemma bind_total {A B} (o : outcome A) (k : A -> outcome B) :
  o <> Diverge -> (forall a, k a <> Diverge) -> bind o k <> Diverge.
Proof. destruct o; cbn; intros H1 H2; auto; congruence. Qed.

Lemma getitem_total j k : getitem j k <> Diverge.
Proof. destruct j; cbn; try discriminate. now destruct (lookup k kv). Qed.

Lemma contains_total k j : contains k j <> Diverge.
Proof. destruct j; cbn; discriminate. Qed.

Lemma lookup_assign_same k v d : lookup k (assign k v d) = Some v.
Proof.
  induction d as [|[k' v'] d IH]; cbn.
  - now rewrite String.eqb_refl.
  - destruct (String.eqb k k') eqn:E; cbn; now rewrite ?String.eqb_refl, ?E.
Qed.

Lemma lookup_assign_other k k' v d :
  k <> k' -> lookup k' (assign k v d) = lookup k' d.
Proof.
  intros Hk. induction d as [|[k0 v0] d IH]; cbn.
  - destruct (String.eqb_spec k' k); congruence.
  - destruct (String.eqb_spec k k0) as [->|Hk0]; cbn.
    + destruct (String.eqb_spec k' k0); congruence.
    + now rewrite IH.
Qed.

(** Assigning one key of an item leaves its other keys as they were. *)
Lemma getitem_setitem_other item k v item' k' :
  setitem item k v = Return item' -> k <> k' -> getitem item' k' = getitem item k'.
Proof.
  destruct item; cbn; try discriminate. intros [= <-] Hk. cbn.
  now rewrite lookup_assign_other.
Qed.

(** *** Printing integers *)

Lemma to_int_nonnil n : Z.to_int n <> Decimal.Pos Decimal.Nil /\
                        Z.to_int n <> Decimal.Neg Decimal.Nil.
Proof.
  pose proof (DecimalZ.to_of (Z.to_int n)) as H. rewrite DecimalZ.of_to in H.
  rewrite H. destruct (Z.to_int n) as [d|d]; cbn.
  - split; [|discriminate]. intros [= E]. now apply DecimalFacts.unorm_nonnil in E.
  - destruct (Decimal.nzhead d) eqn:E; split; discriminate.
Qed.

Lemma str_int_inj a b : str_int a = str_int b -> a = b.
Proof.
  unfold str_int. intros H.
  assert (E : Some (Z.to_int a) = Some (Z.to_int b)).
  { rewrite <- (NilZero.isi (Z.to_int a)), <- (NilZero.isi (Z.to_int b));
      try apply to_int_nonnil. now rewrite H. }
  injection E as E. rewrite <- (DecimalZ.of_to a), <- (DecimalZ.of_to b). now rewrite E.
Qed.

Lemma string_of_uint_no_hash d :
  ~ In "#"%char (list_ascii_of_string (NilEmpty.string_of_uint d)).
Proof.
  induction d; cbn; [tauto|..]; intros [H|H]; try discriminate; auto.
Qed.

Lemma str_int_no_hash n : ~ In "#"%char (list_ascii_of_string (str_int n)).
Proof.
  unfold str_int.
  destruct (Z.to_int n) as [d|d]; cbn.
  - destruct d; cbn; try (intros [H|H]; try discriminate; auto);
      try (now apply string_of_uint_no_hash in H).
  - intros [H|H]; [discriminate|].
    destruct d; cbn in H; try (destruct H as [H|H]; try discriminate; auto);
      try (now apply string_of_uint_no_hash in H).
Qed.

Lemma in_append_r c a b :
  In c (list_ascii_of_string b) -> In c (list_ascii_of_string (a ++ b)).
Proof. induction a; cbn; auto. Qed.

(** An id and a version number can be read back from the identity made
    of them. *)
Lemma identity_inj a1 n1 a2 n2 :
  (a1 ++ "#v" ++ str_int n1)%string = (a2 ++ "#v" ++ str_int n2)%string ->
  a1 = a2 /\ n1 = n2.
Proof.
  assert (Hhash : forall a n, In "#"%char
            (list_ascii_of_string (a ++ "#v" ++ str_int n)%string)).
  { intros a n. apply in_append_r. cbn. auto. }
  revert a2. induction a1 as [|c1 a1 IH]; intros [|c2 a2]; cbn.
  - intros [= H]. split; [reflexivity|]. now apply str_int_inj.
  - intros [= <- H]. exfalso. pose proof (Hhash a2 n2) as Hin.
    cbn [append] in Hin, H. rewrite <- H in Hin. cbn in Hin. destruct Hin as [Hin|Hin]; [discriminate|].
    now apply str_int_no_hash in Hin.
  - intros [= -> H]. exfalso. pose proof (Hhash a1 n1) as Hin.
    cbn [append] in Hin, H. rewrite H in Hin. cbn in Hin. destruct Hin as [Hin|Hin]; [discriminate|].
    now apply str_int_no_hash in Hin.
  - intros [= -> H]. destruct (IH _ H) as [-> ->]. auto.
Qed.

(* ================================================================== *)
(** ** Runs: sequencing, loops over generators, what they request and yield *)

Lemma seq_return {Y A B} (r : run Y A) (k : A -> run Y B) a :
  final r = Return a ->
  seq r k = Run (events r ++ events (k a)) (final (k a)).
Proof. intros H. unfold seq. rewrite H. reflexivity. Qed.

Lemma seq_raise {Y A B} (r : run Y A) (k : A -> run Y B) e :
  final r = Raise e -> seq r k = Run (events r) (Raise e).
Proof. intros H. unfold seq. rewrite H. reflexivity. Qed.

Lemma seq_lift {Y A B} (o : outcome A) (k : A -> run Y B) :
  seq (lift o) k =
  match o with
  | Return a => k a
  | Raise e => lift (Raise e)
  | Diverge => lift Diverge
  end.
Proof. destruct o; reflexivity. Qed.

Lemma yields_app {Y} (a b : list (event Y)) :
  yields (a ++ b) = (yields a ++ yields b)%list.
Proof.
  induction a as [|[u p|y] a IH]; cbn; [reflexivity|assumption|now rewrite IH].
Qed.

Lemma requests_app {Y} (a b : list (event Y)) :
  requests (a ++ b) = (requests a ++ requests b)%list.
Proof.
  induction a as [|[u p|y] a IH]; cbn; [reflexivity|now rewrite IH|assumption].
Qed.

Lemma requested_versions_app {Y} (a b : list (event Y)) :
  requested_versions (a ++ b) = (requested_versions a ++ requested_versions b)%list.
Proof. unfold requested_versions. now rewrite requests_app, flat_map_app. Qed.

Lemma yields_sent {Y} rs : yields (@sent Y rs) = [].
Proof. unfold sent. induction rs; cbn; auto. Qed.

Lemma requests_sent {Y} rs : requests (@sent Y rs) = rs.
Proof.
  unfold sent. induction rs as [|[u p] rs IH]; cbn; [reflexivity|now rewrite IH].
Qed.

(** Re-yielding every value of a generator gives the generator back. *)
Lemma for_events_yield {Y} (evs : list (event Y)) fin :
  for_events evs fin (fun y => yield y) = Run evs fin.
Proof.
  induction evs as [|[u p|y] evs IH]; cbn.
  - reflexivity.
  - now rewrite IH.
  - unfold seq; cbn. now rewrite IH.
Qed.

Lemma for_each_yield {Y} (g : run Y unit) : for_each g (fun y => yield y) = g.
Proof. unfold for_each. now rewrite for_events_yield. Qed.

Lemma for_list_cons {X Y} (x : X) l (body : X -> run Y unit) :
  for_list (x :: l) body = seq (body x) (fun _ => for_list l body).
Proof. reflexivity. Qed.

(** A loop over a list whose first bodies all return. *)
Lemma for_list_app {X Y} (a b : list X) (body : X -> run Y unit) :
  Forall (fun x => final (body x) = Return tt) a ->
  events (for_list (a ++ b) body) =
    (flat_map (fun x => events (body x)) a ++ events (for_list b body))%list /\
  final (for_list (a ++ b) body) = final (for_list b body).
Proof.
  induction 1 as [|x a Hx Ha [IHe IHf]]; cbn [app flat_map]; [auto|].
  rewrite for_list_cons, (seq_return _ _ tt Hx). cbn.
  now rewrite IHe, IHf, app_assoc.
Qed.

(** The values a loop over a list yields come from its bodies. *)
Lemma for_list_yields {X Y} (l : list X) (body : X -> run Y unit) y :
  In y (yields (events (for_list l body))) ->
  exists x, In x l /\ In y (yields (events (body x))).
Proof.
  induction l as [|x l IH]; cbn; [tauto|].
  unfold seq. destruct (final (body x)); cbn; rewrite ?yields_app, ?in_app_iff.
  - intros [H|H]; [eauto|]. destruct (IH H) as (x' & ? & ?). eauto.
  - eauto.
  - eauto.
Qed.

(** A loop that passes on each value of a generator after applying [f]
    to it: it yields the images of the values of the generator, in
    order, up to the first on which [f] raises. *)
Lemma for_events_map {X Y} (f : X -> outcome Y) (evs : list (event X)) fin :
  exists done rest,
    yields evs = (done ++ rest)%list /\
    Forall2 (fun x y => f x = Return y) done
      (yields (events (for_events evs fin (fun x => y <~ lift (f x) ;; yield y)))).
Proof.
  induction evs as [|[u p|x] evs (done & rest & Hy & HF)]; cbn.
  - exists [], []. split; [reflexivity|constructor].
  - exists done, rest. auto.
  - rewrite seq_lift. destruct (f x) as [y|e|] eqn:E; cbn.
    + unfold seq; cbn. exists (x :: done), rest. split; [now rewrite Hy|].
      constructor; assumption.
    + exists [], (x :: yields evs). split; [reflexivity|constructor].
    + exists [], (x :: yields evs). split; [reflexivity|constructor].
Qed.

(** When [f] returns on every value, the loop ends as the generator
    does, having sent its requests and yielded the images of its values. *)
Lemma for_events_map_all {X Y} (f : X -> outcome Y) (evs : list (event X)) fin :
  Forall (fun x => exists y, f x = Return y) (yields evs) ->
  let r := for_events evs fin (fun x => y <~ lift (f x) ;; yield y) in
  final r = fin /\
  requests (events r) = requests evs /\
  Forall2 (fun x y => f x = Return y) (yields evs) (yields (events r)).
Proof.
  cbn zeta. induction evs as [|[u p|x] evs IH]; cbn; intros H.
  - repeat split. constructor.
  - destruct (IH H) as (Hf & Hr & Hy). now rewrite Hr.
  - inversion H as [|? ? [y Hx] H']; subst.
    destruct (IH H') as (Hf & Hr & Hy).
    rewrite seq_lift, Hx. unfold seq; cbn. repeat split; auto.
Qed.

Lemma Forall2_in_r {A B} (R : A -> B -> Prop) l l' y :
  Forall2 R l l' -> In y l' -> exists x, In x l /\ R x y.
Proof.
  induction 1 as [|a b l l' Hab _ IH]; cbn; [tauto|].
  intros [<-|Hy]; [eauto|]. destruct (IH Hy) as (x & ? & ?). eauto.
Qed.

(** Draining a generator into a list before looping over it changes
    when the requests are sent, not what the loop yields nor how it
    ends. *)
Lemma for_events_as_list {X Y} (evs : list (event X)) (body : X -> run Y unit) :
  yields (events (for_events evs (Return tt) body)) =
    yields (events (for_list (yields evs) body)) /\
  final (for_events evs (Return tt) body) = final (for_list (yields evs) body).
Proof.
  induction evs as [|[u p|x] evs [IHy IHf]]; cbn; auto.
  unfold seq. destruct (final (body x)); cbn; auto.
  now rewrite !yields_app, IHy, IHf.
Qed.

Lemma for_list_yield {Y} (l : list Y) :
  for_list l (fun y => yield y) = Run (map Yield l) (Return tt).
Proof.
  induction l as [|y l IH]; cbn; [reflexivity|]. rewrite IH. reflexivity.
Qed.

Lemma yields_map_Yield {Y} (l : list Y) : yields (map Yield l) = l.
Proof. induction l; cbn; congruence. Qed.

Lemma requests_map_Yield {Y} (l : list Y) : requests (map Yield l) = [].
Proof. induction l; cbn; congruence. Qed.

(** A loop whose body only yields: the requests are those of the
    generator, the values are the values of the bodies, in order. *)
Lemma for_events_expand {X Y} (evs : list (event X)) fin (body : X -> run Y unit)
    (outs : list (list Y)) :
  Forall2 (fun x ys => body x = Run (map Yield ys) (Return tt)) (yields evs) outs ->
  let r := for_events evs fin body in
  final r = fin /\
  requests (events r) = requests evs /\
  yields (events r) = List.concat outs.
Proof.
  cbn zeta. revert outs.
  induction evs as [|[u p|x] evs IH]; cbn; intros outs H.
  - inversion H; subst. auto.
  - destruct (IH outs H) as (Hf & Hr & Hy). now rewrite Hr.
  - inversion H as [|? ys ? outs' Hx H']; subst.
    destruct (IH outs' H') as (Hf & Hr & Hy).
    rewrite Hx. unfold seq; cbn.
    rewrite requests_app, yields_app, requests_map_Yield, yields_map_Yield, Hr, Hy.
    auto.
Qed.

Lemma sorted_NoDup (l : list Z) : StronglySorted Z.lt l -> NoDup l.
Proof.
  induction 1 as [|x l _ IH Hx]; constructor; [|exact IH].
  intros Hin. rewrite Forall_forall in Hx. specialize (Hx _ Hin). lia.
Qed.

Lemma NoDup_map_injective {A B} (f : A -> B) (l : list A) :
  (forall x y, f x = f y -> x = y) -> NoDup l -> NoDup (map f l).
Proof.
  intros Hf. induction 1 as [|x l Hx _ IH]; cbn; constructor; [|exact IH].
  rewrite in_map_iff. intros (y & Hy & Hin). apply Hf in Hy. now subst.
Qed.

Lemma Forall2_compose {A B C} (R : A -> B -> Prop) (S : B -> C -> Prop) l1 l2 l3 :
  Forall2 R l1 l2 -> Forall2 S l2 l3 -> Forall2 (fun a c => exists b, R a b /\ S b c) l1 l3.
Proof.
  intros H. revert l3. induction H; intros l3 H'; inversion H'; subst; constructor; eauto.
Qed.

Lemma Forall2_swap {A B} (R : A -> B -> Prop) l l' :
  Forall2 R l l' -> Forall2 (fun b a => R a b) l' l.
Proof. induction 1; constructor; auto. Qed.

Lemma Forall2_weaken {A B} (R R' : A -> B -> Prop) l l' :
  (forall a b, R a b -> R' a b) -> Forall2 R l l' -> Forall2 R' l l'.
Proof. intros H. induction 1; constructor; auto. Qed.

Lemma Forall2_with_left {A B} (P : A -> Prop) (R : A -> B -> Prop) l l' :
  (forall a, In a l -> P a) -> Forall2 R l l' ->
  Forall2 (fun a b => P a /\ R a b) l l'.
Proof.
  intros HP H. induction H as [|a b l l' Hab _ IH]; constructor.
  - split; [apply HP; now left|exact Hab].
  - apply IH. intros x Hx. apply HP. now right.
Qed.

(* ================================================================== *)
(** ** The client: one call, one version *)

Section Client.

Variable client_fetch : string -> dict -> exn + json.
Variable urijoin : string -> string -> string.

Variable base_url : string.

Local Abbreviation _call_loop := (ConfluenceClient._call_loop client_fetch urijoin base_url).
Local Abbreviation _call := (ConfluenceClient._call client_fetch urijoin base_url).
Local Abbreviation continuation := (ConfluenceClient.continuation urijoin base_url).
Local Abbreviation continuation_requests :=
  (ConfluenceClient.continuation_requests urijoin base_url).
Local Abbreviation pages_from := (ConfluenceClient.pages_from client_fetch urijoin base_url).
Local Abbreviation historical_content :=
  (ConfluenceClient.historical_content client_fetch urijoin base_url).
Local Abbreviation next_link := ConfluenceClient.next_link.
Local Abbreviation version_params := ConfluenceClient.version_params.

(** One round of [_call]. *)
Lemma call_loop_round fuel u params :
  _call_loop (S fuel) u params =
  match client_fetch u params with
  | inl e => Run [Request u params] (Raise e)
  | inr body =>
      match next_link body with
      | Return None => Run [Request u params; Yield body] (Return tt)
      | Return (Some next) =>
          match str next with
          | Return s =>
              let r := _call_loop fuel (urijoin base_url s) [] in
              Run (Request u params :: Yield body :: events r) (final r)
          | Raise e => Run [Request u params; Yield body] (Raise e)
          | Diverge => Run [Request u params; Yield body] Diverge
          end
      | Raise e => Run [Request u params; Yield body] (Raise e)
      | Diverge => Run [Request u params; Yield body] Diverge
      end
  end.
Proof.
  simpl. unfold seq, yield, lift, ret; cbn.
  destruct (client_fetch u params) as [e|body]; cbn; [reflexivity|].
  destruct (next_link body) as [[next|]|e|]; cbn; try reflexivity.
  destruct (str next); cbn; reflexivity.
Qed.


Lemma continuation_params body r : continuation body = Some r -> snd r = [].
Proof.
  unfold ConfluenceClient.continuation.
  destruct (next_link body) as [[next|]|e|]; try discriminate.
  destruct (str next); try discriminate.
  now intros [= <-].
Qed.

Lemma continuation_requests_params pages :
  Forall (fun r => snd r = []) (continuation_requests pages).
Proof.
  induction pages as [|body rest IH]; cbn; [constructor|].
  destruct (continuation body) as [r|] eqn:E; constructor; auto.
  eapply continuation_params; eauto.
Qed.

(** The requests of one call: the given one first, then, as far as the
    call gets, the continuations of the pages it has yielded. *)
Lemma call_loop_requests fuel u params :
  let evs := events (_call_loop fuel u params) in
  (fuel = O /\ evs = []) \/
  exists later tail,
    requests evs = (u, params) :: later /\
    continuation_requests (yields evs) = (later ++ tail)%list.
Proof.
  revert u params. induction fuel as [|fuel IH]; intros u params; cbn zeta.
  - left. split; reflexivity.
  - right. rewrite call_loop_round.
    destruct (client_fetch u params) as [e|body]; cbn.
    { exists [], []. split; reflexivity. }
    destruct (continuation body) as [r|] eqn:Ec; revert Ec;
      unfold ConfluenceClient.continuation;
      destruct (next_link body) as [[next|]|e|] eqn:En; cbn;
      try destruct (str next) as [s|e|] eqn:Es; cbn;
      intros Ec; try discriminate; unfold ConfluenceClient.continuation;
      rewrite ?En; cbn; rewrite ?Es;
      try (exists [], []; split; reflexivity); try (eexists [], _; split; reflexivity).
    destruct (IH (urijoin base_url s) []) as [[-> Hev]|(later & tail & Hr & Hc)].
    + cbn. eexists [], _. split; reflexivity.
    + cbn zeta in Hr, Hc. rewrite Hr, Hc.
      exists ((urijoin base_url s, []) :: later), tail. split; reflexivity.
Qed.

(** With a chain of pages on the server, a call with enough fuel walks
    the whole chain and stops at its last page. *)
Lemma call_loop_pages u params pages :
  pages_from u params pages ->
  forall fuel, (List.length pages <= fuel)%nat ->
  final (_call_loop fuel u params) = Return tt /\
  yields (events (_call_loop fuel u params)) = pages /\
  requests (events (_call_loop fuel u params)) =
    (u, params) :: continuation_requests pages.
Proof.
  induction 1 as [u params body Hf Hn|u params body r rest Hf Hc Hrest IH];
    intros fuel Hfuel; (destruct fuel as [|fuel]; [cbn in Hfuel; lia|]);
    rewrite call_loop_round, Hf.
  - rewrite Hn. cbn. unfold ConfluenceClient.continuation. rewrite Hn. auto.
  - cbn [continuation_requests]. rewrite Hc.
    unfold ConfluenceClient.continuation in Hc.
    destruct (next_link body) as [[next|]|e|]; try discriminate.
    destruct (str next) as [s|e|]; try discriminate.
    injection Hc as <-. cbn in IH.
    destruct (IH fuel) as (H1 & H2 & H3); [cbn in Hfuel; lia|].
    cbn. rewrite H1, H2, H3. auto.
Qed.

(** A version is asked for with one request that names it, followed by
    continuations only. *)
Lemma historical_content_events fuel cid v :
  events (historical_content fuel cid v) =
  match str cid with
  | Return id =>
      sent (requests (events (_call fuel ("content" ++ "/" ++ id) (version_params v))))
  | _ => []
  end.
Proof.
  unfold ConfluenceClient.historical_content. rewrite seq_lift.
  destruct (str cid) as [id|e|]; cbn; try reflexivity.
  unfold seq, collect; cbn.
  destruct (final (_call fuel _ _)); cbn; try reflexivity.
  destruct (yields _); cbn; now rewrite app_nil_r.
Qed.

Lemma historical_content_final fuel cid v :
  final (historical_content fuel cid v) =
  id <- str cid ;;
  let g := _call fuel ("content" ++ "/" ++ id) (version_params v) in
  _ <- final g ;;
  match yields (events g) with
  | r :: _ => Return r
  | [] => Raise IndexError
  end.
Proof.
  unfold ConfluenceClient.historical_content. rewrite seq_lift.
  destruct (str cid) as [id|e|]; cbn; try reflexivity.
  unfold seq, collect; cbn.
  destruct (final (_call fuel _ _)); cbn; try reflexivity.
  destruct (yields _); cbn; reflexivity.
Qed.

Lemma historical_content_yields fuel cid v :
  yields (events (historical_content fuel cid v)) = [].
Proof.
  rewrite historical_content_events. destruct (str cid); cbn; auto using yields_sent.
Qed.

Lemma historical_content_versions fuel cid v :
  requested_versions (events (historical_content fuel cid v)) = [v] \/
  (events (historical_content fuel cid v) = [] /\
   forall raw, final (historical_content fuel cid v) <> Return raw).
Proof.
  rewrite historical_content_events, historical_content_final.
  destruct (str cid) as [id|e|]; cbn; try (right; split; [reflexivity|discriminate]).
  unfold ConfluenceClient._call.
  match goal with
  | |- context [_call_loop fuel ?u ?p] =>
      destruct (call_loop_requests fuel u p) as [[-> Hev]|(later & tail & Hr & Hc)];
      [|pose proof (continuation_requests_params (yields (events (_call_loop fuel u p))))
          as HF]
  end.
  - right. split; [reflexivity|]. cbn. discriminate.
  - left. cbn zeta in Hr. rewrite Hr. unfold requested_versions.
    rewrite requests_sent. cbn.
    assert (Hl : Forall (fun r => snd r = []) later).
    { rewrite Hc in HF. apply Forall_app in HF. tauto. }
    clear Hr Hc HF. induction Hl as [|[u p] later Hp Hl IH]; cbn; auto.
    cbn in Hp. subst p. exact IH.
Qed.


Lemma next_link_total body : next_link body <> Diverge.
Proof.
  unfold ConfluenceClient.next_link.
  apply bind_total; [apply contains_total|]. intros [|]; cbn; [|discriminate].
  apply bind_total; [apply getitem_total|]. intros links.
  apply bind_total; [apply contains_total|]. intros [|]; cbn; [|discriminate].
  apply bind_total; [apply getitem_total|]. discriminate.
Qed.

(** A version whose response carries no [next] link costs one request. *)
Lemma historical_content_single fuel cid id v :
  str cid = Return id ->
  (forall body next,
     client_fetch (ConfluenceClient.content_url base_url id) (version_params v) = inr body ->
     next_link body <> Return (Some next)) ->
  events (historical_content (S fuel) cid v) =
    [Request (ConfluenceClient.content_url base_url id) (version_params v)] /\
  final (historical_content (S fuel) cid v) =
    match client_fetch (ConfluenceClient.content_url base_url id) (version_params v) with
    | inl e => Raise e
    | inr body => _ <- next_link body ;; Return body
    end.
Proof.
  intros Hid Hnext.
  rewrite historical_content_events, historical_content_final, Hid. cbn [bind].
  unfold ConfluenceClient._call, ConfluenceClient.content_url in *.
  rewrite call_loop_round.
  destruct (client_fetch _ _) as [e|body] eqn:E; [split; reflexivity|].
  specialize (Hnext body).
  destruct (next_link body) as [[next|]|e|] eqn:En; cbn; try (split; reflexivity).
  now destruct (Hnext next).
Qed.

End Client.

(* ================================================================== *)
(** ** The version walk *)

Section Walk.

Variable client_fetch : string -> dict -> exn + json.
Variable str_to_datetime : json -> exn + datetime.
Variable urijoin : string -> string -> string.
Variable url : string.

Local Abbreviation historical_content :=
  (ConfluenceClient.historical_content client_fetch urijoin (Confluence.client_base_url url)).
Local Abbreviation fetched :=
  (ConfluenceClient.fetched client_fetch urijoin (Confluence.client_base_url url)).
Local Abbreviation walk_loop :=
  (Confluence.fetch_historical_contents_loop client_fetch str_to_datetime urijoin url).
Local Abbreviation fetch_historical_contents :=
  (Confluence.fetch_historical_contents client_fetch str_to_datetime urijoin url).
Local Abbreviation version_when := (Confluence.version_when str_to_datetime).
Local Abbreviation passes := (Confluence.passes str_to_datetime).
Local Abbreviation skipped_log := Confluence.skipped_log.
Local Abbreviation history_latest := Confluence.history_latest.
Local Abbreviation recoverable := Confluence.recoverable.
Local Abbreviation flagged_latest := (Confluence.flagged_latest client_fetch url).
Local Abbreviation fails_recoverably := (Confluence.fails_recoverably client_fetch url).
Local Abbreviation single_request := (Confluence.single_request client_fetch url).
Local Abbreviation round_emits := (Confluence.round_emits str_to_datetime).

(** One round of the walk whose fetch failed. *)
Lemma walk_round_failed fuel n cid from_date v :
  (forall raw, final (historical_content fuel cid v) <> Return raw) ->
  events (walk_loop fuel (S n) cid from_date v) = events (historical_content fuel cid v) /\
  final (walk_loop fuel (S n) cid from_date v) =
    match final (historical_content fuel cid v) with
    | Raise (HTTPError code) =>
        if recoverable code then Return tt else Raise (HTTPError code)
    | Raise e => Raise e
    | _ => Diverge
    end.
Proof.
  intros H. simpl.
  destruct (final (historical_content fuel cid v)) as [raw|e|] eqn:E.
  - now destruct (H raw).
  - destruct e; try (split; reflexivity).
    destruct (recoverable code); split; reflexivity.
  - split; reflexivity.
Qed.

(** One round of the walk whose fetch returned [hc]: what it emits, and
    whether the walk goes on. *)
Lemma walk_round_fetched fuel n cid from_date v hc :
  final (historical_content fuel cid v) = Return hc ->
  walk_loop fuel (S n) cid from_date v =
  match version_when hc with
  | Return when =>
      let emitted := if ge when from_date then [Yield hc] else [] in
      match (if ge when from_date then Return tt else skipped_log hc) with
      | Return _ =>
          match history_latest hc with
          | Return latest =>
              if truthy latest
              then Run (events (historical_content fuel cid v) ++ emitted) (Return tt)
              else
                let r := walk_loop fuel n cid from_date (v + 1) in
                Run (events (historical_content fuel cid v) ++ emitted ++ events r)
                    (final r)
          | Raise e => Run (events (historical_content fuel cid v) ++ emitted) (Raise e)
          | Diverge => Run (events (historical_content fuel cid v) ++ emitted) Diverge
          end
      | Raise e => Run (events (historical_content fuel cid v)) (Raise e)
      | Diverge => Run (events (historical_content fuel cid v)) Diverge
      end
  | Raise e => Run (events (historical_content fuel cid v)) (Raise e)
  | Diverge => Run (events (historical_content fuel cid v)) Diverge
  end.
Proof.
  intros H. simpl. rewrite H. unfold Confluence.parse_historical_content.
  unfold seq, lift, yield, ret. cbn.
  destruct (version_when hc) as [when|e|]; cbn; rewrite ?app_nil_r; try reflexivity.
  destruct (ge when from_date); cbn.
  - destruct (history_latest hc) as [latest|e|]; cbn; try reflexivity.
    destruct (truthy latest); cbn; reflexivity.
  - destruct (skipped_log hc) as [[]|e|]; cbn; rewrite ?app_nil_r; try reflexivity.
    destruct (history_latest hc) as [latest|e|]; cbn; rewrite ?app_nil_r; try reflexivity.
    destruct (truthy latest); cbn; rewrite ?app_nil_r; reflexivity.
Qed.


Lemma version_when_total hc : version_when hc <> Diverge.
Proof.
  unfold Confluence.version_when.
  pose proof (getitem_total hc "version") as H1.
  destruct (getitem hc "version") as [version|e|]; cbn; try discriminate; [|now destruct H1].
  pose proof (getitem_total version "when") as H2.
  destruct (getitem version "when") as [when|e|]; cbn; try discriminate; [|now destruct H2].
  now destruct (str_to_datetime when).
Qed.

Lemma skipped_log_total hc : skipped_log hc <> Diverge.
Proof.
  unfold Confluence.skipped_log.
  pose proof (getitem_total hc "id") as H0.
  destruct (getitem hc "id") as [id|e|]; cbn; try discriminate; [|now destruct H0].
  pose proof (getitem_total hc "version") as H1.
  destruct (getitem hc "version") as [version|e|]; cbn; try discriminate; [|now destruct H1].
  pose proof (getitem_total version "number") as H2.
  destruct (getitem version "number") as [number|e|]; cbn; try discriminate.
  now destruct H2.
Qed.

Lemma history_latest_total hc : history_latest hc <> Diverge.
Proof.
  unfold Confluence.history_latest.
  pose proof (getitem_total hc "history") as H1.
  destruct (getitem hc "history") as [history|e|]; cbn; try discriminate; [|now destruct H1].
  apply getitem_total.
Qed.

(** Every round either ends the walk or hands over to the next version
    number; in both cases it has sent the requests of one fetch and
    emitted what [round_emits] says. *)
Lemma walk_round_shape fuel n cid from_date v :
  let F := historical_content fuel cid v in
  let emitted := round_emits from_date (final F) in
  (events (walk_loop fuel (S n) cid from_date v) = (events F ++ emitted)%list /\
   (final F <> Diverge -> final (walk_loop fuel (S n) cid from_date v) <> Diverge)) \/
  exists hc latest,
    final F = Return hc /\
    history_latest hc = Return latest /\ truthy latest = false /\
    events (walk_loop fuel (S n) cid from_date v) =
      (events F ++ emitted ++ events (walk_loop fuel n cid from_date (v + 1)))%list /\
    final (walk_loop fuel (S n) cid from_date v) =
      final (walk_loop fuel n cid from_date (v + 1)).
Proof.
  cbn zeta. destruct (final (historical_content fuel cid v)) as [hc|e|] eqn:E.
  - rewrite (walk_round_fetched _ _ _ _ _ _ E).
    unfold Confluence.round_emits, Confluence.passes.
    pose proof (version_when_total hc) as Hw.
    pose proof (skipped_log_total hc) as Hs.
    pose proof (history_latest_total hc) as Hl.
    destruct (version_when hc) as [when|e|]; cbn;
      try (left; rewrite app_nil_r; split; [reflexivity|discriminate]);
      [|now destruct Hw].
    destruct (ge when from_date); cbn.
    + destruct (history_latest hc) as [latest|e|] eqn:L; cbn;
        try (left; split; [reflexivity|discriminate]); [|now destruct Hl].
      destruct (truthy latest) eqn:T; cbn; [left; split; [reflexivity|discriminate]|].
      right. exists hc, latest. auto.
    + destruct (skipped_log hc) as [[]|e|]; cbn;
        try (left; rewrite app_nil_r; split; [reflexivity|discriminate]);
        [|now destruct Hs].
      destruct (history_latest hc) as [latest|e|] eqn:L; cbn;
        try (left; split; [reflexivity|discriminate]); [|now destruct Hl].
      destruct (truthy latest) eqn:T; cbn; [left; split; [reflexivity|discriminate]|].
      right. exists hc, latest. auto.
  - left. destruct (walk_round_failed fuel n cid from_date v) as [Hev Hfin];
      [rewrite E; discriminate|].
    rewrite E in Hfin. rewrite Hev, Hfin. unfold Confluence.round_emits.
    rewrite app_nil_r. split; [reflexivity|].
    intros _. destruct e; try discriminate. now destruct (recoverable code).
  - left. destruct (walk_round_failed fuel n cid from_date v) as [Hev Hfin];
      [rewrite E; discriminate|].
    rewrite E in Hfin. rewrite Hev, Hfin. unfold Confluence.round_emits.
    rewrite app_nil_r. split; [reflexivity|]. intros H. now destruct H.
Qed.

Lemma round_emits_yields from_date o :
  yields (round_emits from_date o) =
  filter (passes from_date) (match o with Return hc => [hc] | _ => [] end).
Proof.
  destruct o as [hc|e|]; cbn; try reflexivity. now destruct (passes from_date hc).
Qed.

Lemma round_emits_requests from_date o : requests (round_emits from_date o) = [].
Proof.
  destruct o as [hc|e|]; cbn; try reflexivity. now destruct (passes from_date hc).
Qed.

(** The versions fetched in one round, from the numbers it asked for. *)
Lemma fetched_round fuel cid v :
  fetched fuel cid (requested_versions (events (historical_content fuel cid v))) =
  match final (historical_content fuel cid v) with
  | Return hc => [hc]
  | _ => []
  end.
Proof.
  destruct (historical_content_versions client_fetch urijoin
              (Confluence.client_base_url url) fuel cid v) as [->|[-> H]].
  - cbn. now rewrite app_nil_r.
  - cbn. destruct (final (historical_content fuel cid v)) as [raw|e|]; auto.
    now destruct (H raw).
Qed.

Lemma fetched_app fuel cid a b :
  fetched fuel cid (a ++ b) = (fetched fuel cid a ++ fetched fuel cid b)%list.
Proof. unfold ConfluenceClient.fetched. apply flat_map_app. Qed.

(** The walk emits exactly the fetched versions that pass the checkpoint. *)
Lemma walk_yields fuel n cid from_date v :
  yields (events (walk_loop fuel n cid from_date v)) =
  filter (passes from_date)
    (fetched fuel cid (requested_versions (events (walk_loop fuel n cid from_date v)))).
Proof.
  revert v. induction n as [|n IH]; intros v; [reflexivity|].
  destruct (walk_round_shape fuel n cid from_date v)
    as [[-> _]|(hc & latest & _ & _ & _ & -> & _)];
    rewrite ?yields_app, ?requested_versions_app, ?fetched_app, ?filter_app,
      ?historical_content_yields, ?round_emits_yields, ?fetched_round, <- ?IH;
    unfold requested_versions; rewrite round_emits_requests; cbn;
    now rewrite ?app_nil_r.
Qed.

(** The numbers asked for are consecutive, from the one the loop was
    entered with. *)
Lemma walk_requested fuel n cid from_date v :
  exists k,
    requested_versions (events (walk_loop fuel n cid from_date v)) =
    map (fun i => v + Z.of_nat i) (List.seq 0 k).
Proof.
  revert v. induction n as [|n IH]; intros v; [now exists O|].
  assert (Hv : exists k, (k <= 1)%nat /\
             requested_versions (events (historical_content fuel cid v)) =
             map (fun i => v + Z.of_nat i) (List.seq 0 k)).
  { destruct (historical_content_versions client_fetch urijoin
                (Confluence.client_base_url url) fuel cid v) as [->|[-> H]].
    - exists 1%nat. split; [lia|]. cbn. now rewrite Z.add_0_r.
    - exists O. split; [lia|reflexivity]. }
  destruct (walk_round_shape fuel n cid from_date v)
    as [[-> _]|(hc & latest & E & _ & _ & -> & _)];
    rewrite ?requested_versions_app;
    unfold requested_versions at 2; rewrite round_emits_requests; cbn [flat_map].
  - destruct Hv as (k & _ & ->). exists k. now rewrite app_nil_r.
  - destruct (historical_content_versions client_fetch urijoin
                (Confluence.client_base_url url) fuel cid v) as [->|[_ H]];
      [|now destruct (H hc)].
    destruct (IH (v + 1)) as (k & ->). exists (S k). cbn.
    rewrite Z.add_0_r. f_equal. rewrite <- seq_shift, map_map.
    apply map_ext. intros i. lia.
Qed.


Lemma walk_requested_from fuel n cid from_date v b :
  In b (requested_versions (events (walk_loop fuel n cid from_date v))) -> v <= b.
Proof.
  destruct (walk_requested fuel n cid from_date v) as (k & ->).
  rewrite in_map_iff. intros (i & <- & _). lia.
Qed.

Lemma round_requested fuel cid v b :
  In b (requested_versions (events (historical_content fuel cid v))) -> b = v.
Proof.
  destruct (historical_content_versions client_fetch urijoin
              (Confluence.client_base_url url) fuel cid v) as [->|[-> _]]; cbn;
    intuition congruence.
Qed.

Lemma round_emits_versions from_date o : requested_versions (round_emits from_date o) = [].
Proof. unfold requested_versions. now rewrite round_emits_requests. Qed.

(** A round that stops the walk: no number is asked for after [v]. *)
Lemma walk_requested_stop fuel n cid from_date v b :
  events (walk_loop fuel (S n) cid from_date v) =
    (events (historical_content fuel cid v) ++
     round_emits from_date (final (historical_content fuel cid v)))%list ->
  In b (requested_versions (events (walk_loop fuel (S n) cid from_date v))) -> b = v.
Proof.
  intros ->. rewrite requested_versions_app, round_emits_versions, app_nil_r.
  apply round_requested.
Qed.

(** Where the walk meets a failing fetch it asks for nothing further,
    and it ends as the status code decides. *)
Lemma walk_failed_at fuel n cid from_date v0 v code :
  In v (requested_versions (events (walk_loop fuel n cid from_date v0))) ->
  final (historical_content fuel cid v) = Raise (HTTPError code) ->
  (forall b, In b (requested_versions (events (walk_loop fuel n cid from_date v0))) ->
             b <= v) /\
  final (walk_loop fuel n cid from_date v0) =
    if recoverable code then Return tt else Raise (HTTPError code).
Proof.
  revert v0. induction n as [|n IH]; intros v0 Hin Hfail; [destruct Hin|].
  destruct (walk_round_shape fuel n cid from_date v0)
    as [[Hstop _]|(hc & latest & E & _ & _ & Hev & Hfin)].
  - assert (v = v0) as -> by (eapply walk_requested_stop; eauto).
    split.
    + intros b Hb. apply (walk_requested_stop _ _ _ _ _ _ Hstop) in Hb. lia.
    + destruct (walk_round_failed fuel n cid from_date v0) as [_ ->].
      * rewrite Hfail. discriminate.
      * now rewrite Hfail.
  - rewrite Hev, Hfin in *.
    rewrite !requested_versions_app, round_emits_versions in *. cbn [app] in *.
    apply in_app_or in Hin. destruct Hin as [Hin|Hin].
    + apply round_requested in Hin. subst v0. congruence.
    + destruct (IH _ Hin Hfail) as [Hle Hf]. split; [|exact Hf].
      intros b Hb. apply in_app_or in Hb. destruct Hb as [Hb|Hb]; [|auto].
      apply round_requested in Hb. apply walk_requested_from in Hin. lia.
Qed.

(** After a version flagged latest no number is asked for. *)
Lemma walk_latest_last fuel n cid from_date v0 a b raw latest :
  In a (requested_versions (events (walk_loop fuel n cid from_date v0))) ->
  In b (requested_versions (events (walk_loop fuel n cid from_date v0))) ->
  a < b ->
  final (historical_content fuel cid a) = Return raw ->
  history_latest raw = Return latest ->
  truthy latest = false.
Proof.
  revert v0. induction n as [|n IH]; intros v0 Ha Hb Hab Hraw Hl; [destruct Ha|].
  destruct (walk_round_shape fuel n cid from_date v0)
    as [[Hstop _]|(hc & latest' & E & L & T & Hev & Hfin)].
  - apply (walk_requested_stop _ _ _ _ _ _ Hstop) in Ha, Hb. lia.
  - rewrite Hev in *.
    rewrite !requested_versions_app, round_emits_versions in *. cbn [app] in *.
    apply in_app_or in Ha. destruct Ha as [Ha|Ha].
    + apply round_requested in Ha. subst a. congruence.
    + apply in_app_or in Hb. destruct Hb as [Hb|Hb]; [|eauto].
      apply round_requested in Hb. apply walk_requested_from in Ha. lia.
Qed.

(** The fetched versions that pass, each with the number it was asked
    for under. *)
Lemma fetched_passing fuel cid from_date vs :
  exists vs',
    (forall v, In v vs' -> In v vs) /\
    (StronglySorted Z.lt vs -> StronglySorted Z.lt vs') /\
    Forall2 (fun v hc => final (historical_content fuel cid v) = Return hc)
      vs' (filter (passes from_date) (fetched fuel cid vs)).
Proof.
  induction vs as [|v vs (vs' & Hin & Hs & HF)].
  - exists []. cbn. repeat split; auto; constructor.
  - assert (Htail : StronglySorted Z.lt (v :: vs) ->
                    StronglySorted Z.lt vs' /\ Forall (Z.lt v) vs').
    { intros H. inversion H; subst. split; [auto|].
      rewrite Forall_forall in *. auto. }
    change (fetched fuel cid (v :: vs))
      with ((match final (historical_content fuel cid v) with
             | Return hc => [hc]
             | _ => []
             end) ++ fetched fuel cid vs)%list.
    rewrite filter_app.
    destruct (final (historical_content fuel cid v)) as [hc|e|] eqn:E; cbn [filter app];
      try (exists vs'; repeat split; [intros; right; auto|apply Htail|exact HF]).
    destruct (passes from_date hc).
    + exists (v :: vs'). repeat split.
      * intros x [->|Hx]; [now left|right; auto].
      * intros H. destruct (Htail H). now constructor.
      * constructor; assumption.
    + exists vs'. repeat split; [intros; right; auto|apply Htail|exact HF].
Qed.

Lemma consecutive_sorted v k :
  StronglySorted Z.lt (map (fun i => v + Z.of_nat i) (List.seq 0 k)).
Proof.
  revert v. induction k as [|k IH]; intros v; cbn; [constructor|].
  rewrite <- seq_shift, map_map. constructor.
  - erewrite map_ext; [apply (IH (v + 1))|]. intros i. cbn. lia.
  - rewrite Forall_forall. intros x. rewrite in_map_iff. intros (i & <- & _). lia.
Qed.

(** The emitted versions are answers to strictly increasing numbers,
    all of which the walk has asked for. *)
Lemma walk_emitted_sorted fuel n cid from_date v0 :
  exists vs,
    StronglySorted Z.lt vs /\
    Forall (fun v => v0 <= v) vs /\
    Forall2 (fun v hc =>
               In v (requested_versions (events (walk_loop fuel n cid from_date v0))) /\
               final (historical_content fuel cid v) = Return hc)
      vs (yields (events (walk_loop fuel n cid from_date v0))).
Proof.
  rewrite walk_yields.
  destruct (fetched_passing fuel cid from_date
              (requested_versions (events (walk_loop fuel n cid from_date v0))))
    as (vs & Hin & Hs & HF).
  exists vs. split; [|split].
  - apply Hs. destruct (walk_requested fuel n cid from_date v0) as (k & ->).
    apply consecutive_sorted.
  - rewrite Forall_forall. intros v Hv. eapply walk_requested_from; eauto.
  - now apply Forall2_with_left.
Qed.

(** The walk ends at the latest version or at a recoverable failure,
    whichever it meets, when no response on the way is paginated. *)
Lemma walk_terminates fuel cid id from_date s :
  str cid = Return id ->
  flagged_latest id s \/ fails_recoverably id s ->
  forall n v0,
    v0 <= s -> (Z.to_nat (s - v0) < n)%nat ->
    (forall v, v0 <= v <= s -> single_request id v) ->
    final (walk_loop (S fuel) n cid from_date v0) <> Diverge /\
    Z.of_nat (List.length (requests (events (walk_loop (S fuel) n cid from_date v0))))
      <= s - v0 + 1.
Proof.
  intros Hid Hstop. induction n as [|n IH]; intros v0 Hv0 Hn Hsingle; [lia|].
  destruct (historical_content_single client_fetch urijoin
              (Confluence.client_base_url url) fuel cid id v0 Hid)
    as [Hev Hfin]; [apply Hsingle; lia|].
  assert (HF : final (historical_content (S fuel) cid v0) <> Diverge).
  { rewrite Hfin. destruct (client_fetch _ _) as [e|body]; [discriminate|].
    apply bind_total; [apply next_link_total|discriminate]. }
  destruct (walk_round_shape (S fuel) n cid from_date v0)
    as [[E Hnd]|(hc & latest & E & L & T & Hevs & Hfins)].
  - split; [auto|]. rewrite E, requests_app, round_emits_requests, Hev. cbn. lia.
  - assert (v0 <> s) as Hne.
    { intros ->. rewrite Hfin in E.
      destruct Hstop as [(body & latest' & Hb & Hl & Ht)|(code & Hb & _)];
        rewrite Hb in E; [|discriminate].
      destruct (ConfluenceClient.next_link body); cbn in E; try discriminate.
      injection E as ->. congruence. }
    destruct (IH (v0 + 1)) as [Hd Hlen]; [lia|lia|intros; apply Hsingle; lia|].
    rewrite Hevs, Hfins. split; [exact Hd|].
    rewrite !requests_app, round_emits_requests, Hev. cbn [requests app List.length].
    lia.
Qed.

End Walk.

(* ================================================================== *)
(** ** Normalising an item *)

Section Normalize.

Local Abbreviation add_ancestors := Confluence.add_ancestors.

(** The URL of one ancestor: the prefix followed by its UI path. *)
Lemma ancestors_fold url_prefix ancestors paths acc :
  Forall2 (fun a p => (links <- getitem a "_links" ;; getitem links "webui")
                      = Return (JStr p)) ancestors paths ->
  fold_left
    (fun acc ancestor =>
       ancestors <- acc ;;
       links <- getitem ancestor "_links" ;;
       webui <- getitem links "webui" ;;
       s <- concat_str url_prefix webui ;;
       Return (ancestors ++ [JStr s])%list)
    ancestors (Return acc) =
  Return (acc ++ map (fun p => JStr (url_prefix ++ p)) paths)%list.
Proof.
  intros H. revert acc.
  induction H as [|a p ancestors paths Hp _ IH]; intros acc; cbn [fold_left map].
  - now rewrite app_nil_r.
  - cbn [bind]. destruct (getitem a "_links") as [links|e|]; cbn [bind] in *;
      try discriminate.
    rewrite Hp. cbn [bind concat_str]. rewrite IH, <- app_assoc. reflexivity.
Qed.

(** A summary with a non-empty list of ancestors: their URLs are stored
    in the item, in the order of the summary. *)
Lemma add_ancestors_attaches url_prefix d c ancestors paths :
  lookup "ancestors" c = Some (JArr ancestors) ->
  ancestors <> [] ->
  Forall2 (fun a p => (links <- getitem a "_links" ;; getitem links "webui")
                      = Return (JStr p)) ancestors paths ->
  add_ancestors url_prefix (JObj d) (JObj c) =
  Return (JObj (assign "ancestors"
                  (JArr (map (fun p => JStr (url_prefix ++ p)) paths)) d)).
Proof.
  intros Hl Hne HF. unfold Confluence.add_ancestors. cbn. rewrite Hl. cbn.
  destruct ancestors as [|a ancestors]; [congruence|]. cbn [bind].
  rewrite (ancestors_fold url_prefix (a :: ancestors) paths [] HF). cbn.
  inversion HF; subst. reflexivity.
Qed.

(** A summary with no list of ancestors, or an empty one: the item is
    left as it is. *)
Lemma add_ancestors_leaves url_prefix item c :
  lookup "ancestors" c = None \/
  (exists a, lookup "ancestors" c = Some a /\ truthy a = false) ->
  add_ancestors url_prefix item (JObj c) = Return item.
Proof.
  unfold Confluence.add_ancestors. cbn.
  intros [->|(a & -> & Ha)]; cbn; [reflexivity|]. now rewrite Ha.
Qed.

(** Whatever the summary, the item comes back as it is or with a
    non-empty list stored under [ancestors]. *)
Lemma add_ancestors_result url_prefix item content out :
  add_ancestors url_prefix item content = Return out ->
  out = item \/
  exists l, l <> [] /\ setitem item "ancestors" (JArr l) = Return out.
Proof.
  unfold Confluence.add_ancestors.
  repeat match goal with
         | |- context [bind ?x _] =>
             destruct x as [?v|?e|]; cbn [bind]; try discriminate
         end.
  match goal with
  | |- context [match ?anc with [] => _ | _ :: _ => _ end] =>
      destruct anc as [|first others]
  end.
  - intros [= <-]. now left.
  - intros H. right. exists (first :: others). split; [discriminate|exact H].
Qed.

(** Normalising an item touches no key but [content_url] and [ancestors]. *)
Lemma normalize_keeps u content_url content hc item k :
  Confluence.normalize u content_url content hc = Return item ->
  k <> "content_url" -> k <> "ancestors" ->
  getitem item k = getitem hc k.
Proof.
  unfold Confluence.normalize. intros H Hk1 Hk2.
  destruct (setitem hc "content_url" (JStr content_url)) as [hc'|e|] eqn:E;
    cbn in H; try discriminate.
  rewrite <- (getitem_setitem_other _ _ _ _ k E) by congruence.
  apply add_ancestors_result in H. destruct H as [->|(l & _ & H)]; [reflexivity|].
  apply (getitem_setitem_other _ _ _ _ k H). congruence.
Qed.

(** The walk reads [hc['history']['latest']] after the consumer has
    stored [content_url] and [ancestors] in that same dict: what it
    reads is what the server sent. *)
Lemma normalize_keeps_latest u content_url content hc item :
  Confluence.normalize u content_url content hc = Return item ->
  Confluence.history_latest item = Confluence.history_latest hc.
Proof.
  intros H. unfold Confluence.history_latest.
  now rewrite (normalize_keeps _ _ _ _ _ "history" H) by discriminate.
Qed.

End Normalize.

(* ================================================================== *)
(** ** The harvest *)

Section Harvest.

Variable client_fetch : string -> dict -> exn + json.
Variable str_to_datetime : json -> exn + datetime.
Variable urijoin : string -> string -> string.
Variable url : string.
Variable self_add_ancestors : bool.

Local Abbreviation historical_content :=
  (ConfluenceClient.historical_content client_fetch urijoin (Confluence.client_base_url url)).
Local Abbreviation fetch_historical_contents :=
  (Confluence.fetch_historical_contents client_fetch str_to_datetime urijoin url).
Local Abbreviation fetch_contents_summary :=
  (Confluence.fetch_contents_summary client_fetch urijoin url self_add_ancestors).
Local Abbreviation fetch_items_body :=
  (Confluence.fetch_items_body client_fetch str_to_datetime urijoin url).
Local Abbreviation fetch_items :=
  (Confluence.fetch_items client_fetch str_to_datetime urijoin url self_add_ancestors).
Local Abbreviation fetch_items_lazy :=
  (Confluence.fetch_items_lazy client_fetch str_to_datetime urijoin url self_add_ancestors).
Local Abbreviation normalize := (Confluence.normalize url).
Local Abbreviation content_url_of := (Confluence.content_url_of urijoin url).
Local Abbreviation version_when := (Confluence.version_when str_to_datetime).
Local Abbreviation passes := (Confluence.passes str_to_datetime).
Local Abbreviation metadata_updated_on := (Confluence.metadata_updated_on str_to_datetime).
Local Abbreviation metadata_id := Confluence.metadata_id.
Local Abbreviation summary_id := Confluence.summary_id.
Local Abbreviation echoes := (Confluence.echoes client_fetch str_to_datetime urijoin url).

(** The loop body on a summary that has an id and a UI path. *)
Lemma fetch_items_body_walk fuel from_date content cid u :
  getitem content "id" = Return cid ->
  content_url_of content = Return u ->
  fetch_items_body fuel from_date content =
  for_each (fetch_historical_contents fuel cid from_date)
    (fun hc => item <~ lift (normalize u content hc) ;; yield item).
Proof.
  intros Hid Hu. unfold Confluence.fetch_items_body.
  rewrite seq_lift, Hid, seq_lift.
  fold (content_url_of content). now rewrite Hu.
Qed.

(** Each item of the loop body is a version of the walk, normalised. *)
Lemma fetch_items_body_yields fuel from_date content item :
  In item (yields (events (fetch_items_body fuel from_date content))) ->
  exists cid u hc,
    getitem content "id" = Return cid /\
    content_url_of content = Return u /\
    In hc (yields (events (fetch_historical_contents fuel cid from_date))) /\
    normalize u content hc = Return item.
Proof.
  destruct (getitem content "id") as [cid|e|] eqn:Hid;
    [|unfold Confluence.fetch_items_body; rewrite seq_lift, Hid; cbn; tauto..].
  destruct (content_url_of content) as [u|e|] eqn:Hu;
    [|unfold Confluence.fetch_items_body; rewrite seq_lift, Hid, seq_lift;
      fold (content_url_of content); rewrite Hu; cbn; tauto..].
  rewrite (fetch_items_body_walk _ _ _ _ _ Hid Hu). unfold for_each.
  destruct (for_events_map (normalize u content)
              (events (fetch_historical_contents fuel cid from_date))
              (final (fetch_historical_contents fuel cid from_date)))
    as (done & rest & Hy & HF).
  intros Hin. destruct (Forall2_in_r _ _ _ _ HF Hin) as (hc & Hhc & Hn).
  exists cid, u, hc. repeat split; auto. rewrite Hy. apply in_or_app. now left.
Qed.

(** The harvest: the summaries are drained first, then walked in order. *)
Lemma fetch_items_events fuel from_date :
  let S := fetch_contents_summary fuel from_date in
  events (fetch_items fuel from_date) =
    (sent (requests (events S)) ++
     match final S with
     | Return _ => events (for_list (yields (events S)) (fetch_items_body fuel from_date))
     | _ => []
     end)%list /\
  final (fetch_items fuel from_date) =
    match final S with
    | Return _ => final (for_list (yields (events S)) (fetch_items_body fuel from_date))
    | Raise e => Raise e
    | Diverge => Diverge
    end.
Proof.
  cbn zeta. unfold Confluence.fetch_items, seq, collect. cbn.
  destruct (final (fetch_contents_summary fuel from_date)); cbn;
    rewrite ?app_nil_r; auto.
Qed.

Lemma fetch_items_yields fuel from_date item :
  In item (yields (events (fetch_items fuel from_date))) ->
  exists content cid u hc,
    In content (yields (events (fetch_contents_summary fuel from_date))) /\
    getitem content "id" = Return cid /\
    content_url_of content = Return u /\
    In hc (yields (events (fetch_historical_contents fuel cid from_date))) /\
    normalize u content hc = Return item.
Proof.
  destruct (fetch_items_events fuel from_date) as [-> _].
  rewrite yields_app, yields_sent. cbn [app].
  destruct (final (fetch_contents_summary fuel from_date)); cbn; try tauto.
  intros H. apply for_list_yields in H. destruct H as (content & Hc & H).
  apply fetch_items_body_yields in H. destruct H as (cid & u & hc & ?).
  exists content, cid, u, hc. tauto.
Qed.

(** When the summaries are all received, the harvest yields what the
    flat-map over the summary generator yields, and ends as it does. *)
Lemma fetch_items_lazy_same fuel from_date :
  final (fetch_contents_summary fuel from_date) = Return tt ->
  yields (events (fetch_items fuel from_date)) =
    yields (events (fetch_items_lazy fuel from_date)) /\
  final (fetch_items fuel from_date) = final (fetch_items_lazy fuel from_date).
Proof.
  intros HS. destruct (fetch_items_events fuel from_date) as [-> ->].
  rewrite HS, yields_app, yields_sent. cbn [app].
  unfold Confluence.fetch_items_lazy, for_each. rewrite HS.
  destruct (for_events_as_list (events (fetch_contents_summary fuel from_date))
              (fetch_items_body fuel from_date)) as [-> ->].
  auto.
Qed.


(** Normalising an item changes neither its identity nor its date. *)
Lemma normalize_identity u content hc item :
  normalize u content hc = Return item ->
  metadata_id item = metadata_id hc /\ version_when item = version_when hc.
Proof.
  intros H. unfold Confluence.metadata_id, Confluence.version_when.
  rewrite (normalize_keeps _ _ _ _ _ "id" H), (normalize_keeps _ _ _ _ _ "version" H);
    try discriminate.
  auto.
Qed.

(** The identity of a version the server echoes faithfully. *)
Lemma echoed_identity fuel cid from_date id v hc :
  echoes fuel cid from_date -> str cid = Return id ->
  In v (requested_versions (events (fetch_historical_contents fuel cid from_date))) ->
  final (historical_content fuel cid v) = Return hc ->
  metadata_id hc = Return (id ++ "#v" ++ str_int v)%string.
Proof.
  intros He Hid Hin Hf. destruct (He v hc Hin Hf) as [(hid & H1 & H2) H3].
  unfold Confluence.metadata_id, Confluence.version_number in *.
  rewrite H1. cbn [bind].
  destruct (getitem hc "version") as [version|e|]; cbn [bind] in *; try discriminate.
  rewrite H3. cbn [bind]. rewrite H2, Hid. reflexivity.
Qed.

(** The items of one summary carry its id and pairwise distinct
    version numbers. *)
Lemma fetch_items_body_tagged fuel from_date content cid id :
  getitem content "id" = Return cid ->
  str cid = Return id ->
  echoes fuel cid from_date ->
  exists vs,
    NoDup vs /\
    Forall2 (fun item v => metadata_id item = Return (id ++ "#v" ++ str_int v)%string)
      (yields (events (fetch_items_body fuel from_date content))) vs.
Proof.
  intros Hcid Hid He.
  destruct (content_url_of content) as [u|e|] eqn:Hu;
    [|exists []; split; [constructor|];
      unfold Confluence.fetch_items_body; rewrite seq_lift, Hcid, seq_lift;
      fold (content_url_of content); rewrite Hu; constructor..].
  rewrite (fetch_items_body_walk _ _ _ _ _ Hcid Hu). unfold for_each.
  destruct (for_events_map (normalize u content)
              (events (fetch_historical_contents fuel cid from_date))
              (final (fetch_historical_contents fuel cid from_date)))
    as (done & rest & Hy & HF).
  destruct (walk_emitted_sorted client_fetch str_to_datetime urijoin url
              fuel fuel cid from_date 1) as (vs & Hs & _ & Hv).
  fold (fetch_historical_contents fuel cid from_date) in Hv.
  rewrite Hy in Hv. apply Forall2_app_inv_r in Hv.
  destruct Hv as (vs1 & vs2 & Hv1 & _ & ->).
  exists vs1. split.
  - apply sorted_NoDup in Hs. now apply NoDup_app_remove_r in Hs.
  - apply Forall2_swap.
    eapply Forall2_weaken; [|exact (Forall2_compose _ _ _ _ _ Hv1 HF)].
    cbn. intros v item (hc & [Hin Hf] & Hn).
    destruct (normalize_identity _ _ _ _ Hn) as [-> _].
    eapply echoed_identity; eauto.
Qed.

(** The items of a harvest over summaries with pairwise distinct ids:
    each carries the id of its summary and a version number, and no two
    carry the same pair. *)
Lemma for_list_tagged fuel from_date contents ids :
  Forall2 (fun c id => summary_id c = Return id) contents ids ->
  NoDup ids ->
  (forall c cid, In c contents -> getitem c "id" = Return cid ->
                 echoes fuel cid from_date) ->
  exists tags : list (string * Z),
    NoDup tags /\
    Forall (fun t => In (fst t) ids) tags /\
    Forall2 (fun item t =>
               metadata_id item = Return (fst t ++ "#v" ++ str_int (snd t))%string)
      (yields (events (for_list contents (fetch_items_body fuel from_date)))) tags.
Proof.
  induction 1 as [|c id contents ids Hc _ IH]; intros Hnd He.
  - exists []. repeat split; constructor.
  - inversion Hnd as [|? ? Hnotin Hnd']; subst.
    destruct IH as (tags & Ht1 & Ht2 & Ht3); [assumption|intros; eapply He; [right|]; eauto|].
    unfold Confluence.summary_id in Hc.
    destruct (getitem c "id") as [cid|e|] eqn:Hcid; cbn [bind] in Hc; try discriminate.
    destruct (fetch_items_body_tagged fuel from_date c cid id Hcid Hc)
      as (vs & Hvs & HF); [eapply He; [left; reflexivity|exact Hcid]|].
    assert (Hhead : NoDup (map (pair id) vs) /\
                    Forall (fun t => In (fst t) (id :: ids)) (map (pair id) vs) /\
                    Forall2 (fun item t =>
                      metadata_id item = Return (fst t ++ "#v" ++ str_int (snd t))%string)
                      (yields (events (fetch_items_body fuel from_date c)))
                      (map (pair id) vs)).
    { split; [|split].
      - apply NoDup_map_injective; [|assumption]. now intros x y [= ->].
      - rewrite Forall_forall. intros t. rewrite in_map_iff.
        intros (v & <- & _). now left.
      - clear -HF. induction HF; cbn; constructor; auto. }
    destruct Hhead as (Hh1 & Hh2 & Hh3).
    rewrite for_list_cons. unfold seq.
    destruct (final (fetch_items_body fuel from_date c)); cbn;
      try solve [exists (map (pair id) vs); rewrite ?app_nil_r; auto].
    exists (map (pair id) vs ++ tags)%list. rewrite yields_app. split; [|split].
    + apply NoDup_app; auto. intros t. rewrite in_map_iff.
      intros (v & <- & _) Hin. rewrite Forall_forall in Ht2.
      apply Ht2 in Hin. cbn in Hin. auto.
    + apply Forall_app. split; [assumption|].
      eapply Forall_impl; [|exact Ht2]. intros t Ht. now right.
    + apply Forall2_app; assumption.
Qed.

End Harvest.

(* ================================================================== *)
(** ** The summary paginator *)

Section Paginator.

Variable client_fetch : string -> dict -> exn + json.
Variable urijoin : string -> string -> string.
Variable base_url : string.
Variable add_ancestors : bool.

Local Abbreviation _call_loop := (ConfluenceClient._call_loop client_fetch urijoin base_url).
Local Abbreviation contents :=
  (ConfluenceClient.contents client_fetch urijoin base_url add_ancestors).
Local Abbreviation search_url := (ConfluenceClient.search_url base_url add_ancestors).
Local Abbreviation search_params := ConfluenceClient.search_params.
Local Abbreviation continuation_requests :=
  (ConfluenceClient.continuation_requests urijoin base_url).
Local Abbreviation pages_from := (ConfluenceClient.pages_from client_fetch urijoin base_url).

(** [contents] is one call of the search resource. *)
Lemma contents_call fuel from_date offset max_contents :
  contents fuel from_date offset max_contents =
  _call_loop fuel search_url (search_params from_date offset max_contents).
Proof.
  unfold ConfluenceClient.contents. rewrite for_each_yield.
  unfold ConfluenceClient._call, ConfluenceClient.search_url,
    ConfluenceClient.search_params.
  destruct (truthy offset); reflexivity.
Qed.

Lemma pages_from_length u params pages :
  pages_from u params pages ->
  S (List.length (continuation_requests pages)) = List.length pages.
Proof.
  induction 1 as [u params body Hf Hn|u params body r rest Hf Hc Hrest IH]; cbn.
  - unfold ConfluenceClient.continuation. now rewrite Hn.
  - rewrite Hc. cbn. now rewrite IH.
Qed.

End Paginator.

(* ================================================================== *)
(** ** The properties of the harvesting protocol *)

Section Protocol.

Variable client_fetch : string -> dict -> exn + json.
Variable str_to_datetime : json -> exn + datetime.
Variable urijoin : string -> string -> string.
Variable url : string.
Variable self_add_ancestors : bool.

Local Abbreviation historical_content :=
  (ConfluenceClient.historical_content client_fetch urijoin (Confluence.client_base_url url)).
Local Abbreviation fetched :=
  (ConfluenceClient.fetched client_fetch urijoin (Confluence.client_base_url url)).
Local Abbreviation walk_loop :=
  (Confluence.fetch_historical_contents_loop client_fetch str_to_datetime urijoin url).
Local Abbreviation fetch_historical_contents :=
  (Confluence.fetch_historical_contents client_fetch str_to_datetime urijoin url).
Local Abbreviation fetch_contents_summary :=
  (Confluence.fetch_contents_summary client_fetch urijoin url self_add_ancestors).
Local Abbreviation fetch_items_body :=
  (Confluence.fetch_items_body client_fetch str_to_datetime urijoin url).
Local Abbreviation fetch_items :=
  (Confluence.fetch_items client_fetch str_to_datetime urijoin url self_add_ancestors).
Local Abbreviation fetch_items_lazy :=
  (Confluence.fetch_items_lazy client_fetch str_to_datetime urijoin url self_add_ancestors).
Local Abbreviation fetch :=
  (Confluence.fetch client_fetch str_to_datetime urijoin url self_add_ancestors).
Local Abbreviation version_when := (Confluence.version_when str_to_datetime).
Local Abbreviation passes := (Confluence.passes str_to_datetime).
Local Abbreviation metadata_updated_on := (Confluence.metadata_updated_on str_to_datetime).
Local Abbreviation metadata_id := Confluence.metadata_id.
Local Abbreviation skipped_log := Confluence.skipped_log.
Local Abbreviation history_latest := Confluence.history_latest.
Local Abbreviation recoverable := Confluence.recoverable.
Local Abbreviation normalize := (Confluence.normalize url).
Local Abbreviation content_url_of := (Confluence.content_url_of urijoin url).
Local Abbreviation echoes := (Confluence.echoes client_fetch str_to_datetime urijoin url).
Local Abbreviation version_number := Confluence.version_number.
Local Abbreviation summary_id := Confluence.summary_id.
Local Abbreviation flagged_latest := (Confluence.flagged_latest client_fetch url).
Local Abbreviation fails_recoverably := (Confluence.fails_recoverably client_fetch url).
Local Abbreviation single_request := (Confluence.single_request client_fetch url).
Local Abbreviation base_url := (Confluence.client_base_url url).
Local Abbreviation contents :=
  (ConfluenceClient.contents client_fetch urijoin base_url self_add_ancestors).
Local Abbreviation _call := (ConfluenceClient._call client_fetch urijoin base_url).
Local Abbreviation search_url := (ConfluenceClient.search_url base_url self_add_ancestors).
Local Abbreviation search_params := ConfluenceClient.search_params.
Local Abbreviation continuation_requests :=
  (ConfluenceClient.continuation_requests urijoin base_url).
Local Abbreviation pages_from := (ConfluenceClient.pages_from client_fetch urijoin base_url).
Local Abbreviation add_ancestors := Confluence.add_ancestors.

Lemma passes_iff from_date hc :
  passes from_date hc = true <->
  exists when, version_when hc = Return when /\ instant from_date <= instant when.
Proof.
  unfold Confluence.passes, ge. destruct (version_when hc) as [when|e|]; split.
  - intros H. exists when. split; [reflexivity|]. now apply Z.leb_le.
  - intros (w & [= <-] & H). now apply Z.leb_le.
  - discriminate.
  - intros (w & H & _). discriminate.
  - discriminate.
  - intros (w & H & _). discriminate.
Qed.

Lemma walk_yields_pass fuel cid from_date hc :
  In hc (yields (events (fetch_historical_contents fuel cid from_date))) ->
  passes from_date hc = true.
Proof.
  unfold Confluence.fetch_historical_contents.
  rewrite (walk_yields client_fetch str_to_datetime urijoin url).
  rewrite filter_In. tauto.
Qed.

(** C1. Whatever the checkpoint, the walk emits exactly those fetched
    versions whose update time is at or after it; a version updated
    before the checkpoint is not emitted and the walk goes on to the
    next version number; and every item of the harvest has an update
    timestamp at or after the checkpoint. *)
Theorem checkpoint_filter fuel from_date :
  (forall cid,
     let walk := events (fetch_historical_contents fuel cid from_date) in
     yields walk =
     filter (passes from_date) (fetched fuel cid (requested_versions walk))) /\
  (forall hc,
     passes from_date hc = true <->
     exists when, version_when hc = Return when /\ instant from_date <= instant when) /\
  (forall n cid v hc when latest,
     final (historical_content fuel cid v) = Return hc ->
     version_when hc = Return when ->
     instant when < instant from_date ->
     skipped_log hc = Return tt ->
     history_latest hc = Return latest ->
     truthy latest = false ->
     walk_loop fuel (S n) cid from_date v =
     Run (events (historical_content fuel cid v) ++
          events (walk_loop fuel n cid from_date (v + 1)))
         (final (walk_loop fuel n cid from_date (v + 1)))) /\
  Forall (fun item =>
            exists ts, metadata_updated_on item = Return ts /\
                       (timestamp from_date <= ts)%Q)
    (yields (events (fetch_items fuel from_date))).
Proof.
  split; [|split; [|split]].
  - intros cid. apply walk_yields.
  - apply passes_iff.
  - intros n cid v hc when latest Hf Hw Hlt Hs Hl Ht.
    rewrite (walk_round_fetched client_fetch str_to_datetime urijoin url
               fuel n cid from_date v hc Hf), Hw. unfold ge.
    replace (instant from_date <=? instant when) with false
      by (symmetry; apply Z.leb_gt; assumption).
    cbn zeta. rewrite Hs, Hl, Ht. reflexivity.
  - rewrite Forall_forall. intros item Hin.
    apply fetch_items_yields in Hin.
    destruct Hin as (content & cid & u & hc & _ & _ & _ & Hhc & Hn).
    apply walk_yields_pass, passes_iff in Hhc. destruct Hhc as (when & Hw & Hle).
    exists (timestamp when). unfold Confluence.metadata_updated_on.
    destruct (normalize_identity str_to_datetime url _ _ _ _ Hn) as [_ ->].
    rewrite Hw. split; [reflexivity|].
    unfold timestamp, Qle. cbn. lia.
Qed.


Lemma recoverable_iff code : recoverable code = true <-> code = 404 \/ code = 500.
Proof. unfold Confluence.recoverable. rewrite orb_true_iff, !Z.eqb_eq. tauto. Qed.

(** The loop body of the harvest ends as the walk does, when the
    normaliser returns on each version of the walk. *)
Lemma fetch_items_body_final fuel from_date content cid u :
  getitem content "id" = Return cid ->
  content_url_of content = Return u ->
  Forall (fun hc => exists item, normalize u content hc = Return item)
    (yields (events (fetch_historical_contents fuel cid from_date))) ->
  final (fetch_items_body fuel from_date content) =
  final (fetch_historical_contents fuel cid from_date).
Proof.
  intros Hid Hu HF.
  rewrite (fetch_items_body_walk client_fetch str_to_datetime urijoin url
             fuel from_date content cid u Hid Hu).
  unfold for_each. now apply for_events_map_all.
Qed.



(** C4, amended. When no response to the requests for versions 1 to N
    is paginated, and version N is flagged latest or some version up to
    N fails with status 404 or 500, the walk ends, with at most N
    requests. *)
Theorem walk_is_finite fuel cid id from_date N :
  str cid = Return id ->
  1 <= N ->
  (Z.to_nat N <= fuel)%nat ->
  (forall v, 1 <= v <= N -> single_request id v) ->
  flagged_latest id N \/ (exists k, 1 <= k <= N /\ fails_recoverably id k) ->
  let walk := fetch_historical_contents fuel cid from_date in
  final walk <> Diverge /\
  Z.of_nat (List.length (requests (events walk))) <= N.
Proof.
  intros Hid HN Hfuel Hsingle Hstop. cbn zeta.
  unfold Confluence.fetch_historical_contents.
  destruct fuel as [|fuel]; [lia|].
  destruct Hstop as [Hl|(k & Hk & Hf)].
  - destruct (walk_terminates client_fetch str_to_datetime urijoin url
                fuel cid id from_date N Hid (or_introl Hl) (S fuel) 1)
      as [Hd Hlen]; try lia; auto. split; [exact Hd|lia].
  - destruct (walk_terminates client_fetch str_to_datetime urijoin url
                fuel cid id from_date k Hid (or_intror Hf) (S fuel) 1)
      as [Hd Hlen]; try lia; [intros; apply Hsingle; lia|]. split; [exact Hd|lia].
Qed.


Lemma parse_contents_summary_list page l :
  getitem page "results" = Return (JArr l) ->
  for_each (Confluence.parse_contents_summary page) (fun cs => yield cs) =
  Run (map Yield l) (Return tt).
Proof.
  intros H. rewrite for_each_yield. unfold Confluence.parse_contents_summary.
  rewrite seq_lift, H, seq_lift. cbn [iterate]. apply for_list_yield.
Qed.

(** C5. On a server whose summary pages form a chain ending with a page
    without [next] link, the paginator sends one request per page, the
    first with the query and each further one to the [next] link of the
    page before, and yields the summaries of all pages in page order;
    three pages of 2, 2 and 1 summaries give 5 summaries from 3
    requests. *)
Theorem summary_pagination fuel from_date pages results :
  pages_from search_url (search_params from_date JNull MAX_CONTENTS) pages ->
  Forall2 (fun page l => getitem page "results" = Return (JArr l)) pages results ->
  (List.length pages <= fuel)%nat ->
  let r := fetch_contents_summary fuel from_date in
  final r = Return tt /\
  requests (events r) =
    (search_url, search_params from_date JNull MAX_CONTENTS)
    :: continuation_requests pages /\
  List.length (requests (events r)) = List.length pages /\
  yields (events r) = List.concat results /\
  (map (@List.length json) results = [2; 2; 1]%nat ->
   List.length (yields (events r)) = 5%nat /\
   List.length (requests (events r)) = 3%nat).
Proof.
  intros Hpages Hres Hfuel. cbn zeta.
  unfold Confluence.fetch_contents_summary, for_each.
  rewrite (contents_call client_fetch urijoin base_url self_add_ancestors).
  destruct (call_loop_pages client_fetch urijoin base_url _ _ _ Hpages fuel Hfuel)
    as (Hf & Hy & Hr).
  rewrite Hf.
  destruct (for_events_expand
              (events (ConfluenceClient._call_loop client_fetch urijoin base_url fuel
                         search_url (search_params from_date JNull MAX_CONTENTS)))
              (Return tt)
              (fun page => for_events (events (Confluence.parse_contents_summary page))
                             (final (Confluence.parse_contents_summary page))
                             (fun cs => yield cs))
              results) as (Hf' & Hr' & Hy').
  { rewrite Hy. eapply Forall2_weaken; [|exact Hres].
    cbn. intros page l Hl. now apply parse_contents_summary_list. }
  assert (Hlen : List.length (requests (events
             (for_events
                (events (ConfluenceClient._call_loop client_fetch urijoin base_url fuel
                           search_url (search_params from_date JNull MAX_CONTENTS)))
                (Return tt)
                (fun page => for_events (events (Confluence.parse_contents_summary page))
                               (final (Confluence.parse_contents_summary page))
                               (fun cs => yield cs))))) = List.length pages).
  { rewrite Hr', Hr. cbn [List.length].
    apply (pages_from_length client_fetch urijoin base_url _ _ _ Hpages). }
  split; [exact Hf'|]. split; [now rewrite Hr', Hr|]. split; [exact Hlen|].
  split; [exact Hy'|].
  intros Hsizes. split.
  - rewrite Hy'. destruct results as [|r1 [|r2 [|r3 [|]]]]; try discriminate.
    injection Hsizes as H1 H2 H3. cbn. rewrite !length_app, H1, H2, H3. reflexivity.
  - rewrite Hlen, (Forall2_length Hres), <- (length_map (@List.length json)), Hsizes.
    reflexivity.
Qed.

(** C10. In one paginated call the parameters go with the first request
    only: every further request is sent to the [next] link of the
    response before it, with no parameters. For [contents] the first
    request carries the CQL date filter, the limit and, when an offset
    is given, the start offset. *)
Theorem continuation_parameters fuel :
  (forall resource params,
     let evs := events (_call (S fuel) resource params) in
     exists later tail,
       requests evs = (base_url ++ "/rest/api/" ++ resource, params)%string :: later /\
       Forall (fun r => snd r = []) later /\
       continuation_requests (yields evs) = (later ++ tail)%list) /\
  (forall from_date offset max_contents,
     let evs := events (contents (S fuel) from_date offset max_contents) in
     exists later tail,
       requests evs =
         (search_url,
          [("cql", JStr (ConfluenceClient.VCQL (strftime_minutes from_date)));
           ("limit", JNum max_contents)]
          ++ (if truthy offset then [("start", offset)] else []))%list :: later /\
       Forall (fun r => snd r = []) later /\
       continuation_requests (yields evs) = (later ++ tail)%list).
Proof.
  assert (H : forall u params,
            let evs := events (ConfluenceClient._call_loop client_fetch urijoin base_url
                                 (S fuel) u params) in
            exists later tail,
              requests evs = (u, params) :: later /\
              Forall (fun r => snd r = []) later /\
              continuation_requests (yields evs) = (later ++ tail)%list).
  { intros u params. cbn zeta.
    destruct (call_loop_requests client_fetch urijoin base_url (S fuel) u params)
      as [[? _]|(later & tail & Hr & Hc)]; [discriminate|].
    exists later, tail. split; [exact Hr|]. split; [|exact Hc].
    pose proof (continuation_requests_params urijoin base_url
                  (yields (events (ConfluenceClient._call_loop client_fetch urijoin
                                     base_url (S fuel) u params)))) as HF.
    rewrite Hc in HF. apply Forall_app in HF. tauto. }
  split.
  - intros resource params. apply H.
  - intros from_date offset max_contents.
    rewrite (contents_call client_fetch urijoin base_url self_add_ancestors). apply H.
Qed.

Lemma truncated_minute i : (i - i mod 60000000) / 60000000 = i / 60000000.
Proof.
  rewrite (Z.div_mod i 60000000) at 1 by lia.
  replace (60000000 * (i / 60000000) + i mod 60000000 - i mod 60000000)
    with (i / 60000000 * 60000000) by lia.
  apply Z.div_mul. lia.
Qed.



(** C6, amended. The identity of an item is its id, [#v] and its version
    number (28979#v10 for version 10 of content 28979), and two ids that
    differ give identities that differ at the same version number. When
    the summaries of a harvest carry pairwise distinct ids and the
    server answers each request with the version asked for, the
    identities of the items of the harvest are pairwise distinct. *)
Theorem identity_unique fuel from_date ids :
  (forall item cid number a b,
     getitem item "id" = Return cid ->
     version_number item = Return number ->
     str cid = Return a -> str number = Return b ->
     metadata_id item = Return (a ++ "#v" ++ b)%string) /\
  metadata_id (JObj [("id", JStr "28979"); ("version", JObj [("number", JNum 10)])])
    = Return "28979#v10"%string /\
  (forall a1 a2 n,
     a1 <> a2 -> (a1 ++ "#v" ++ str_int n)%string <> (a2 ++ "#v" ++ str_int n)%string) /\
  (Forall2 (fun c id => summary_id c = Return id)
     (yields (events (fetch_contents_summary fuel from_date))) ids ->
   NoDup ids ->
   (forall c cid,
      In c (yields (events (fetch_contents_summary fuel from_date))) ->
      getitem c "id" = Return cid -> echoes fuel cid from_date) ->
   exists identities,
     Forall2 (fun item s => metadata_id item = Return s)
       (yields (events (fetch_items fuel from_date))) identities /\
     NoDup identities).
Proof.
  split; [|split; [|split]].
  - intros item cid number a b Hid Hn Ha Hb.
    unfold Confluence.metadata_id, Confluence.version_number in *. rewrite Hid. cbn [bind].
    destruct (getitem item "version") as [version|e|]; cbn [bind] in *; try discriminate.
    rewrite Hn. cbn [bind]. rewrite Ha. cbn [bind]. now rewrite Hb.
  - reflexivity.
  - intros a1 a2 n Hne H. apply identity_inj in H. tauto.
  - intros Hids Hnd Hecho.
    destruct (fetch_items_events client_fetch str_to_datetime urijoin url
                self_add_ancestors fuel from_date) as [-> _].
    rewrite yields_app, yields_sent. cbn [app].
    destruct (final (fetch_contents_summary fuel from_date));
      try (exists []; split; constructor).
    destruct (for_list_tagged client_fetch str_to_datetime urijoin url
                fuel from_date _ ids Hids Hnd Hecho) as (tags & Ht1 & _ & Ht3).
    exists (map (fun t => (fst t ++ "#v" ++ str_int (snd t))%string) tags). split.
    + clear -Ht3. induction Ht3; cbn; constructor; auto.
    + apply NoDup_map_injective; [|exact Ht1].
      intros [a1 n1] [a2 n2] H. cbn in H. apply identity_inj in H.
      destruct H as [-> ->]. reflexivity.
Qed.


(** C9, amended. The harvest first drains the summary sequence into a
    list, sending every summary request before the first version
    request, and then takes the summaries one at a time in order,
    draining the version walk of each before the next. Once the
    summaries are all received it yields the same items, in the same
    order, as the flat-map over the summary sequence, and ends the same
    way. *)
Theorem summaries_drained_first fuel from_date :
  let S := fetch_contents_summary fuel from_date in
  let body := fetch_items_body fuel from_date in
  events (fetch_items fuel from_date) =
    (sent (requests (events S)) ++
     match final S with
     | Return _ => events (for_list (yields (events S)) body)
     | _ => []
     end)%list /\
  (forall content rest,
     events (for_list (content :: rest) body) =
     (events (body content) ++
      match final (body content) with
      | Return _ => events (for_list rest body)
      | _ => []
      end)%list) /\
  (final S = Return tt ->
   yields (events (fetch_items fuel from_date)) =
     yields (events (fetch_items_lazy fuel from_date)) /\
   final (fetch_items fuel from_date) = final (fetch_items_lazy fuel from_date)).
Proof.
  cbn zeta. split; [|split].
  - apply fetch_items_events.
  - intros content rest. rewrite for_list_cons. unfold seq.
    destruct (final (fetch_items_body fuel from_date content)); cbn;
      now rewrite ?app_nil_r.
  - apply fetch_items_lazy_same.
Qed.

End Protocol.

(* ================================================================== *)
(** ** The protocol on the example servers *)

Local Abbreviation wiki_content :=
  (ConfluenceClient.historical_content Demo.wiki_fetch Demo.urijoin
     (Confluence.client_base_url Demo.wiki)).
Local Abbreviation wiki_walk_loop :=
  (Confluence.fetch_historical_contents_loop Demo.wiki_fetch Demo.str_to_datetime
     Demo.urijoin Demo.wiki).
Local Abbreviation wiki_walk :=
  (Confluence.fetch_historical_contents Demo.wiki_fetch Demo.str_to_datetime
     Demo.urijoin Demo.wiki).
Local Abbreviation wiki_summaries :=
  (Confluence.fetch_contents_summary Demo.wiki_fetch Demo.urijoin Demo.wiki false).
Local Abbreviation wiki_items :=
  (Confluence.fetch_items Demo.wiki_fetch Demo.str_to_datetime Demo.urijoin
     Demo.wiki false).
Local Abbreviation wiki_items_lazy :=
  (Confluence.fetch_items_lazy Demo.wiki_fetch Demo.str_to_datetime Demo.urijoin
     Demo.wiki false).
Local Abbreviation wiki_when := (Confluence.version_when Demo.str_to_datetime).
Local Abbreviation wiki_passes := (Confluence.passes Demo.str_to_datetime).

(** C1 on the example wiki: the first version of content 101 dates from
    January 2016; with a checkpoint in June it is skipped and the walk
    goes on to version 2. *)
Lemma checkpoint_filter_witness :
  let hc := Demo.snapshot "101" 1 "2016-01-10T09:00:00.000Z" false in
  final (wiki_content 10%nat (JStr "101") 1) = Return hc /\
  wiki_when hc = Return (utc 1452416400000000) /\
  instant (utc 1452416400000000) < instant Demo.june_2016 /\
  wiki_walk_loop 10%nat 3%nat (JStr "101") Demo.june_2016 1 =
  Run (events (wiki_content 10%nat (JStr "101") 1) ++
       events (wiki_walk_loop 10%nat 2%nat (JStr "101") Demo.june_2016 2))
      (final (wiki_walk_loop 10%nat 2%nat (JStr "101") Demo.june_2016 2)).
Proof.
  cbn zeta. split; [vm_compute; reflexivity|]. split; [vm_compute; reflexivity|].
  split; [vm_compute; reflexivity|].
  apply (proj1 (proj2 (proj2
           (checkpoint_filter Demo.wiki_fetch Demo.str_to_datetime Demo.urijoin
              Demo.wiki false 10%nat Demo.june_2016))))
    with (hc := Demo.snapshot "101" 1 "2016-01-10T09:00:00.000Z" false)
         (when := utc 1452416400000000) (latest := JBool false);
    vm_compute; reflexivity.
Defined.



(** C4 as amended, on the example wiki: no answer for versions 1 to 3
    of content 101 is paginated and version 3 is the latest. *)
Lemma walk_is_finite_witness :
  let walk := wiki_walk 10%nat (JStr "101") Demo.june_2016 in
  (forall v, 1 <= v <= 3 -> Confluence.single_request Demo.wiki_fetch Demo.wiki "101" v) /\
  Confluence.flagged_latest Demo.wiki_fetch Demo.wiki "101" 3 /\
  final walk <> Diverge /\
  Z.of_nat (List.length (requests (events walk))) <= 3.
Proof.
  cbn zeta.
  assert (Hs : forall v, 1 <= v <= 3 ->
                Confluence.single_request Demo.wiki_fetch Demo.wiki "101" v).
  { intros v Hv. assert (v = 1 \/ v = 2 \/ v = 3) as [-> | [-> | ->]] by lia;
      intros body next H; vm_compute in H; injection H as <-; vm_compute; discriminate. }
  assert (Hl : Confluence.flagged_latest Demo.wiki_fetch Demo.wiki "101" 3).
  { eexists. eexists. split; [vm_compute; reflexivity|]. split; vm_compute; reflexivity. }
  split; [exact Hs|]. split; [exact Hl|].
  apply (walk_is_finite Demo.wiki_fetch Demo.str_to_datetime Demo.urijoin Demo.wiki
           10%nat (JStr "101") "101" Demo.june_2016 3);
    [reflexivity|lia|vm_compute; lia|exact Hs|left; exact Hl].
Defined.

Lemma endless_call fuel :
  final (ConfluenceClient._call_loop Demo.endless_fetch Demo.urijoin
           (Confluence.client_base_url Demo.wiki) fuel
           (Demo.api "content/7/more") []) = Diverge.
Proof.
  induction fuel as [|fuel IH]; [reflexivity|].
  rewrite call_loop_round.
  replace (Demo.endless_fetch (Demo.api "content/7/more") [])
    with (@inr exn json Demo.endless_more) by (vm_compute; reflexivity).
  replace (ConfluenceClient.next_link Demo.endless_more)
    with (Return (Some (JStr "/rest/api/content/7/more"))) by reflexivity.
  cbn [str].
  replace (Demo.urijoin (Confluence.client_base_url Demo.wiki) "/rest/api/content/7/more")
    with (Demo.api "content/7/more") by (vm_compute; reflexivity).
  cbn zeta. cbn [final]. exact IH.
Qed.

(** C4 as stated fails on a server that paginates the answer for
    version 1 without end: version 2 is flagged latest, and the walk
    never ends. *)
Lemma endless_walk :
  Confluence.flagged_latest Demo.endless_fetch Demo.wiki "7" 2 /\
  forall fuel,
    final (Confluence.fetch_historical_contents Demo.endless_fetch Demo.str_to_datetime
             Demo.urijoin Demo.wiki fuel (JStr "7") Demo.june_2016) = Diverge.
Proof.
  split.
  - eexists. eexists. split; [vm_compute; reflexivity|]. split; vm_compute; reflexivity.
  - intros [|fuel]; [reflexivity|].
    unfold Confluence.fetch_historical_contents.
    assert (HF : final (ConfluenceClient.historical_content Demo.endless_fetch Demo.urijoin
                          (Confluence.client_base_url Demo.wiki) (S fuel) (JStr "7") 1)
                 = Diverge).
    { rewrite historical_content_final. cbn [str bind].
      unfold ConfluenceClient._call. rewrite call_loop_round.
      replace (Demo.endless_fetch _ (ConfluenceClient.version_params 1))
        with (@inr exn json Demo.endless_first) by (vm_compute; reflexivity).
      replace (ConfluenceClient.next_link Demo.endless_first)
        with (Return (Some (JStr "/rest/api/content/7/more"))) by reflexivity.
      cbn [str].
      replace (Demo.urijoin (Confluence.client_base_url Demo.wiki)
                 "/rest/api/content/7/more")
        with (Demo.api "content/7/more") by (vm_compute; reflexivity).
      cbn zeta. cbn [final]. now rewrite endless_call. }
    destruct (walk_round_failed Demo.endless_fetch Demo.str_to_datetime Demo.urijoin
                Demo.wiki (S fuel) fuel (JStr "7") Demo.june_2016 1) as [_ ->].
    + rewrite HF. discriminate.
    + now rewrite HF.
Qed.

(** C5 on the example wiki: three pages of 2, 2 and 1 summaries. *)
Lemma summary_pagination_witness :
  let r := wiki_summaries 10%nat Demo.june_2016 in
  ConfluenceClient.pages_from Demo.wiki_fetch Demo.urijoin
    (Confluence.client_base_url Demo.wiki)
    (ConfluenceClient.search_url (Confluence.client_base_url Demo.wiki) false)
    (ConfluenceClient.search_params Demo.june_2016 JNull MAX_CONTENTS)
    [Demo.page1; Demo.page2; Demo.page3] /\
  final r = Return tt /\
  List.length (yields (events r)) = 5%nat /\
  List.length (requests (events r)) = 3%nat.
Proof.
  cbn zeta.
  assert (Hp : ConfluenceClient.pages_from Demo.wiki_fetch Demo.urijoin
                 (Confluence.client_base_url Demo.wiki)
                 (ConfluenceClient.search_url (Confluence.client_base_url Demo.wiki) false)
                 (ConfluenceClient.search_params Demo.june_2016 JNull MAX_CONTENTS)
                 [Demo.page1; Demo.page2; Demo.page3]).
  { apply ConfluenceClient.pages_more
      with (r := (Demo.api "content/search?start=2", [])); try (vm_compute; reflexivity).
    apply ConfluenceClient.pages_more
      with (r := (Demo.api "content/search?start=4", [])); try (vm_compute; reflexivity).
    apply ConfluenceClient.pages_last; vm_compute; reflexivity. }
  split; [exact Hp|].
  destruct (summary_pagination Demo.wiki_fetch Demo.urijoin Demo.wiki false 10%nat
              Demo.june_2016 [Demo.page1; Demo.page2; Demo.page3]
              [[Demo.summary "101" "/display/A" []; Demo.summary "102" "/display/B" []];
               [Demo.summary "103" "/display/C" []; Demo.summary "104" "/display/D" []];
               [Demo.summary105]] Hp)
    as (Hf & _ & _ & _ & Hsizes).
  - repeat constructor.
  - vm_compute. lia.
  - split; [exact Hf|]. apply Hsizes. reflexivity.
Defined.

(** C6 as stated fails when a content is listed on two summary pages:
    its walk runs twice and the identity 7#v1 is yielded twice in one
    harvest. *)
Lemma relisted_identity :
  let items := yields (events (Confluence.fetch Demo.relisting_fetch Demo.str_to_datetime
                                 Demo.urijoin Demo.wiki false 10%nat None)) in
  map Confluence.metadata_id items = [Return "7#v1"; Return "8#v1"; Return "7#v1"]%string /\
  ~ NoDup (map Confluence.metadata_id items).
Proof.
  cbn zeta.
  assert (E : map Confluence.metadata_id
                (yields (events (Confluence.fetch Demo.relisting_fetch
                                   Demo.str_to_datetime Demo.urijoin Demo.wiki false
                                   10%nat None)))
              = [Return "7#v1"; Return "8#v1"; Return "7#v1"]%string)
    by (vm_compute; reflexivity).
  split; [exact E|]. rewrite E. intros H. inversion H as [|? ? Hn _]; subst.
  apply Hn. right. left. reflexivity.
Qed.

(** C6 as amended, on the example wiki: five summaries with five ids. *)
Lemma identity_unique_witness :
  let ids := ["101"; "102"; "103"; "104"; "105"]%string in
  Forall2 (fun c id => Confluence.summary_id c = Return id)
    (yields (events (wiki_summaries 10%nat Demo.june_2016))) ids /\
  NoDup ids /\
  exists identities,
    Forall2 (fun item s => Confluence.metadata_id item = Return s)
      (yields (events (wiki_items 10%nat Demo.june_2016))) identities /\
    NoDup identities.
Proof.
  cbn zeta.
  assert (Hids : Forall2 (fun c id => Confluence.summary_id c = Return id)
                   (yields (events (wiki_summaries 10%nat Demo.june_2016)))
                   ["101"; "102"; "103"; "104"; "105"]%string).
  { vm_compute. repeat constructor. }
  assert (Hnd : NoDup ["101"; "102"; "103"; "104"; "105"]%string).
  { repeat constructor; cbn; intuition discriminate. }
  split; [exact Hids|]. split; [exact Hnd|].
  apply (proj2 (proj2 (proj2
           (identity_unique Demo.wiki_fetch Demo.str_to_datetime Demo.urijoin Demo.wiki
              false 10%nat Demo.june_2016 ["101"; "102"; "103"; "104"; "105"]%string))));
    [exact Hids|exact Hnd|].
  intros c cid Hc. vm_compute in Hc.
  destruct Hc as [<-|[<-|[<-|[<-|[<-|[]]]]]]; intros H; vm_compute in H; injection H as <-;
    intros v hc Hin; vm_compute in Hin;
    repeat (destruct Hin as [<-|Hin];
            [intros Hf; vm_compute in Hf; first [discriminate|injection Hf as <-];
             (split; [eexists; split; reflexivity|reflexivity])|]);
    destruct Hin.
Defined.




(** C9 as stated fails on the example wiki: the harvest asks for the
    three summary pages before the first version, where the flat-map
    over the summary sequence asks for the first version of content 101
    right after the first page. *)
Lemma summaries_not_lazy :
  let eager := requests (events (wiki_items 10%nat Demo.june_2016)) in
  let lazy := requests (events (wiki_items_lazy 10%nat Demo.june_2016)) in
  map fst (firstn 4 eager) =
    [Demo.api "content/search"; Demo.api "content/search?start=2";
     Demo.api "content/search?start=4"; Demo.api "content/101"] /\
  map fst (firstn 4 lazy) =
    [Demo.api "content/search"; Demo.api "content/101";
     Demo.api "content/101"; Demo.api "content/101"] /\
  events (wiki_items 10%nat Demo.june_2016) <>
  events (wiki_items_lazy 10%nat Demo.june_2016).
Proof.
  cbn zeta. split; [vm_compute; reflexivity|]. split; [vm_compute; reflexivity|].
  intros H. apply (f_equal (fun evs => map fst (firstn 2 (requests evs)))) in H.
  vm_compute in H. discriminate.
Qed.

(** C9 as amended, on the example wiki. *)
Lemma summaries_drained_first_witness :
  final (wiki_summaries 10%nat Demo.june_2016) = Return tt /\
  yields (events (wiki_items 10%nat Demo.june_2016)) =
    yields (events (wiki_items_lazy 10%nat Demo.june_2016)) /\
  final (wiki_items 10%nat Demo.june_2016) = final (wiki_items_lazy 10%nat Demo.june_2016).
Proof.
  assert (HS : final (wiki_summaries 10%nat Demo.june_2016) = Return tt)
    by (vm_compute; reflexivity).
  split; [exact HS|].
  exact (proj2 (proj2 (summaries_drained_first Demo.wiki_fetch Demo.str_to_datetime
                         Demo.urijoin Demo.wiki false 10%nat Demo.june_2016)) HS).
Defined.

(* ================================================================== *)
(** ** Further properties of the Confluence client and backend *)

Section ClientCalls.

Variable client_fetch : string -> dict -> exn + json.
Variable urijoin : string -> string -> string.
Variable base_url : string.

Local Abbreviation _call_loop := (ConfluenceClient._call_loop client_fetch urijoin base_url).
Local Abbreviation _call := (ConfluenceClient._call client_fetch urijoin base_url).
Local Abbreviation historical_content :=
  (ConfluenceClient.historical_content client_fetch urijoin base_url).
Local Abbreviation version_params := ConfluenceClient.version_params.
Local Abbreviation content_url := (ConfluenceClient.content_url base_url).

(** A call that returns has yielded the answer to its first request. *)
Lemma call_loop_first fuel u params :
  final (_call_loop fuel u params) = Return tt ->
  exists body rest,
    yields (events (_call_loop fuel u params)) = body :: rest /\
    client_fetch u params = inr body.
Proof.
  destruct fuel as [|fuel]; [discriminate|].
  rewrite call_loop_round.
  destruct (client_fetch u params) as [e|body]; [discriminate|].
  intros _. exists body.
  destruct (ConfluenceClient.next_link body) as [[next|]|e|]; cbn;
    try destruct (str next); cbn; eexists; split; reflexivity.
Qed.

(** X1. The index [response[0]] of [historical_content] is always in range:
    a call that returns has yielded a page, so that [IndexError] can
    only come out of the call itself; and what [historical_content]
    returns is the answer to its first request, the one that names the
    version, whatever pages followed. *)
Theorem historical_content_first_page fuel cid v :
  (final (historical_content fuel cid v) = Raise IndexError ->
   exists id, str cid = Return id /\
              final (_call fuel ("content" ++ "/" ++ id) (version_params v))
              = Raise IndexError) /\
  (forall raw,
     final (historical_content fuel cid v) = Return raw ->
     exists id, str cid = Return id /\
                client_fetch (content_url id) (version_params v) = inr raw).
Proof.
  rewrite historical_content_final.
  destruct (str cid) as [id|e|] eqn:Hid; cbn [bind].
  - destruct (final (_call fuel ("content" ++ "/" ++ id) (version_params v)))
      as [[]|e|] eqn:Hf; cbn [bind].
    + unfold ConfluenceClient._call in *.
      destruct (call_loop_first _ _ _ Hf) as (body & rest & -> & Hb).
      split; [discriminate|]. intros raw [= <-]. exists id. split; [reflexivity|].
      exact Hb.
    + split; [|discriminate]. intros [= ->]. exists id. auto.
    + split; discriminate.
  - destruct cid as [| [] | | | |]; cbn in Hid; try discriminate;
      injection Hid as <-; split; discriminate.
  - split; discriminate.
Qed.


(** X2. [_call] hands over each page before it asks for the next: when the
    request for a later page fails, the pages received so far have been
    yielded, and the call ends with the failure after one request more
    than it has yielded pages. A consumer that keeps the first page
    only, as [historical_content] does, then loses it to the failure. *)
Theorem call_yields_before_failure u params pages e :
  Broken.pages_then_fail client_fetch urijoin base_url u params pages e ->
  forall fuel, (List.length pages < fuel)%nat ->
  yields (events (_call_loop fuel u params)) = pages /\
  final (_call_loop fuel u params) = Raise e /\
  List.length (requests (events (_call_loop fuel u params))) = S (List.length pages) /\
  (forall cid id v,
     str cid = Return id -> u = content_url id -> params = version_params v ->
     final (historical_content fuel cid v) = Raise e).
Proof.
  assert (H : Broken.pages_then_fail client_fetch urijoin base_url u params pages e ->
              forall fuel, (List.length pages < fuel)%nat ->
              yields (events (_call_loop fuel u params)) = pages /\
              final (_call_loop fuel u params) = Raise e /\
              List.length (requests (events (_call_loop fuel u params)))
              = S (List.length pages)).
  { induction 1 as [u params e Hf|u params body r rest e Hf Hc _ IH];
      intros fuel Hfuel; (destruct fuel as [|fuel]; [cbn in Hfuel; lia|]);
      rewrite call_loop_round, Hf.
    - auto.
    - unfold ConfluenceClient.continuation in Hc.
      destruct (ConfluenceClient.next_link body) as [[next|]|e'|]; try discriminate.
      destruct (str next) as [s|e'|]; try discriminate.
      injection Hc as <-. cbn in IH.
      destruct (IH fuel) as (H1 & H2 & H3); [cbn in Hfuel; lia|].
      cbn. rewrite H1, H2, H3. auto. }
  intros Hp fuel Hfuel. destruct (H Hp fuel Hfuel) as (H1 & H2 & H3).
  repeat split; auto. intros cid id v Hid -> ->.
  rewrite historical_content_final, Hid. cbn [bind].
  unfold ConfluenceClient._call, ConfluenceClient.content_url in *. now rewrite H2.
Qed.

End ClientCalls.

Section WalkEdges.

Variable client_fetch : string -> dict -> exn + json.
Variable str_to_datetime : json -> exn + datetime.
Variable urijoin : string -> string -> string.
Variable url : string.
Variable self_add_ancestors : bool.

Local Abbreviation historical_content :=
  (ConfluenceClient.historical_content client_fetch urijoin (Confluence.client_base_url url)).
Local Abbreviation walk_loop :=
  (Confluence.fetch_historical_contents_loop client_fetch str_to_datetime urijoin url).
Local Abbreviation fetch_historical_contents :=
  (Confluence.fetch_historical_contents client_fetch str_to_datetime urijoin url).
Local Abbreviation fetch_contents_summary :=
  (Confluence.fetch_contents_summary client_fetch urijoin url self_add_ancestors).
Local Abbreviation fetch_items :=
  (Confluence.fetch_items client_fetch str_to_datetime urijoin url self_add_ancestors).
Local Abbreviation version_when := (Confluence.version_when str_to_datetime).
Local Abbreviation skipped_log := Confluence.skipped_log.
Local Abbreviation metadata_id := Confluence.metadata_id.
Local Abbreviation metadata_updated_on := (Confluence.metadata_updated_on str_to_datetime).
Local Abbreviation normalize := (Confluence.normalize url).
Local Abbreviation content_url_of := (Confluence.content_url_of urijoin url).
Local Abbreviation base_url := (Confluence.client_base_url url).
Local Abbreviation search_url := (ConfluenceClient.search_url base_url self_add_ancestors).
Local Abbreviation search_params := ConfluenceClient.search_params.

(** X3. The checkpoint filters what the walk emits and saves no request:
    when the versions on the way carry an id and a version number, two
    walks of one content with different checkpoints send the same
    requests and end the same way. *)
Theorem walk_requests_ignore_checkpoint fuel n cid from_date from_date' v0 :
  (forall v hc,
     v0 <= v < v0 + Z.of_nat n ->
     final (historical_content fuel cid v) = Return hc ->
     skipped_log hc = Return tt) ->
  requests (events (walk_loop fuel n cid from_date v0)) =
    requests (events (walk_loop fuel n cid from_date' v0)) /\
  final (walk_loop fuel n cid from_date v0) =
    final (walk_loop fuel n cid from_date' v0).
Proof.
  revert v0. induction n as [|n IH]; intros v0 Hwf; [split; reflexivity|].
  destruct (final (historical_content fuel cid v0)) as [hc|e|] eqn:E.
  - rewrite !(walk_round_fetched client_fetch str_to_datetime urijoin url
                fuel n cid _ v0 hc E).
    rewrite (Hwf v0 hc) by (auto; lia).
    destruct (IH (v0 + 1)) as [IHr IHf]; [intros v hc' Hv; apply Hwf; lia|].
    destruct (version_when hc) as [when|e|]; [|split; reflexivity..].
    destruct (ge when from_date), (ge when from_date'); cbn zeta;
      destruct (Confluence.history_latest hc) as [latest|e|]; cbn;
      try destruct (truthy latest); cbn;
      rewrite ?requests_app; cbn; rewrite ?requests_app, ?IHr, ?IHf; cbn;
      split; reflexivity.
  - destruct (walk_round_failed client_fetch str_to_datetime urijoin url
                fuel n cid from_date v0) as [-> ->]; [rewrite E; discriminate|].
    destruct (walk_round_failed client_fetch str_to_datetime urijoin url
                fuel n cid from_date' v0) as [-> ->]; [rewrite E; discriminate|].
    split; reflexivity.
  - destruct (walk_round_failed client_fetch str_to_datetime urijoin url
                fuel n cid from_date v0) as [-> ->]; [rewrite E; discriminate|].
    destruct (walk_round_failed client_fetch str_to_datetime urijoin url
                fuel n cid from_date' v0) as [-> ->]; [rewrite E; discriminate|].
    split; reflexivity.
Qed.

(** X4. A fetched version without an [id] is emitted when it passes the
    checkpoint; when it is older, the log line of the skipped version
    reads [hc['id']] and the walk ends with [KeyError], nothing
    emitted. *)
Theorem skipped_version_needs_id fuel n cid from_date v hc when :
  final (historical_content fuel cid v) = Return hc ->
  version_when hc = Return when ->
  getitem hc "id" = Raise (KeyError "id") ->
  (ge when from_date = true ->
   exists rest,
     yields (events (walk_loop fuel (S n) cid from_date v)) = hc :: rest) /\
  (ge when from_date = false ->
   yields (events (walk_loop fuel (S n) cid from_date v)) = [] /\
   final (walk_loop fuel (S n) cid from_date v) = Raise (KeyError "id")).
Proof.
  intros Hf Hw Hid.
  rewrite (walk_round_fetched client_fetch str_to_datetime urijoin url
             fuel n cid from_date v hc Hf), Hw.
  split; intros Hge; rewrite Hge; cbn zeta.
  - destruct (Confluence.history_latest hc) as [latest|e|]; cbn;
      try destruct (truthy latest); cbn;
      rewrite ?yields_app, historical_content_yields; cbn; eexists; reflexivity.
  - unfold Confluence.skipped_log. rewrite Hid. cbn.
    split; [apply historical_content_yields|reflexivity].
Qed.

(** X5. A failure while the summaries are received ends the harvest with
    that failure, whatever it is (status 404 and 500 included), before
    any item is yielded and before any version is asked for. *)
Theorem summary_failure_is_fatal fuel from_date :
  (forall e,
     final (fetch_contents_summary fuel from_date) = Raise e ->
     final (fetch_items fuel from_date) = Raise e /\
     yields (events (fetch_items fuel from_date)) = [] /\
     requests (events (fetch_items fuel from_date)) =
       requests (events (fetch_contents_summary fuel from_date))) /\
  (forall e,
     client_fetch search_url (search_params from_date JNull MAX_CONTENTS) = inl e ->
     fetch_items (S fuel) from_date =
     Run [Request search_url (search_params from_date JNull MAX_CONTENTS)] (Raise e)).
Proof.
  split.
  - intros e He.
    destruct (fetch_items_events client_fetch str_to_datetime urijoin url
                self_add_ancestors fuel from_date) as [-> ->].
    rewrite He, app_nil_r, yields_sent, requests_sent. auto.
  - intros e He. unfold Confluence.fetch_items, Confluence.fetch_contents_summary.
    rewrite (contents_call client_fetch urijoin base_url self_add_ancestors).
    unfold for_each. rewrite call_loop_round, He. reflexivity.
Qed.

Lemma normalize_content_url u content hc item :
  normalize u content hc = Return item ->
  getitem item "content_url" = Return (JStr u).
Proof.
  unfold Confluence.normalize.
  destruct hc; cbn [setitem bind]; try discriminate.
  intros H. apply add_ancestors_result in H. destruct H as [->|(l & _ & H)].
  - cbn. now rewrite lookup_assign_same.
  - rewrite (getitem_setitem_other _ _ _ _ "content_url" H) by discriminate.
    cbn. now rewrite lookup_assign_same.
Qed.

(** X6. Every item of the harvest is a version emitted by the walk of one
    of the summaries, with the URL of that summary stored under
    [content_url]; apart from [content_url] and [ancestors] its fields
    are those of the fetched version, and so are its identity and its
    update time. *)
Theorem items_are_enriched_versions fuel from_date item :
  In item (yields (events (fetch_items fuel from_date))) ->
  exists content cid u hc,
    In content (yields (events (fetch_contents_summary fuel from_date))) /\
    getitem content "id" = Return cid /\
    content_url_of content = Return u /\
    In hc (yields (events (fetch_historical_contents fuel cid from_date))) /\
    getitem item "content_url" = Return (JStr u) /\
    (forall k, k <> "content_url"%string -> k <> "ancestors"%string ->
               getitem item k = getitem hc k) /\
    metadata_id item = metadata_id hc /\
    metadata_updated_on item = metadata_updated_on hc.
Proof.
  intros Hin.
  apply (fetch_items_yields client_fetch str_to_datetime urijoin url
           self_add_ancestors) in Hin.
  destruct Hin as (content & cid & u & hc & Hc & Hid & Hu & Hhc & Hn).
  exists content, cid, u, hc. repeat split; auto.
  - eapply normalize_content_url; eauto.
  - intros k Hk1 Hk2. eapply normalize_keeps; eauto.
  - apply (normalize_identity str_to_datetime url _ _ _ _ Hn).
  - unfold Confluence.metadata_updated_on.
    now rewrite (proj2 (normalize_identity str_to_datetime url _ _ _ _ Hn)).
Qed.

(** X7. Two items with string ids and integer version numbers have the same
    identity only when they have the same id and the same version
    number. *)
Theorem metadata_id_injective item1 item2 id1 id2 n1 n2 :
  getitem item1 "id" = Return (JStr id1) ->
  Confluence.version_number item1 = Return (JNum n1) ->
  getitem item2 "id" = Return (JStr id2) ->
  Confluence.version_number item2 = Return (JNum n2) ->
  metadata_id item1 = metadata_id item2 ->
  id1 = id2 /\ n1 = n2.
Proof.
  unfold Confluence.metadata_id, Confluence.version_number.
  intros H1 V1 H2 V2. rewrite H1, H2. cbn [bind].
  destruct (getitem item1 "version") as [ver1|e|]; cbn [bind] in *; try discriminate.
  destruct (getitem item2 "version") as [ver2|e|]; cbn [bind] in *; try discriminate.
  rewrite V1, V2. cbn. intros [= H]. now apply identity_inj.
Qed.

End WalkEdges.

(* ================================================================== *)
(** ** The Discourse client *)

Lemma for_events_yields {X Y} (evs : list (event X)) fin (body : X -> run Y unit) y :
  In y (yields (events (for_events evs fin body))) ->
  exists x, In x (yields evs) /\ In y (yields (events (body x))).
Proof.
  induction evs as [|[u p|x] evs IH]; cbn.
  - destruct fin; cbn; tauto.
  - exact IH.
  - unfold seq. destruct (final (body x)); cbn; rewrite ?yields_app, ?in_app_iff.
    + intros [H|H]; [eauto|]. destruct (IH H) as (x' & ? & ?). eauto.
    + eauto.
    + eauto.
Qed.

Lemma for_list_requests_none {X Y} (l : list X) (body : X -> run Y unit) :
  (forall x, requests (events (body x)) = []) ->
  requests (events (for_list l body)) = [].
Proof.
  intros H. induction l as [|x l IH]; cbn; [reflexivity|].
  unfold seq. destruct (final (body x)); cbn; rewrite ?requests_app, ?H; auto.
Qed.

Lemma seq_events {Y A B} (r : run Y A) (k : A -> run Y B) :
  events (seq r k) =
  (events r ++ match final r with Return a => events (k a) | _ => [] end)%list.
Proof. unfold seq. destruct (final r); cbn; now rewrite ?app_nil_r. Qed.

Lemma seq_final {Y A B} (r : run Y A) (k : A -> run Y B) :
  final (seq r k) =
  match final r with
  | Return a => final (k a)
  | Raise e => Raise e
  | Diverge => Diverge
  end.
Proof. unfold seq. now destruct (final r). Qed.

Section DiscourseProps.

Variable http_get : string -> dict -> exn + json.
Variable str_to_datetime : json -> exn + datetime.
Variable urljoin : list string -> string.
Variable url : string.
Variable token : json.

Local Abbreviation build_base_url := (DiscourseClient.build_base_url urljoin url).
Local Abbreviation build_payload := (DiscourseClient.build_payload token).
Local Abbreviation when_of := (DiscourseClient.when_of str_to_datetime).
Local Abbreviation page_topic_ids := (DiscourseClient.page_topic_ids str_to_datetime).
Local Abbreviation more_topics :=
  (DiscourseClient.more_topics http_get str_to_datetime url token).
Local Abbreviation get_topics_id_list :=
  (DiscourseClient.get_topics_id_list http_get str_to_datetime urljoin url token).
Local Abbreviation chunk_posts := (DiscourseClient.chunk_posts str_to_datetime).
Local Abbreviation late_posts :=
  (DiscourseClient.late_posts http_get str_to_datetime urljoin url token).
Local Abbreviation topic_posts :=
  (DiscourseClient.topic_posts http_get str_to_datetime urljoin url token).
Local Abbreviation get_posts :=
  (DiscourseClient.get_posts http_get str_to_datetime urljoin url token).
Local Abbreviation page_request := (DiscourseClient.page_request url token).

Lemma when_of_labelled post category_id post' :
  setitem post "_category_id" category_id = Return post' ->
  when_of post' "updated_at" = when_of post "updated_at" /\
  getitem post' "_category_id" = Return category_id.
Proof.
  intros H. unfold DiscourseClient.when_of.
  rewrite (getitem_setitem_other _ _ _ _ "updated_at" H) by discriminate.
  split; [reflexivity|].
  destruct post; cbn in H; try discriminate. injection H as <-.
  cbn. now rewrite lookup_assign_same.
Qed.

Lemma chunk_posts_requests from_date category_id posts :
  requests (events (chunk_posts from_date category_id posts)) = [].
Proof.
  apply for_list_requests_none. intros post. rewrite seq_lift.
  destruct (when_of post "updated_at") as [when|e|]; cbn; try reflexivity.
  destruct (ge when from_date); cbn; [|reflexivity].
  rewrite seq_lift. now destruct (setitem post "_category_id" category_id).
Qed.

Lemma page_topic_ids_requests from_date data :
  requests (events (page_topic_ids from_date data)) = [].
Proof.
  unfold DiscourseClient.page_topic_ids. rewrite seq_lift.
  match goal with |- context [match ?x with _ => _ end] => destruct x as [topics|e|] end;
    try reflexivity.
  apply for_list_requests_none. intros topic. rewrite seq_lift.
  destruct (DiscourseClient.when_of str_to_datetime topic "last_posted_at")
    as [when|e|]; cbn; try reflexivity.
  destruct (ge when from_date); cbn; [|reflexivity].
  rewrite seq_lift. now destruct (getitem topic "id").
Qed.

(** What [chunk_posts] yields for one post. *)
Lemma chunk_posts_yields from_date category_id posts post :
  In post (yields (events (chunk_posts from_date category_id posts))) ->
  exists when,
    when_of post "updated_at" = Return when /\ ge when from_date = true /\
    getitem post "_category_id" = Return category_id.
Proof.
  intros H. apply for_list_yields in H. destruct H as (p & _ & H).
  rewrite seq_lift in H.
  destruct (when_of p "updated_at") as [when|e|] eqn:Hw; cbn in H; try tauto.
  destruct (ge when from_date) eqn:Hge; cbn in H; [|tauto].
  rewrite seq_lift in H.
  destruct (setitem p "_category_id" category_id) as [p'|e|] eqn:Hs; cbn in H; try tauto.
  destruct H as [<-|[]]. destruct (when_of_labelled _ _ _ Hs) as [Hw' Hc].
  exists when. rewrite Hw'. auto.
Qed.

(** One round of the scan of the posts beyond the chunk. *)
Lemma late_posts_round from_date category_id id ids :
  late_posts from_date category_id (id :: ids) =
  match build_base_url "posts" id with
  | Return u =>
      let rq := Request u (build_payload JNull) in
      match http_get u (build_payload JNull) with
      | inl e => Run [rq] (Raise e)
      | inr data =>
          match when_of data "updated_at" with
          | Return when =>
              if ge when from_date then
                match setitem data "_category_id" category_id with
                | Return data' =>
                    let r := late_posts from_date category_id ids in
                    Run (rq :: Yield data' :: events r) (final r)
                | Raise e => Run [rq] (Raise e)
                | Diverge => Run [rq] Diverge
                end
              else Run [rq] (Return tt)
          | Raise e => Run [rq] (Raise e)
          | Diverge => Run [rq] Diverge
          end
      end
  | Raise e => lift (Raise e)
  | Diverge => lift Diverge
  end.
Proof.
  cbn [DiscourseClient.late_posts]. rewrite seq_lift.
  destruct (build_base_url "posts" id) as [u|e|]; try reflexivity.
  unfold DiscourseClient.get, seq, lift, yield, ret. cbn.
  destruct (http_get u (build_payload JNull)) as [e|data]; cbn; [reflexivity|].
  destruct (when_of data "updated_at") as [when|e|]; cbn; try reflexivity.
  destruct (ge when from_date); cbn; [|reflexivity].
  destruct (setitem data "_category_id" category_id); cbn; reflexivity.
Qed.

(** The scan of the posts beyond the chunk: each request but possibly
    the last one brought a post that was yielded. *)
Lemma late_posts_shape from_date category_id ids :
  let r := late_posts from_date category_id ids in
  (List.length (requests (events r)) <= S (List.length (yields (events r))))%nat /\
  Forall2 (fun rq id => build_base_url "posts" id = Return (fst rq) /\
                        snd rq = build_payload JNull)
    (requests (events r)) (firstn (List.length (requests (events r))) ids) /\
  Forall (fun post =>
            exists when,
              when_of post "updated_at" = Return when /\ ge when from_date = true /\
              getitem post "_category_id" = Return category_id)
    (yields (events r)).
Proof.
  cbn zeta. induction ids as [|id ids (IH1 & IH2 & IH3)].
  - cbn. repeat split; auto.
  - rewrite late_posts_round.
    destruct (build_base_url "posts" id) as [u|e|] eqn:Hu; cbn;
      try (split; [lia|split; constructor]).
    assert (Hone : Forall2
              (fun rq id0 => build_base_url "posts" id0 = Return (fst rq) /\
                             snd rq = build_payload JNull)
              [(u, build_payload JNull)] [id])
      by (constructor; [split; [exact Hu|reflexivity]|constructor]).
    destruct (http_get u (build_payload JNull)) as [e|data]; cbn;
      [split; [lia|split; [exact Hone|constructor]]|].
    destruct (when_of data "updated_at") as [when|e|] eqn:Hw; cbn;
      try (split; [lia|split; [exact Hone|constructor]]).
    destruct (ge when from_date) eqn:Hge; cbn;
      try (split; [lia|split; [exact Hone|constructor]]).
    destruct (setitem data "_category_id" category_id) as [data'|e|] eqn:Hs; cbn;
      try (split; [lia|split; [exact Hone|constructor]]).
    destruct (when_of_labelled _ _ _ Hs) as [Hw' Hc].
    split; [lia|]. split; [constructor; [split; [exact Hu|reflexivity]|exact IH2]|].
    constructor; [|exact IH3]. exists when. rewrite Hw'. auto.
Qed.

(** The topic ids of one page: those of the topics posted to at or
    after [from_date]. *)
Lemma page_topic_ids_yields from_date data id :
  In id (yields (events (page_topic_ids from_date data))) ->
  exists topic when,
    getitem topic "id" = Return id /\
    when_of topic "last_posted_at" = Return when /\ ge when from_date = true.
Proof.
  unfold DiscourseClient.page_topic_ids. rewrite seq_lift.
  match goal with |- context [match ?x with _ => _ end] => destruct x as [topics|e|] end;
    cbn; try tauto.
  intros H. apply for_list_yields in H. destruct H as (topic & _ & H).
  rewrite seq_lift in H. fold (when_of topic "last_posted_at") in H.
  destruct (when_of topic "last_posted_at") as [when|e|] eqn:Hw; cbn in H; try tauto.
  destruct (ge when from_date) eqn:Hge; cbn in H; [|tauto].
  rewrite seq_lift in H.
  destruct (getitem topic "id") as [id'|e|] eqn:Hid; cbn in H; try tauto.
  destruct H as [<-|[]]. exists topic, when. auto.
Qed.

Lemma more_topics_yields fuel from_date data page id :
  In id (yields (events (more_topics fuel from_date data page))) ->
  exists topic when,
    getitem topic "id" = Return id /\
    when_of topic "last_posted_at" = Return when /\ ge when from_date = true.
Proof.
  revert data page. induction fuel as [|fuel IH]; intros data page; cbn; [tauto|].
  rewrite seq_lift.
  match goal with |- context [match ?x with _ => _ end] => destruct x as [[|]|e|] end;
    cbn; try tauto.
  rewrite seq_events, yields_app. unfold DiscourseClient.get at 1 2. cbn.
  destruct (http_get _ _) as [e|data']; cbn; [tauto|].
  rewrite seq_events, yields_app, in_app_iff.
  intros [H|H]; [eapply page_topic_ids_yields; eauto|].
  destruct (final (page_topic_ids from_date data')); cbn in H; try tauto.
  eapply IH; eauto.
Qed.

Lemma more_topics_requests fuel from_date data page :
  exists k,
    requests (events (more_topics fuel from_date data page)) =
    map (fun i => (url ++ "/latest.json", build_payload (JNum (page + Z.of_nat i)))%string)
      (List.seq 1 k).
Proof.
  revert data page. induction fuel as [|fuel IH]; intros data page; cbn; [now exists O|].
  rewrite seq_lift.
  match goal with |- context [match ?x with _ => _ end] => destruct x as [[|]|e|] end;
    cbn; try (now exists O).
  rewrite seq_events, requests_app. unfold DiscourseClient.get at 1 2. cbn.
  destruct (http_get _ _) as [e|data']; cbn.
  { exists 1%nat. cbn. reflexivity. }
  rewrite seq_events, requests_app, page_topic_ids_requests. cbn [app].
  destruct (final (page_topic_ids from_date data')); cbn;
    try (exists 1%nat; reflexivity).
  destruct (IH data' (page + 1)) as (k & ->). exists (S k).
  cbn [List.seq map]. f_equal. rewrite <- (seq_shift k 1), map_map.
  apply map_ext. intros i. do 3 f_equal. lia.
Qed.

(** Where a post that [get_posts] yields comes from. *)
Lemma get_posts_yields fuel from_date post :
  In post (yields (events (get_posts fuel from_date))) ->
  exists topic_id u data category_id when,
    In topic_id (yields (events (get_topics_id_list fuel from_date))) /\
    build_base_url "t" topic_id = Return u /\
    http_get u (build_payload JNull) = inr data /\
    getitem data "category_id" = Return category_id /\
    getitem post "_category_id" = Return category_id /\
    when_of post "updated_at" = Return when /\ ge when from_date = true.
Proof.
  unfold DiscourseClient.get_posts, for_each. intros H.
  apply for_events_yields in H. destruct H as (topic_id & Ht & H).
  exists topic_id. unfold DiscourseClient.topic_posts in H.
  rewrite seq_lift in H.
  destruct (build_base_url "t" topic_id) as [u|e|] eqn:Hu; cbn in H; try tauto.
  rewrite seq_events, yields_app in H. unfold DiscourseClient.get at 1 2 in H. cbn in H.
  destruct (http_get u (build_payload JNull)) as [e|data] eqn:Hd; cbn in H; [tauto|].
  rewrite seq_lift in H.
  destruct (getitem data "category_id") as [category_id|e|] eqn:Hc; cbn in H; try tauto.
  exists u, data, category_id.
  assert (Hgoal : exists when,
             when_of post "updated_at" = Return when /\ ge when from_date = true /\
             getitem post "_category_id" = Return category_id).
  { rewrite seq_lift in H.
    destruct (getitem data "chunk_size") as [chunk_size|e|]; cbn in H; try tauto.
    rewrite seq_lift in H.
    match type of H with context [match ?x with _ => _ end] =>
      destruct x as [posts_stream|e|]; cbn in H; try tauto end.
    rewrite seq_lift in H.
    match type of H with context [match ?x with _ => _ end] =>
      destruct x as [posts|e|]; cbn in H; try tauto end.
    rewrite seq_events, yields_app, in_app_iff in H.
    destruct H as [H|H]; [eapply chunk_posts_yields; eauto|].
    destruct (final (chunk_posts from_date category_id posts)); cbn in H; try tauto.
    rewrite seq_lift in H.
    destruct (Seq.len posts_stream) as [n|e|]; cbn in H; try tauto.
    rewrite seq_lift in H.
    destruct (Seq.as_int chunk_size) as [c|e|]; cbn in H; try tauto.
    destruct (c <? n); cbn in H; [|tauto].
    rewrite seq_lift in H.
    destruct (Seq.slice_from posts_stream c) as [ids|e|]; cbn in H; try tauto.
    destruct (late_posts_shape from_date category_id (rev ids)) as (_ & _ & HF).
    cbn zeta in HF. rewrite Forall_forall in HF. auto. }
  destruct Hgoal as (when & Hw & Hge & Hcat). exists when. repeat split; auto.
Qed.


(** X9. The update time that the backend reads off a post of [get_posts]
    is the one the client has compared: it is not before that of
    [from_date]. *)
Theorem posts_updated_since_checkpoint fuel from_date post :
  In post (yields (events (get_posts fuel from_date))) ->
  exists ts,
    Discourse.metadata_updated_on str_to_datetime post = Return ts /\
    (timestamp from_date <= ts)%Q.
Proof.
  intros H. apply get_posts_yields in H.
  destruct H as (topic_id & u & data & category_id & when & H).
  destruct H as (_ & _ & _ & _ & _ & Hw & Hge).
  exists (timestamp when). unfold Discourse.metadata_updated_on.
  unfold DiscourseClient.when_of in Hw.
  destruct (getitem post "updated_at") as [ts|e|]; cbn [bind] in *; try discriminate.
  rewrite Hw. cbn [bind]. split; [reflexivity|].
  unfold ge in Hge. apply Z.leb_le in Hge.
  unfold timestamp, Qle. cbn. nia.
Qed.

(** X10. The posts that come with the topic are each compared on their own:
    when their dates can be read, those not older than [from_date] are
    yielded, all of them and in their order, with the category added. *)
Theorem chunk_posts_complete from_date category_id posts :
  Forall (fun post => exists when, when_of post "updated_at" = Return when) posts ->
  final (chunk_posts from_date category_id posts) = Return tt /\
  yields (events (chunk_posts from_date category_id posts)) =
    map (DiscourseClient.labelled category_id)
      (filter (DiscourseClient.fresh str_to_datetime from_date "updated_at") posts).
Proof.
  unfold DiscourseClient.chunk_posts.
  induction 1 as [|post posts [when Hw] _ [IHf IHy]]; [split; reflexivity|].
  cbn [for_list filter]. unfold DiscourseClient.fresh at 1.
  fold (when_of post "updated_at"). rewrite seq_final, seq_events, yields_app.
  rewrite seq_lift. fold (when_of post "updated_at"). rewrite Hw.
  destruct (ge when from_date); cbn.
  - assert (Hd : exists d, post = JObj d).
    { unfold DiscourseClient.when_of in Hw. destruct post; cbn in Hw; try discriminate.
      eauto. }
    destruct Hd as [d ->]. cbn. rewrite IHf, IHy. split; reflexivity.
  - rewrite IHf, IHy. split; reflexivity.
Qed.



(** X13. A topic whose post stream is not longer than its chunk costs
    one request. *)
Theorem topic_within_chunk topic_id from_date u data chunk_size posts_stream c n :
  build_base_url "t" topic_id = Return u ->
  http_get u (build_payload JNull) = inr data ->
  getitem data "chunk_size" = Return chunk_size ->
  (post_stream <- getitem data "post_stream" ;; getitem post_stream "stream")
    = Return posts_stream ->
  Seq.as_int chunk_size = Return c ->
  Seq.len posts_stream = Return n ->
  n <= c ->
  requests (events (topic_posts from_date topic_id)) = [(u, build_payload JNull)].
Proof.
  intros Hu Hd Hc Hs Hci Hn Hle. unfold DiscourseClient.topic_posts.
  rewrite seq_lift, Hu. rewrite seq_events, requests_app.
  unfold DiscourseClient.get at 1 2. cbn. rewrite Hd. cbn.
  f_equal. rewrite seq_lift.
  destruct (getitem data "category_id") as [category_id|e|]; try reflexivity.
  rewrite seq_lift, Hc, seq_lift, Hs, seq_lift.
  match goal with |- context [match ?x with _ => _ end] =>
    destruct x as [posts|e|]; try reflexivity end.
  rewrite seq_events, requests_app, chunk_posts_requests. cbn [app].
  destruct (final (chunk_posts from_date category_id posts)); try reflexivity.
  rewrite seq_lift, Hn, seq_lift, Hci.
  replace (c <? n) with false by (symmetry; apply Z.ltb_ge; lia). reflexivity.
Qed.

End DiscourseProps.

(** X14. Two posts with integer ids have the same identity only when they
    have the same id. *)
Theorem post_identity_injective item1 item2 n1 n2 :
  getitem item1 "id" = Return (JNum n1) ->
  getitem item2 "id" = Return (JNum n2) ->
  Discourse.metadata_id item1 = Discourse.metadata_id item2 ->
  n1 = n2.
Proof.
  unfold Discourse.metadata_id. intros -> ->. cbn. intros [= H].
  now apply str_int_inj.
Qed.


(* ================================================================== *)
(** ** The further properties on the example servers *)

Local Abbreviation wiki_base := (Confluence.client_base_url Demo.wiki).

(** On the example wiki, what [historical_content] returns for version
    1 of content 101 is the answer to the request that names it. *)
Lemma historical_content_first_page_witness :
  exists id,
    str (JStr "101") = Return id /\
    Demo.wiki_fetch (ConfluenceClient.content_url wiki_base id)
      (ConfluenceClient.version_params 1)
    = inr (Demo.snapshot "101" 1 "2016-01-10T09:00:00.000Z" false).
Proof.
  apply (proj2 (historical_content_first_page Demo.wiki_fetch Demo.urijoin wiki_base
                  10%nat (JStr "101") 1)).
  vm_compute. reflexivity.
Defined.

(** The answer for version 1 of content 9 links to a page that is not
    there: the call yields the first page, asks for the second and ends
    with status 404, and [historical_content] ends with it too. *)
Lemma call_yields_before_failure_witness :
  let u := Demo.api "content/9" in
  let params := ConfluenceClient.version_params 1 in
  let call := ConfluenceClient._call_loop Samples.broken_fetch Demo.urijoin wiki_base
                5%nat u params in
  yields (events call) = [Samples.broken_first] /\
  final call = Raise (HTTPError 404) /\
  List.length (requests (events call)) = 2%nat /\
  final (ConfluenceClient.historical_content Samples.broken_fetch Demo.urijoin wiki_base
           5%nat (JStr "9") 1) = Raise (HTTPError 404).
Proof.
  cbn zeta.
  assert (Hp : Broken.pages_then_fail Samples.broken_fetch Demo.urijoin wiki_base
                 (Demo.api "content/9") (ConfluenceClient.version_params 1)
                 [Samples.broken_first] (HTTPError 404)).
  { apply Broken.fails_later with (r := (Demo.api "content/9/more", [])).
    - vm_compute. reflexivity.
    - vm_compute. reflexivity.
    - apply Broken.fails_now. vm_compute. reflexivity. }
  destruct (call_yields_before_failure Samples.broken_fetch Demo.urijoin wiki_base
              _ _ _ _ Hp 5%nat) as (H1 & H2 & H3 & H4).
  { cbn. lia. }
  split; [exact H1|]. split; [exact H2|]. split; [exact H3|].
  apply (H4 (JStr "9") "9"%string 1); vm_compute; reflexivity.
Defined.

(** On the example wiki the walk of content 101 sends the same requests
    with a checkpoint in June 2016 as with none. *)
Lemma walk_requests_ignore_checkpoint_witness :
  requests (events (wiki_walk_loop 10%nat 3%nat (JStr "101") Demo.june_2016 1)) =
    requests (events (wiki_walk_loop 10%nat 3%nat (JStr "101") (utc 0) 1)) /\
  final (wiki_walk_loop 10%nat 3%nat (JStr "101") Demo.june_2016 1) =
    final (wiki_walk_loop 10%nat 3%nat (JStr "101") (utc 0) 1).
Proof.
  apply (walk_requests_ignore_checkpoint Demo.wiki_fetch Demo.str_to_datetime
           Demo.urijoin Demo.wiki 10%nat 3%nat (JStr "101") Demo.june_2016 (utc 0) 1).
  intros v hc Hv Hf.
  assert (Hcases : v = 1 \/ v = 2 \/ v = 3) by (cbn in Hv; lia).
  destruct Hcases as [-> | [-> | ->]]; vm_compute in Hf; injection Hf as <-;
    vm_compute; reflexivity.
Defined.

(** Version 1 of content 11 comes without an [id] and dates from
    February 2016: without a checkpoint it is emitted, with a checkpoint
    in June the walk ends with [KeyError]. *)
Lemma skipped_version_needs_id_witness :
  let walk from_date :=
    Confluence.fetch_historical_contents_loop Samples.broken_fetch
      Demo.str_to_datetime Demo.urijoin Demo.wiki 5%nat 1%nat (JStr "11") from_date 1 in
  (exists rest, yields (events (walk (utc 0))) = Samples.anonymous :: rest) /\
  yields (events (walk Demo.june_2016)) = [] /\
  final (walk Demo.june_2016) = Raise (KeyError "id").
Proof.
  cbn zeta.
  assert (Hf : final (ConfluenceClient.historical_content Samples.broken_fetch
                        Demo.urijoin wiki_base 5%nat (JStr "11") 1)
               = Return Samples.anonymous) by (vm_compute; reflexivity).
  assert (Hw : Confluence.version_when Demo.str_to_datetime Samples.anonymous
               = Return (utc 1454313600000000)) by (vm_compute; reflexivity).
  assert (Hid : getitem Samples.anonymous "id" = Raise (KeyError "id"))
    by (vm_compute; reflexivity).
  split.
  - apply (proj1 (skipped_version_needs_id Samples.broken_fetch Demo.str_to_datetime
                    Demo.urijoin Demo.wiki 5%nat 0%nat (JStr "11") (utc 0) 1
                    Samples.anonymous (utc 1454313600000000) Hf Hw Hid)).
    vm_compute. reflexivity.
  - apply (proj2 (skipped_version_needs_id Samples.broken_fetch Demo.str_to_datetime
                    Demo.urijoin Demo.wiki 5%nat 0%nat (JStr "11") Demo.june_2016 1
                    Samples.anonymous (utc 1454313600000000) Hf Hw Hid)).
    vm_compute. reflexivity.
Defined.

(** A server that has nothing answers the first search request with
    status 404, and that is all the harvest does. *)
Lemma summary_failure_is_fatal_witness :
  Confluence.fetch_items Samples.no_fetch Demo.str_to_datetime Demo.urijoin Demo.wiki
    false 1%nat Demo.june_2016 =
  Run [Request (ConfluenceClient.search_url wiki_base false)
         (ConfluenceClient.search_params Demo.june_2016 JNull MAX_CONTENTS)]
      (Raise (HTTPError 404)).
Proof.
  apply (proj2 (summary_failure_is_fatal Samples.no_fetch Demo.str_to_datetime
                  Demo.urijoin Demo.wiki false 0%nat Demo.june_2016)).
  vm_compute. reflexivity.
Defined.

(** The first item of the harvest of the example wiki. *)
Lemma items_are_enriched_versions_witness :
  exists content cid u hc,
    In content (yields (events (wiki_summaries 10%nat Demo.june_2016))) /\
    getitem content "id" = Return cid /\
    Confluence.content_url_of Demo.urijoin Demo.wiki content = Return u /\
    In hc (yields (events (wiki_walk 10%nat cid Demo.june_2016))) /\
    getitem Samples.first_item "content_url" = Return (JStr u) /\
    (forall k, k <> "content_url"%string -> k <> "ancestors"%string ->
               getitem Samples.first_item k = getitem hc k) /\
    Confluence.metadata_id Samples.first_item = Confluence.metadata_id hc /\
    Confluence.metadata_updated_on Demo.str_to_datetime Samples.first_item =
      Confluence.metadata_updated_on Demo.str_to_datetime hc.
Proof.
  apply (items_are_enriched_versions Demo.wiki_fetch Demo.str_to_datetime Demo.urijoin
           Demo.wiki false 10%nat Demo.june_2016 Samples.first_item).
  vm_compute. left. reflexivity.
Defined.

(** Two snapshots of version 3 of content 101 that differ in other
    fields have the same identity. *)
Lemma metadata_id_injective_witness :
  Samples.twin1 <> Samples.twin2 /\
  Confluence.metadata_id Samples.twin1 = Confluence.metadata_id Samples.twin2 /\
  "101"%string = "101"%string /\ 3 = 3.
Proof.
  split; [discriminate|]. split; [vm_compute; reflexivity|].
  apply (metadata_id_injective Samples.twin1 Samples.twin2 "101" "101" 3 3);
    vm_compute; reflexivity.
Defined.


(** Topic 3 of the example board has one post and a chunk of twenty:
    it costs one request. *)
Lemma topic_within_chunk_witness :
  requests (events (DiscourseClient.topic_posts Samples.forum_get Demo.str_to_datetime
                      Samples.urljoin Samples.forum JNull Demo.june_2016 (JNum 3))) =
  [("https://forum.example.org/t/3.json"%string, DiscourseClient.build_payload JNull JNull)].
Proof.
  apply (topic_within_chunk Samples.forum_get Demo.str_to_datetime Samples.urljoin
           Samples.forum JNull (JNum 3) Demo.june_2016
           "https://forum.example.org/t/3.json"
           (Samples.thread 8 20 [30] [Samples.post 30 "2016-07-06T10:00:00.000Z"])
           (JNum 20) (JArr [JNum 30]) 20 1);
    try (vm_compute; reflexivity).
  lia.
Defined.

(** The update time of the post 13 of the example board is not before
    June 2016. *)
Lemma posts_updated_since_checkpoint_witness :
  exists ts,
    Discourse.metadata_updated_on Demo.str_to_datetime
      (JObj [("id", JNum 13);
             ("updated_at", JStr "2016-07-05T10:00:00.000Z");
             ("_category_id", JNum 5)]) = Return ts /\
    (timestamp Demo.june_2016 <= ts)%Q.
Proof.
  apply (posts_updated_since_checkpoint Samples.forum_get Demo.str_to_datetime
           Samples.urljoin Samples.forum JNull 10%nat Demo.june_2016).
  vm_compute. right. left. reflexivity.
Defined.

(** Of the two posts that come with topic 1 the second is from July
    2016: it is yielded with category 5, the first is not. *)
Lemma chunk_posts_complete_witness :
  let posts := [Samples.post 10 "2016-01-05T10:00:00.000Z";
                Samples.post 11 "2016-07-01T10:00:00.000Z"] in
  let chunk := DiscourseClient.chunk_posts Demo.str_to_datetime Demo.june_2016
                 (JNum 5) posts in
  final chunk = Return tt /\
  yields (events chunk) =
    map (DiscourseClient.labelled (JNum 5))
      (filter (DiscourseClient.fresh Demo.str_to_datetime Demo.june_2016 "updated_at")
         posts).
Proof.
  cbn zeta.
  apply (chunk_posts_complete Demo.str_to_datetime Demo.june_2016 (JNum 5)).
  repeat constructor; eexists; vm_compute; reflexivity.
Defined.

(** Two states of post 13 have one identity. *)
Lemma post_identity_injective_witness :
  Discourse.metadata_id (Samples.post 13 "2016-07-05T10:00:00.000Z") =
    Discourse.metadata_id (Samples.post 13 "2016-08-01T10:00:00.000Z") /\
  13 = 13.
Proof.
  split; [vm_compute; reflexivity|].
  apply (post_identity_injective (Samples.post 13 "2016-07-05T10:00:00.000Z")
           (Samples.post 13 "2016-08-01T10:00:00.000Z") 13 13);
    vm_compute; reflexivity.
Defined.

(* ================================================================== *)
(** ** Properties of the CSV backend *)

Lemma csv_lookup_assign_same k v (d : CSV.entry) :
  CSV.lookup k (CSV.assign k v d) = Some v.
Proof.
  induction d as [|[k' v'] d IH]; cbn.
  - now rewrite String.eqb_refl.
  - destruct (String.eqb k k') eqn:E; cbn; rewrite ?String.eqb_refl, ?E; auto.
Qed.

Lemma csv_lookup_assign_other k k' v (d : CSV.entry) :
  k <> k' -> CSV.lookup k (CSV.assign k' v d) = CSV.lookup k d.
Proof.
  intros Hne. induction d as [|[k0 v0] d IH]; cbn.
  - apply String.eqb_neq in Hne. now rewrite Hne.
  - destruct (String.eqb k' k0) eqn:E; cbn.
    + apply String.eqb_eq in E. subst k0.
      apply String.eqb_neq in Hne. now rewrite Hne.
    + now rewrite IH.
Qed.

Lemma csv_mem_assign k k' v (d : CSV.entry) :
  CSV.mem k d = true -> CSV.mem k (CSV.assign k' v d) = true.
Proof.
  unfold CSV.mem. destruct (string_dec k k') as [->|Hne].
  - now rewrite csv_lookup_assign_same.
  - now rewrite csv_lookup_assign_other.
Qed.

Lemma split_comma_nonempty s : CSV.split_comma s <> [].
Proof.
  destruct s as [|c s]; cbn; [discriminate|].
  destruct (Ascii.eqb c ","); [discriminate|].
  destruct (CSV.split_comma s); discriminate.
Qed.

Section CSVProps.

Variable strptime_timestamp : string -> string -> exn + Q.
Variable strip : string -> string.
Variable csv_header : string.
Variable date_formats : string.
Variable skip_header : bool.
Variable id_columns : string.
Variable date_column : string.

Local Abbreviation dateToTs := (CSV.dateToTs strptime_timestamp).
Local Abbreviation rejects := (CSV.rejects strptime_timestamp).
Local Abbreviation columns_loop :=
  (CSV.columns_loop strptime_timestamp strip date_formats date_column).
Local Abbreviation row_entry :=
  (CSV.row_entry strptime_timestamp strip csv_header date_formats id_columns date_column).
Local Abbreviation fetch_entries :=
  (CSV.fetch_entries strptime_timestamp strip csv_header date_formats id_columns
     date_column).
Local Abbreviation fetch_items :=
  (CSV.fetch_items strptime_timestamp strip csv_header date_formats skip_header
     id_columns date_column).
Local Abbreviation parse_entries := (CSV.parse_entries skip_header).
Local Abbreviation covers_header := (CSV.covers_header csv_header).
Local Abbreviation header_keys := (CSV.header_keys strip csv_header).
Local Abbreviation parsed_stamp :=
  (CSV.parsed_stamp strptime_timestamp strip date_formats).

(** [parse_entries] drops the first row when the header is skipped, and
    nothing else. *)
Lemma parse_entries_tail rows :
  parse_entries rows = if skip_header then tl rows else rows.
Proof.
  assert (H : forall i rows, CSV.parse_entries_from skip_header (S i) rows = rows).
  { intros i rs. revert i. induction rs as [|r rs IH]; intros i; cbn; [reflexivity|].
    rewrite andb_false_r. now rewrite IH. }
  unfold CSV.parse_entries. destruct rows as [|r rows]; cbn.
  - now destruct skip_header.
  - rewrite H. now destruct skip_header.
Qed.

(** X15. [dateToTs] gives the timestamp of the first format that reads the
    date, and nothing when none does: the order of the formats
    decides between two that both read it. *)
Theorem dateToTs_first_match date formats :
  (forall ts,
     dateToTs date formats = Some ts <->
     exists before format after,
       formats = (before ++ format :: after)%list /\
       Forall (rejects date) before /\
       strptime_timestamp date format = inr ts) /\
  (dateToTs date formats = None <-> Forall (rejects date) formats).
Proof.
  induction formats as [|head tail [IHs IHn]]; cbn.
  - split.
    + intros ts. split; [discriminate|].
      intros (before & format & after & H & _). now destruct before.
    + split; auto.
  - destruct (strptime_timestamp date head) as [e|ts0] eqn:E.
    + split.
      * intros ts. rewrite IHs. split.
        -- intros (before & format & after & -> & Hb & Hf).
           exists (head :: before), format, after. repeat split; auto.
           constructor; auto. now exists e.
        -- intros (before & format & after & H & Hb & Hf).
           destruct before as [|b before]; cbn in H; injection H as <- ->.
           ++ congruence.
           ++ exists before, format, after. inversion Hb. auto.
      * rewrite IHn. split.
        -- intros H. constructor; auto. now exists e.
        -- intros H. now inversion H.
    + split.
      * intros ts. split.
        -- intros [= <-]. exists [], head, tail. auto.
        -- intros (before & format & after & H & Hb & Hf).
           destruct before as [|b before]; cbn in H; injection H as <- ->.
           ++ congruence.
           ++ inversion Hb as [|? ? [e He] _]. congruence.
      * split; [discriminate|]. intros H. inversion H as [|? ? [e He] _]. congruence.
Qed.

(** A row that has a field for every column gives a dict. *)
Lemma columns_loop_total columns : forall i item row,
  (i + List.length columns <= List.length item)%nat ->
  exists row', columns_loop i columns item row = Return row'.
Proof.
  induction columns as [|column columns IH]; intros i item row Hlen; cbn.
  - eauto.
  - destruct (nth_error item i) as [raw|] eqn:E.
    + apply IH. cbn in Hlen. lia.
    + apply nth_error_None in E. cbn in Hlen. lia.
Qed.

(** A row with fewer fields than columns raises [IndexError]. *)
Lemma columns_loop_short columns : forall i item row,
  (i <= List.length item < i + List.length columns)%nat ->
  columns_loop i columns item row = Raise IndexError.
Proof.
  induction columns as [|column columns IH]; intros i item row Hlen; cbn in *.
  - lia.
  - destruct (nth_error item i) as [raw|] eqn:E; [|reflexivity].
    apply IH. assert (i < List.length item)%nat by (apply nth_error_Some; congruence).
    lia.
Qed.

(** A key of the dict stays one. *)
Lemma columns_loop_mem columns k : forall i item row row',
  columns_loop i columns item row = Return row' ->
  CSV.mem k row = true -> CSV.mem k row' = true.
Proof.
  induction columns as [|column columns IH]; intros i item row row'; cbn.
  - now intros [= <-].
  - destruct (nth_error item i) as [raw|]; [|discriminate].
    intros H Hm. eapply IH; [exact H|]. apply csv_mem_assign.
    destruct (String.eqb column date_column); auto.
    destruct (dateToTs _ _) as [t|]; auto.
    destruct (CSV.nonzero t); auto. now apply csv_mem_assign.
Qed.

(** The key of a column is a key of the dict. *)
Lemma columns_loop_key columns column : forall i item row row',
  columns_loop i columns item row = Return row' ->
  In column columns -> CSV.mem (strip column) row' = true.
Proof.
  induction columns as [|c columns IH]; intros i item row row'; cbn; [tauto|].
  destruct (nth_error item i) as [raw|]; [|discriminate].
  intros H [->|Hin].
  - eapply columns_loop_mem; [exact H|]. unfold CSV.mem.
    now rewrite csv_lookup_assign_same.
  - eapply IH; eauto.
Qed.

(** A key that is neither [timestamp] nor the key of a column keeps its
    value. *)
Lemma columns_loop_keeps columns k : forall i item row row',
  columns_loop i columns item row = Return row' ->
  ~ In k (map strip columns) -> k <> "timestamp"%string ->
  CSV.lookup k row' = CSV.lookup k row.
Proof.
  induction columns as [|column columns IH]; intros i item row row'; cbn.
  - now intros [= <-].
  - destruct (nth_error item i) as [raw|]; [|discriminate].
    intros H Hk Hts. rewrite (IH _ _ _ _ H) by tauto.
    rewrite csv_lookup_assign_other by (intros ->; tauto).
    destruct (String.eqb column date_column); auto.
    destruct (dateToTs _ _) as [t|]; auto.
    destruct (CSV.nonzero t); auto. now rewrite csv_lookup_assign_other.
Qed.

(** Without the date column among the columns, [timestamp] keeps its
    value unless a column has it for key. *)
Lemma columns_loop_no_date columns : forall i item row row',
  columns_loop i columns item row = Return row' ->
  ~ In date_column columns -> ~ In "timestamp"%string (map strip columns) ->
  CSV.lookup "timestamp" row' = CSV.lookup "timestamp" row.
Proof.
  induction columns as [|column columns IH]; intros i item row row'; cbn.
  - now intros [= <-].
  - destruct (nth_error item i) as [raw|]; [|discriminate].
    intros H Hd Hts. rewrite (IH _ _ _ _ H) by tauto.
    rewrite csv_lookup_assign_other by (intros E; symmetry in E; tauto).
    destruct (String.eqb column date_column) eqn:E; auto.
    apply String.eqb_eq in E. tauto.
Qed.

(** With distinct keys, none of them [timestamp], each column gives its
    key the stripped field of the row, and the date column gives
    [timestamp] what its field parses to. *)
Lemma columns_loop_fields columns : forall i item row row',
  columns_loop i columns item row = Return row' ->
  NoDup (map strip columns) -> ~ In "timestamp"%string (map strip columns) ->
  (forall j column raw,
     nth_error columns j = Some column -> nth_error item (i + j) = Some raw ->
     CSV.lookup (strip column) row' = Some (CSV.Text (strip raw))) /\
  (forall j raw,
     nth_error columns j = Some date_column -> nth_error item (i + j) = Some raw ->
     CSV.lookup "timestamp" row' =
     match parsed_stamp raw with
     | Some stamp => Some stamp
     | None => CSV.lookup "timestamp" row
     end).
Proof.
  induction columns as [|column columns IH]; intros i item row row'; cbn [CSV.columns_loop].
  - intros _ _ _. split; intros [|j]; discriminate.
  - destruct (nth_error item i) as [raw0|] eqn:Ei; [|discriminate].
    intros H Hnd Hts. cbn in Hnd, Hts. inversion Hnd as [|? ? Hnotin Hnd']; subst.
    destruct (IH _ _ _ _ H Hnd') as [IHf IHd]; [tauto|].
    split.
    + intros [|j] col raw; cbn [nth_error].
      * intros [= <-]. rewrite Nat.add_0_r, Ei. intros [= <-].
        rewrite (columns_loop_keeps _ _ _ _ _ _ H) by (auto; intros E; symmetry in E; tauto).
        apply csv_lookup_assign_same.
      * intros Hc Hr. apply (IHf j); auto.
        now replace (S i + j)%nat with (i + S j)%nat by lia.
    + intros [|j] raw; cbn [nth_error].
      * intros [= ->]. rewrite Nat.add_0_r, Ei. intros [= <-].
        assert (Hnot : ~ In date_column columns).
        { intros Hin. apply Hnotin. now apply in_map. }
        rewrite (columns_loop_no_date _ _ _ _ _ H) by tauto.
        rewrite csv_lookup_assign_other by (intros E; symmetry in E; tauto).
        rewrite String.eqb_refl. unfold CSV.parsed_stamp.
        destruct (dateToTs _ _) as [t|]; auto.
        destruct (CSV.nonzero t); auto. apply csv_lookup_assign_same.
      * intros Hc Hr.
        rewrite (IHd j raw) by (auto; now replace (S i + j)%nat with (i + S j)%nat by lia).
        destruct (parsed_stamp raw); auto.
        rewrite csv_lookup_assign_other by (intros E; symmetry in E; tauto).
        destruct (String.eqb column date_column) eqn:E; auto.
        apply String.eqb_eq in E. subst column.
        exfalso. apply Hnotin. apply in_map. eapply nth_error_In; eauto.
Qed.

(** The events of the loop over the entries, entry by entry. *)
Lemma fetch_entries_cons item entries :
  fetch_entries (item :: entries) =
  match row_entry item with
  | Return row =>
      if CSV.mem "timestamp" row
      then Run (Yield row :: events (fetch_entries entries))
               (final (fetch_entries entries))
      else fetch_entries entries
  | Raise e => Run [] (Raise e)
  | Diverge => Run [] Diverge
  end.
Proof.
  unfold CSV.fetch_entries. cbn [for_list]. rewrite seq_lift.
  destruct (row_entry item) as [row|e|]; cbn; try reflexivity.
  destruct (CSV.mem "timestamp" row); reflexivity.
Qed.

(** X16. A row shorter than the header ends the fetch with [IndexError]:
    the rows before it have given their items, the rows after it are
    not looked at. *)
Theorem short_row_stops_fetch before item after :
  Forall covers_header before ->
  ~ covers_header item ->
  events (fetch_entries (before ++ item :: after)) = events (fetch_entries before) /\
  final (fetch_entries (before ++ item :: after)) = Raise IndexError.
Proof.
  intros Hb Hshort. induction Hb as [|item0 before H0 Hb IH]; cbn [app].
  - rewrite fetch_entries_cons. unfold CSV.row_entry.
    rewrite columns_loop_short; [split; reflexivity|].
    unfold CSV.covers_header in Hshort. lia.
  - rewrite !fetch_entries_cons.
    destruct (columns_loop_total (CSV.split_comma csv_header) 0 item0
                (CSV.assign "_id_columns" (CSV.Text id_columns) []) H0) as (row & Hrow).
    unfold CSV.row_entry. rewrite Hrow.
    destruct IH as [IHe IHf].
    destruct (CSV.mem "timestamp" row); cbn; rewrite ?IHe, ?IHf; split; reflexivity.
Qed.

(** X17. The date column is looked for among the columns as the header
    spells them, not stripped: when it is not there, and no column has
    [timestamp] for key, no row gives an item. *)
Theorem no_date_column_no_items rows :
  ~ In date_column (CSV.split_comma csv_header) ->
  ~ In "timestamp"%string header_keys ->
  yields (events (fetch_items rows)) = [].
Proof.
  intros Hd Hts. unfold CSV.fetch_items. cbn zeta.
  induction (parse_entries rows) as [|item entries IH]; [reflexivity|].
  rewrite fetch_entries_cons.
  destruct (row_entry item) as [row|e|] eqn:E; try reflexivity.
  unfold CSV.row_entry in E.
  unfold CSV.mem. rewrite (columns_loop_no_date _ _ _ _ _ E Hd Hts). cbn. exact IH.
Qed.

(** X18. The dict of a row, when the keys of the header are distinct and
    none of them is [timestamp] or [_id_columns]: every column has the
    stripped field of the row under its key, [_id_columns] has the id
    columns, and [timestamp] is there only when a format reads the date
    field and the timestamp it gives is not zero; the row gives an item
    in that case only. *)
Theorem row_entry_fields item k raw :
  NoDup header_keys ->
  ~ In "timestamp"%string header_keys ->
  ~ In "_id_columns"%string header_keys ->
  covers_header item ->
  nth_error (CSV.split_comma csv_header) k = Some date_column ->
  nth_error item k = Some raw ->
  exists row,
    row_entry item = Return row /\
    CSV.lookup "_id_columns" row = Some (CSV.Text id_columns) /\
    (forall j column field,
       nth_error (CSV.split_comma csv_header) j = Some column ->
       nth_error item j = Some field ->
       CSV.lookup (strip column) row = Some (CSV.Text (strip field))) /\
    CSV.lookup "timestamp" row = parsed_stamp raw /\
    yields (events (fetch_entries [item])) =
      match parsed_stamp raw with Some _ => [row] | None => [] end.
Proof.
  intros Hnd Hts Hid Hcov Hk Hraw.
  destruct (columns_loop_total (CSV.split_comma csv_header) 0 item
              (CSV.assign "_id_columns" (CSV.Text id_columns) []) Hcov) as (row & Hrow).
  exists row. unfold CSV.row_entry at 1. split; [exact Hrow|].
  destruct (columns_loop_fields _ _ _ _ _ Hrow Hnd Hts) as [Hf Hd].
  assert (Hstamp : CSV.lookup "timestamp" row = parsed_stamp raw).
  { rewrite (Hd k raw Hk Hraw). now destruct (parsed_stamp raw). }
  split; [|split; [|split]].
  - rewrite (columns_loop_keeps _ _ _ _ _ _ Hrow Hid) by discriminate. reflexivity.
  - intros j column field Hc Hfd. now apply (Hf j).
  - exact Hstamp.
  - rewrite fetch_entries_cons. unfold CSV.row_entry. rewrite Hrow.
    unfold CSV.mem. rewrite Hstamp.
    now destruct (parsed_stamp raw).
Qed.

(** X19. A header column whose key is [timestamp] makes every row that
    covers the header an item, whether its date is read or not. *)
Theorem timestamp_column_emits_every_row entries :
  In "timestamp"%string header_keys ->
  Forall covers_header entries ->
  final (fetch_entries entries) = Return tt /\
  Forall2 (fun item row => row_entry item = Return row)
    entries (yields (events (fetch_entries entries))).
Proof.
  intros Hts Hcov. apply in_map_iff in Hts. destruct Hts as (column & Hkey & Hin).
  induction Hcov as [|item entries H0 Hcov IH]; [split; [reflexivity|constructor]|].
  rewrite fetch_entries_cons.
  destruct (columns_loop_total (CSV.split_comma csv_header) 0 item
              (CSV.assign "_id_columns" (CSV.Text id_columns) []) H0) as (row & Hrow).
  assert (Hr : row_entry item = Return row) by exact Hrow.
  rewrite Hr.
  pose proof (columns_loop_key _ _ _ _ _ _ Hrow Hin) as Hm. rewrite Hkey in Hm.
  rewrite Hm. cbn. destruct IH as [IHf IHy]. split; [exact IHf|].
  constructor; auto.
Qed.

End CSVProps.

Section CSVIdentity.

Variable strptime_timestamp : string -> string -> exn + Q.
Variable strip : string -> string.
Variable b64encode : string -> string.
Variable csv_header : string.
Variable date_formats : string.
Variable id_columns : string.
Variable date_column : string.

Local Abbreviation row_entry :=
  (CSV.row_entry strptime_timestamp strip csv_header date_formats id_columns date_column).
Local Abbreviation header_keys := (CSV.header_keys strip csv_header).
Local Abbreviation metadata_id := (CSV.metadata_id b64encode).

(** X20. The id columns are looked up as [id_columns] spells them: one that
    is not a key of the header makes [metadata_id] fail on the item of
    every row. *)
Theorem unknown_id_column_fails item row column :
  ~ In "_id_columns"%string header_keys ->
  In column (CSV.split_comma id_columns) ->
  ~ In column header_keys ->
  column <> "timestamp"%string -> column <> "_id_columns"%string ->
  row_entry item = Return row ->
  exists e, metadata_id row = Raise e.
Proof.
  intros Hid Hin Hnot Hts Hidc Hrow. unfold CSV.row_entry in Hrow.
  unfold CSV.metadata_id.
  rewrite (columns_loop_keeps _ _ _ _ _ _ _ _ _ _ Hrow Hid) by discriminate. cbn [CSV.lookup CSV.assign].
  cbn.
  assert (Hnone : CSV.lookup column row = None).
  { rewrite (columns_loop_keeps _ _ _ _ _ _ _ _ _ _ Hrow Hnot Hts). cbn.
    apply String.eqb_neq in Hidc. now rewrite Hidc. }
  assert (H : forall columns acc,
             In column columns -> exists e, CSV.id_string columns row acc = Raise e).
  { induction columns as [|c columns IH]; intros acc; cbn; [tauto|].
    intros [->|Hc].
    - rewrite Hnone. eauto.
    - destruct (CSV.lookup c row) as [[v|t]|]; eauto. }
  destruct (H (CSV.split_comma id_columns) ""%string Hin) as (e & ->).
  exists e. reflexivity.
Qed.

(** X21. The identity joins the values of the id columns, each followed by
    a dash, and cannot tell a dash that ends a value from one that
    starts the next: two items that differ in this way only have the
    same identity. *)
Theorem metadata_id_dash_collision item1 item2 columns c1 c2 x y :
  CSV.lookup "_id_columns" item1 = Some (CSV.Text columns) ->
  CSV.lookup "_id_columns" item2 = Some (CSV.Text columns) ->
  CSV.split_comma columns = [c1; c2] ->
  CSV.lookup c1 item1 = Some (CSV.Text (x ++ "-")) ->
  CSV.lookup c2 item1 = Some (CSV.Text y) ->
  CSV.lookup c1 item2 = Some (CSV.Text x) ->
  CSV.lookup c2 item2 = Some (CSV.Text ("-" ++ y)) ->
  metadata_id item1 = metadata_id item2 /\
  metadata_id item1 = Return ("b'" ++ b64encode (x ++ "--" ++ y ++ "-") ++ "'")%string.
Proof.
  intros H1 H2 Hs A1 B1 A2 B2. unfold CSV.metadata_id.
  rewrite H1, H2, Hs. cbn. rewrite A1, B1, A2, B2. cbn.
  assert (E : forall a b c : string, ((a ++ b) ++ c = a ++ b ++ c)%string).
  { induction a; cbn; intros; [reflexivity|now f_equal]. }
  rewrite !E. cbn. split; reflexivity.
Qed.

End CSVIdentity.

(* ================================================================== *)
(** ** The CSV backend on the example sheet *)

(** The row of dave has two fields for three columns: the fetch ends
    there with what the row of alice gave, and never looks at bob. *)
Lemma short_row_stops_fetch_witness :
  events (Sheet.fetch_entries Sheet.header "id,name" "date"
            ([Sheet.alice] ++ Sheet.dave :: [Sheet.bob])) =
    events (Sheet.fetch_entries Sheet.header "id,name" "date" [Sheet.alice]) /\
  final (Sheet.fetch_entries Sheet.header "id,name" "date"
           ([Sheet.alice] ++ Sheet.dave :: [Sheet.bob])) = Raise IndexError.
Proof.
  apply (short_row_stops_fetch Sheet.strptime_timestamp Sheet.strip Sheet.header
           Sheet.formats "id,name" "date" [Sheet.alice] Sheet.dave [Sheet.bob]).
  - constructor; [|constructor]. vm_compute. lia.
  - vm_compute. lia.
Defined.

(** With the header [id, date] the date column is spelled with a space
    before it: no row gives an item. *)
Lemma no_date_column_no_items_witness :
  yields (events (CSV.fetch_items Sheet.strptime_timestamp Sheet.strip "id, date"
                    Sheet.formats false "id" "date"
                    [["1"; "2016-07-01"]; ["2"; "2016-07-02"]]%string)) = [].
Proof.
  apply (no_date_column_no_items Sheet.strptime_timestamp Sheet.strip "id, date"
           Sheet.formats false "id" "date").
  - vm_compute. intros [H|[H|[]]]; discriminate.
  - vm_compute. intros [H|[H|[]]]; discriminate.
Defined.

(** The row of alice: the name and the header column are stripped, and
    the date is read by the first format. *)
Lemma row_entry_fields_witness :
  exists row,
    CSV.row_entry Sheet.strptime_timestamp Sheet.strip Sheet.header Sheet.formats
      "id,name" "date" Sheet.alice = Return row /\
    CSV.lookup "_id_columns" row = Some (CSV.Text "id,name") /\
    (forall j column field,
       nth_error (CSV.split_comma Sheet.header) j = Some column ->
       nth_error Sheet.alice j = Some field ->
       CSV.lookup (Sheet.strip column) row = Some (CSV.Text (Sheet.strip field))) /\
    CSV.lookup "timestamp" row =
      CSV.parsed_stamp Sheet.strptime_timestamp Sheet.strip Sheet.formats "2016-07-01" /\
    yields (events (Sheet.fetch_entries Sheet.header "id,name" "date" [Sheet.alice])) =
      match CSV.parsed_stamp Sheet.strptime_timestamp Sheet.strip Sheet.formats
              "2016-07-01" with
      | Some _ => [row]
      | None => []
      end.
Proof.
  apply (row_entry_fields Sheet.strptime_timestamp Sheet.strip Sheet.header
           Sheet.formats "id,name" "date" Sheet.alice 2%nat "2016-07-01").
  - vm_compute. repeat constructor; cbn; intuition discriminate.
  - vm_compute. intuition discriminate.
  - vm_compute. intuition discriminate.
  - vm_compute. lia.
  - vm_compute. reflexivity.
  - vm_compute. reflexivity.
Defined.

(** With a column named [timestamp] the rows are items whatever their
    dates are; here no column is the date column. *)
Lemma timestamp_column_emits_every_row_witness :
  let entries := [["1"; "soon"]; ["2"; "later"]]%string in
  final (Sheet.fetch_entries "id,timestamp" "id" "date" entries) = Return tt /\
  Forall2 (fun item row =>
             CSV.row_entry Sheet.strptime_timestamp Sheet.strip "id,timestamp"
               Sheet.formats "id" "date" item = Return row)
    entries
    (yields (events (Sheet.fetch_entries "id,timestamp" "id" "date" entries))).
Proof.
  cbn zeta.
  apply (timestamp_column_emits_every_row Sheet.strptime_timestamp Sheet.strip
           "id,timestamp" Sheet.formats "id" "date").
  - vm_compute. right. left. reflexivity.
  - repeat constructor; vm_compute; lia.
Defined.

(** With the id columns [id, name] the second is looked up with its
    space, which no key has: the identity of the item of alice cannot
    be computed. *)
Lemma unknown_id_column_fails_witness :
  exists row,
    CSV.row_entry Sheet.strptime_timestamp Sheet.strip Sheet.header Sheet.formats
      "id, name" "date" Sheet.alice = Return row /\
    exists e, CSV.metadata_id Sheet.b64encode row = Raise e.
Proof.
  eexists. split; [vm_compute; reflexivity|].
  apply (unknown_id_column_fails Sheet.strptime_timestamp Sheet.strip Sheet.b64encode
           Sheet.header Sheet.formats "id, name" "date" Sheet.alice _ " name").
  - vm_compute. intuition discriminate.
  - vm_compute. right. left. reflexivity.
  - vm_compute. intuition discriminate.
  - discriminate.
  - discriminate.
  - vm_compute. reflexivity.
Defined.

(** The values [x-], [y] and [x], [-y] of the id columns give one
    identity. *)
Lemma metadata_id_dash_collision_witness :
  Sheet.dash_left <> Sheet.dash_right /\
  CSV.metadata_id Sheet.b64encode Sheet.dash_left =
    CSV.metadata_id Sheet.b64encode Sheet.dash_right /\
  CSV.metadata_id Sheet.b64encode Sheet.dash_left =
    Return ("b'" ++ Sheet.b64encode ("x" ++ "--" ++ "y" ++ "-") ++ "'")%string.
Proof.
  split; [discriminate|].
  apply (metadata_id_dash_collision Sheet.b64encode Sheet.dash_left Sheet.dash_right
           "a,b" "a" "b" "x" "y"); vm_compute; reflexivity.
Defined.
